(** * Descriptor-set cache of the Vulkan backend: keys, hashing, creation and binding

    A shallow embedding of [createDescriptorSets] and [bindDescriptors] of
    the descriptor-set cache (class [VuklanDescriptorSetCache] in the
    sources, with the keys and containers of VulkanPipelineCache.h).
    Machine integers are [Z] with their wrap-around written out, fixed-size
    C arrays are lists read with a default, hash maps are [gmap]s, and the
    Vulkan device is a small explicit state: a source of fresh handles, the
    results it will give to allocation requests, the contents of the
    descriptor sets, and the log of the calls it received. *)

From Stdlib Require Import ZArith List Lia Bool.
From stdpp Require Import base option list gmap.

Local Open Scope Z_scope.

(** ** Machine integers and byte images *)

Definition wrap32 (v : Z) : Z := v mod 2 ^ 32.
Definition wrap64 (v : Z) : Z := v mod 2 ^ 64.

(** Little-endian image of an [n]-byte unsigned integer. *)
Fixpoint le_bytes (n : nat) (v : Z) : list Z :=
  match n with
  | O => []
  | S n' => v mod 256 :: le_bytes n' (v / 256)
  end.

(** A C array [T a[N]]: element [i] for every [i < N]; a list that is too
    short reads as zero-initialised storage, a longer one is cut. *)
Definition c_array {A : Type} (N : nat) (d : A) (l : list A) : list A :=
  map (fun i => nth i l d) (seq 0 N).

Definition array_bytes {A : Type} (N : nat) (d : A) (f : A -> list Z)
    (l : list A) : list Z :=
  flat_map f (c_array N d l).

(** [memcmp(a, b, n) == 0] on two byte images. *)
Fixpoint bytes_eqb (a b : list Z) : bool :=
  match a, b with
  | [], [] => true
  | x :: a', y :: b' => (x =? y) && bytes_eqb a' b'
  | _, _ => false
  end.

(** ** Constants of [VulkanPipelineCache]

    [UBUFFER_BINDING_COUNT], [SAMPLER_BINDING_COUNT] and
    [VERTEX_ATTRIBUTE_COUNT] are aliases of constants declared elsewhere;
    their values are fixed by the byte sizes the header asserts for the key
    arrays (80 / 8, 1488 / 24 and 128 / 8). *)

Definition UBUFFER_BINDING_COUNT : nat := 10.
Definition SAMPLER_BINDING_COUNT : nat := 62.
Definition INPUT_ATTACHMENT_COUNT : nat := 1.
Definition SHADER_MODULE_COUNT : nat := 2.
Definition VERTEX_ATTRIBUTE_COUNT : nat := 16.
Definition DESCRIPTOR_TYPE_COUNT : nat := 3.
Definition INITIAL_DESCRIPTOR_SET_POOL_SIZE : Z := 512.

(** The Vulkan API's own marker, [~0ULL]. *)
Definition VK_WHOLE_SIZE : Z := 2 ^ 64 - 1.

(** Modelled from the spec: the declaration of [WHOLE_SIZE] is not among the
    sources.  The spec calls it "a sentinel size value distinct from the
    API's whole-size marker", and the code stores sizes "with 32 bits"; the
    largest 32-bit value is taken.  The general theorems below hold for
    any value of it. *)
Definition WHOLE_SIZE : Z := 2 ^ 32 - 1.

(** ** Vulkan handles and plain structures *)

Definition VkBuffer := Z.
Definition VkDescriptorSet := Z.
Definition VkDescriptorPool := Z.
Definition VkDescriptorSetLayout := Z.
Definition VkPipelineLayout := Z.
Definition VkCommandBuffer := Z.
Definition Timestamp := Z.
Definition PipelineLayoutKey := Z.

Record VkDescriptorImageInfo := {
  vk_sampler : Z;
  vk_imageView : Z;
  vk_imageLayout : Z
}.

Record VkDescriptorBufferInfo := {
  buffer : VkBuffer;
  offset : Z;
  range : Z
}.

(** [DescriptorImageInfo]: [VkDescriptorImageInfo] with explicit padding. *)
Record DescriptorImageInfo := {
  sampler : Z;
  imageView : Z;
  imageLayout : Z;
  padding : Z
}.

(** [DescriptorImageInfo::operator=(const VkDescriptorImageInfo&)]. *)
Definition DescriptorImageInfo_assign (that : VkDescriptorImageInfo)
    : DescriptorImageInfo :=
  {| sampler := vk_sampler that;
     imageView := vk_imageView that;
     imageLayout := vk_imageLayout that;
     padding := 0 |}.

(** [DescriptorImageInfo::operator VkDescriptorImageInfo()]. *)
Definition to_VkDescriptorImageInfo (i : DescriptorImageInfo)
    : VkDescriptorImageInfo :=
  {| vk_sampler := sampler i;
     vk_imageView := imageView i;
     vk_imageLayout := imageLayout i |}.

Definition zeroImageInfo : DescriptorImageInfo :=
  {| sampler := 0; imageView := 0; imageLayout := 0; padding := 0 |}.

(** ** The descriptor key *)

Record DescriptorKey := {
  uniformBuffers : list VkBuffer;
  samplers : list DescriptorImageInfo;
  inputAttachments : list DescriptorImageInfo;
  uniformBufferOffsets : list Z;
  uniformBufferSizes : list Z
}.

(** [DescriptorKey k = {}]. *)
Definition zeroDescriptorKey : DescriptorKey :=
  {| uniformBuffers := []; samplers := []; inputAttachments := [];
     uniformBufferOffsets := []; uniformBufferSizes := [] |}.

Definition imageInfo_bytes (i : DescriptorImageInfo) : list Z :=
  le_bytes 8 (sampler i) ++ le_bytes 8 (imageView i)
  ++ le_bytes 4 (imageLayout i) ++ le_bytes 4 (padding i).

(** The object representation of a [DescriptorKey], field after field at
    the offsets the header asserts (0, 80, 1568, 1592, 1632). *)
Definition DescriptorKey_bytes (k : DescriptorKey) : list Z :=
  array_bytes UBUFFER_BINDING_COUNT 0 (le_bytes 8) (uniformBuffers k)
  ++ array_bytes SAMPLER_BINDING_COUNT zeroImageInfo imageInfo_bytes (samplers k)
  ++ array_bytes INPUT_ATTACHMENT_COUNT zeroImageInfo imageInfo_bytes
       (inputAttachments k)
  ++ array_bytes UBUFFER_BINDING_COUNT 0 (le_bytes 4) (uniformBufferOffsets k)
  ++ array_bytes UBUFFER_BINDING_COUNT 0 (le_bytes 4) (uniformBufferSizes k).

(** ** The pipeline key *)

Record RasterState := {
  cullMode : Z;
  frontFace : Z;
  depthBiasEnable : Z;
  blendEnable : Z;
  depthWriteEnable : Z;
  alphaToCoverageEnable : Z;
  srcColorBlendFactor : Z;
  dstColorBlendFactor : Z;
  srcAlphaBlendFactor : Z;
  dstAlphaBlendFactor : Z;
  colorWriteMask : Z;
  rasterizationSamples : Z;
  colorTargetCount : Z;
  colorBlendOp : Z;
  alphaBlendOp : Z;
  depthCompareOp : Z;
  depthBiasConstantFactor : Z;  (* the 32 bits of the float *)
  depthBiasSlopeFactor : Z      (* the 32 bits of the float *)
}.

(** A bit-field of [w] bits placed at bit [pos] of its storage unit. *)
Definition bitfield (w pos v : Z) : Z :=
  Z.shiftl (Z.land v (Z.ones w)) pos.

(** The object representation of a [RasterState]: the bit-fields fill
    their storage units from the low bits, which puts every field at the
    byte offset the comments of the header give it. *)
Definition RasterState_bytes (r : RasterState) : list Z :=
  le_bytes 4
    (Z.lor (bitfield 2 0 (cullMode r))
    (Z.lor (bitfield 2 2 (frontFace r))
    (Z.lor (bitfield 1 4 (depthBiasEnable r))
    (Z.lor (bitfield 1 5 (blendEnable r))
    (Z.lor (bitfield 1 6 (depthWriteEnable r))
    (Z.lor (bitfield 1 7 (alphaToCoverageEnable r))
    (Z.lor (bitfield 5 8 (srcColorBlendFactor r))
    (Z.lor (bitfield 5 13 (dstColorBlendFactor r))
    (Z.lor (bitfield 5 18 (srcAlphaBlendFactor r))
    (Z.lor (bitfield 5 23 (dstAlphaBlendFactor r))
           (bitfield 4 28 (colorWriteMask r))))))))))))
  ++ le_bytes 1 (rasterizationSamples r)
  ++ le_bytes 1 (colorTargetCount r)
  ++ le_bytes 1 (Z.lor (bitfield 4 0 (colorBlendOp r))
                       (bitfield 4 4 (alphaBlendOp r)))
  ++ le_bytes 1 (depthCompareOp r)
  ++ le_bytes 4 (depthBiasConstantFactor r)
  ++ le_bytes 4 (depthBiasSlopeFactor r).

Record VertexInputAttributeDescription := {
  via_location : Z;
  via_binding : Z;
  via_format : Z;
  via_offset : Z
}.

Record VertexInputBindingDescription := {
  vib_binding : Z;
  vib_inputRate : Z;
  vib_stride : Z
}.

Definition zeroAttribute : VertexInputAttributeDescription :=
  {| via_location := 0; via_binding := 0; via_format := 0; via_offset := 0 |}.

Definition zeroBinding : VertexInputBindingDescription :=
  {| vib_binding := 0; vib_inputRate := 0; vib_stride := 0 |}.

Definition attribute_bytes (a : VertexInputAttributeDescription) : list Z :=
  le_bytes 1 (via_location a) ++ le_bytes 1 (via_binding a)
  ++ le_bytes 2 (via_format a) ++ le_bytes 4 (via_offset a).

Definition binding_bytes (b : VertexInputBindingDescription) : list Z :=
  le_bytes 2 (vib_binding b) ++ le_bytes 2 (vib_inputRate b)
  ++ le_bytes 4 (vib_stride b).

Record PipelineKey := {
  shaders : list Z;
  renderPass : Z;
  topology : Z;
  subpassIndex : Z;
  vertexAttributes : list VertexInputAttributeDescription;
  vertexBuffers : list VertexInputBindingDescription;
  rasterState : RasterState;
  pipeline_padding : Z;
  layout : PipelineLayoutKey
}.

(** The object representation of a [PipelineKey] (offsets 0, 16, 24, 26,
    28, 156, 284, 300, 304). *)
Definition PipelineKey_bytes (k : PipelineKey) : list Z :=
  array_bytes SHADER_MODULE_COUNT 0 (le_bytes 8) (shaders k)
  ++ le_bytes 8 (renderPass k)
  ++ le_bytes 2 (topology k)
  ++ le_bytes 2 (subpassIndex k)
  ++ array_bytes VERTEX_ATTRIBUTE_COUNT zeroAttribute attribute_bytes
       (vertexAttributes k)
  ++ array_bytes VERTEX_ATTRIBUTE_COUNT zeroBinding binding_bytes
       (vertexBuffers k)
  ++ RasterState_bytes (rasterState k)
  ++ le_bytes 4 (pipeline_padding k)
  ++ le_bytes 16 (layout k).

(** ** Equality and hash functors *)

(** Modelled from the spec: the bodies of [DescEqual::operator()] and
    [PipelineEqual::operator()] are not among the sources (only their
    declarations are).  The spec has keys "hashed/compared byte-wise" with a
    "structural equality/hash derived from the full byte image": equality
    is [memcmp] over the whole object representation. *)
Definition DescEqual (k1 k2 : DescriptorKey) : bool :=
  bytes_eqb (DescriptorKey_bytes k1) (DescriptorKey_bytes k2).










(** ** Cache entries *)

(** [DescriptorCacheEntry]: a group of descriptor sets bound together. *)
Record DescriptorCacheEntry := {
  handles : list VkDescriptorSet;
  lastUsed : Timestamp;
  pipelineLayout : PipelineLayoutKey;
  id : Z
}.

Definition set_lastUsed (t : Timestamp) (e : DescriptorCacheEntry)
    : DescriptorCacheEntry :=
  {| handles := handles e; lastUsed := t;
     pipelineLayout := pipelineLayout e; id := id e |}.

Definition set_handles (hs : list VkDescriptorSet) (e : DescriptorCacheEntry)
    : DescriptorCacheEntry :=
  {| handles := hs; lastUsed := lastUsed e;
     pipelineLayout := pipelineLayout e; id := id e |}.

(** [PipelineLayoutCacheEntry]: the layout objects and, per binding type,
    the arena of unused (but alive) descriptor sets of that layout. *)
Record PipelineLayoutCacheEntry := {
  layout_handle : VkPipelineLayout;
  layout_lastUsed : Timestamp;
  descriptorSetLayouts : list VkDescriptorSetLayout;
  descriptorSetArenas : list (list VkDescriptorSet)
}.

Definition set_descriptorSetArenas (a : list (list VkDescriptorSet))
    (e : PipelineLayoutCacheEntry) : PipelineLayoutCacheEntry :=
  {| layout_handle := layout_handle e; layout_lastUsed := layout_lastUsed e;
     descriptorSetLayouts := descriptorSetLayouts e;
     descriptorSetArenas := a |}.

Definition set_layout_lastUsed (t : Timestamp)
    (e : PipelineLayoutCacheEntry) : PipelineLayoutCacheEntry :=
  {| layout_handle := layout_handle e; layout_lastUsed := t;
     descriptorSetLayouts := descriptorSetLayouts e;
     descriptorSetArenas := descriptorSetArenas e |}.

(** [descriptorSetArenas[i]] of a [std::array] of [DESCRIPTOR_TYPE_COUNT]
    vectors. *)
Definition arena (i : nat) (e : PipelineLayoutCacheEntry)
    : list VkDescriptorSet :=
  nth i (descriptorSetArenas e) [].

(** ** The Vulkan device *)

Inductive VkResult :=
  | VK_SUCCESS
  | VK_ERROR_OUT_OF_POOL_MEMORY
  | VK_ERROR_FRAGMENTED_POOL
  | VK_ERROR_OUT_OF_HOST_MEMORY.

Inductive VkDescriptorType :=
  | VK_DESCRIPTOR_TYPE_COMBINED_IMAGE_SAMPLER
  | VK_DESCRIPTOR_TYPE_UNIFORM_BUFFER
  | VK_DESCRIPTOR_TYPE_INPUT_ATTACHMENT.

(** [VkWriteDescriptorSet].  The pointers [pImageInfo] and [pBufferInfo]
    are kept by value ([None] is [nullptr]); [sType], [pNext] and
    [pTexelBufferView] take one fixed value in this code and are left out. *)
Record VkWriteDescriptorSet := {
  dstSet : VkDescriptorSet;
  dstBinding : Z;
  dstArrayElement : Z;
  descriptorCount : Z;
  descriptorType : VkDescriptorType;
  pImageInfo : option VkDescriptorImageInfo;
  pBufferInfo : option VkDescriptorBufferInfo
}.

(** [w.dstSet = set; w.dstBinding = binding;] *)
Definition address (set : VkDescriptorSet) (binding : Z)
    (w : VkWriteDescriptorSet) : VkWriteDescriptorSet :=
  {| dstSet := set; dstBinding := binding;
     dstArrayElement := dstArrayElement w;
     descriptorCount := descriptorCount w;
     descriptorType := descriptorType w;
     pImageInfo := pImageInfo w; pBufferInfo := pBufferInfo w |}.

(** What the device and the cache's collaborators are asked to do, in the
    order they are asked. *)
Inductive Call :=
  | CreateDescriptorSetLayout (h : VkDescriptorSetLayout)
  | CreatePipelineLayout (h : VkPipelineLayout)
  | CreateDescriptorPool (size : Z) (h : VkDescriptorPool)
  | AllocateDescriptorSets (pool : VkDescriptorPool)
      (layouts : list VkDescriptorSetLayout) (result : VkResult)
  | UpdateDescriptorSets (writes : list VkWriteDescriptorSet)
  | CmdBindDescriptorSets (cmd : VkCommandBuffer) (l : VkPipelineLayout)
      (sets : list VkDescriptorSet)
  | GrowDescriptorPool
  | MakeResourceManager (entry : Z)
  | AcquireAll (entry : Z).

(** The device: the next unused handle, the results it will give to the
    coming [vkAllocateDescriptorSets] calls (success once the list is
    exhausted), the last write each binding of each descriptor set received,
    and the calls made so far. *)
Record Device := {
  nextHandle : Z;
  allocResults : list VkResult;
  descriptors : gmap (Z * Z) VkWriteDescriptorSet;
  calls : list Call
}.

(** Modelled from the spec: [VulkanAcquireOnlyResourceManager] is not
    among the sources.  The spec has it track "opaque handles to
    externally-owned resources", [acquire] registering interest in one: a
    manager is the set of the resources it holds a reference to. *)
Abbreviation ResourceManager := (gset Z).

Abbreviation DescriptorMap := (gmap (list Z) DescriptorCacheEntry).
Abbreviation DescriptorResourceMap := (gmap Z (gset Z)).
Abbreviation PipelineLayoutMap := (gmap Z PipelineLayoutCacheEntry).

(** ** The cache object *)

Record Cache := {
  mDescriptorSets : DescriptorMap;
  mDescriptorResources : DescriptorResourceMap;
  mPipelineLayouts : PipelineLayoutMap;
  mDescriptorPoolSize : Z;
  mDescriptorArenasCount : Z;
  mDescriptorPool : VkDescriptorPool;
  mExtinctDescriptorPools : list VkDescriptorPool;
  mExtinctDescriptorBundles : list DescriptorCacheEntry;
  mDummyBufferWriteInfo : VkWriteDescriptorSet;
  mDescriptorRequirements : DescriptorKey;
  mBoundDescriptor : DescriptorKey;
  mPipelineRequirements : PipelineKey;
  mCurrentTime : Timestamp;
  mDescriptorCacheEntryCount : Z;
  mPipelineBoundResources : ResourceManager;
  mDevice : Device
}.

Definition set_mDescriptorSets (v : _) (c : Cache) : Cache :=
  {| mDescriptorSets := v; mDescriptorResources := mDescriptorResources c;
     mPipelineLayouts := mPipelineLayouts c;
     mDescriptorPoolSize := mDescriptorPoolSize c;
     mDescriptorArenasCount := mDescriptorArenasCount c;
     mDescriptorPool := mDescriptorPool c;
     mExtinctDescriptorPools := mExtinctDescriptorPools c;
     mExtinctDescriptorBundles := mExtinctDescriptorBundles c;
     mDummyBufferWriteInfo := mDummyBufferWriteInfo c;
     mDescriptorRequirements := mDescriptorRequirements c;
     mBoundDescriptor := mBoundDescriptor c;
     mPipelineRequirements := mPipelineRequirements c;
     mCurrentTime := mCurrentTime c;
     mDescriptorCacheEntryCount := mDescriptorCacheEntryCount c;
     mPipelineBoundResources := mPipelineBoundResources c;
     mDevice := mDevice c |}.

Definition set_mDescriptorResources (v : _) (c : Cache) : Cache :=
  {| mDescriptorSets := mDescriptorSets c; mDescriptorResources := v;
     mPipelineLayouts := mPipelineLayouts c;
     mDescriptorPoolSize := mDescriptorPoolSize c;
     mDescriptorArenasCount := mDescriptorArenasCount c;
     mDescriptorPool := mDescriptorPool c;
     mExtinctDescriptorPools := mExtinctDescriptorPools c;
     mExtinctDescriptorBundles := mExtinctDescriptorBundles c;
     mDummyBufferWriteInfo := mDummyBufferWriteInfo c;
     mDescriptorRequirements := mDescriptorRequirements c;
     mBoundDescriptor := mBoundDescriptor c;
     mPipelineRequirements := mPipelineRequirements c;
     mCurrentTime := mCurrentTime c;
     mDescriptorCacheEntryCount := mDescriptorCacheEntryCount c;
     mPipelineBoundResources := mPipelineBoundResources c;
     mDevice := mDevice c |}.

Definition set_mPipelineLayouts (v : _) (c : Cache) : Cache :=
  {| mDescriptorSets := mDescriptorSets c;
     mDescriptorResources := mDescriptorResources c; mPipelineLayouts := v;
     mDescriptorPoolSize := mDescriptorPoolSize c;
     mDescriptorArenasCount := mDescriptorArenasCount c;
     mDescriptorPool := mDescriptorPool c;
     mExtinctDescriptorPools := mExtinctDescriptorPools c;
     mExtinctDescriptorBundles := mExtinctDescriptorBundles c;
     mDummyBufferWriteInfo := mDummyBufferWriteInfo c;
     mDescriptorRequirements := mDescriptorRequirements c;
     mBoundDescriptor := mBoundDescriptor c;
     mPipelineRequirements := mPipelineRequirements c;
     mCurrentTime := mCurrentTime c;
     mDescriptorCacheEntryCount := mDescriptorCacheEntryCount c;
     mPipelineBoundResources := mPipelineBoundResources c;
     mDevice := mDevice c |}.

Definition set_mDescriptorPoolSize (v : _) (c : Cache) : Cache :=
  {| mDescriptorSets := mDescriptorSets c;
     mDescriptorResources := mDescriptorResources c;
     mPipelineLayouts := mPipelineLayouts c; mDescriptorPoolSize := v;
     mDescriptorArenasCount := mDescriptorArenasCount c;
     mDescriptorPool := mDescriptorPool c;
     mExtinctDescriptorPools := mExtinctDescriptorPools c;
     mExtinctDescriptorBundles := mExtinctDescriptorBundles c;
     mDummyBufferWriteInfo := mDummyBufferWriteInfo c;
     mDescriptorRequirements := mDescriptorRequirements c;
     mBoundDescriptor := mBoundDescriptor c;
     mPipelineRequirements := mPipelineRequirements c;
     mCurrentTime := mCurrentTime c;
     mDescriptorCacheEntryCount := mDescriptorCacheEntryCount c;
     mPipelineBoundResources := mPipelineBoundResources c;
     mDevice := mDevice c |}.

Definition set_mDescriptorArenasCount (v : _) (c : Cache) : Cache :=
  {| mDescriptorSets := mDescriptorSets c;
     mDescriptorResources := mDescriptorResources c;
     mPipelineLayouts := mPipelineLayouts c;
     mDescriptorPoolSize := mDescriptorPoolSize c;
     mDescriptorArenasCount := v; mDescriptorPool := mDescriptorPool c;
     mExtinctDescriptorPools := mExtinctDescriptorPools c;
     mExtinctDescriptorBundles := mExtinctDescriptorBundles c;
     mDummyBufferWriteInfo := mDummyBufferWriteInfo c;
     mDescriptorRequirements := mDescriptorRequirements c;
     mBoundDescriptor := mBoundDescriptor c;
     mPipelineRequirements := mPipelineRequirements c;
     mCurrentTime := mCurrentTime c;
     mDescriptorCacheEntryCount := mDescriptorCacheEntryCount c;
     mPipelineBoundResources := mPipelineBoundResources c;
     mDevice := mDevice c |}.

Definition set_mDescriptorPool (v : _) (c : Cache) : Cache :=
  {| mDescriptorSets := mDescriptorSets c;
     mDescriptorResources := mDescriptorResources c;
     mPipelineLayouts := mPipelineLayouts c;
     mDescriptorPoolSize := mDescriptorPoolSize c;
     mDescriptorArenasCount := mDescriptorArenasCount c;
     mDescriptorPool := v;
     mExtinctDescriptorPools := mExtinctDescriptorPools c;
     mExtinctDescriptorBundles := mExtinctDescriptorBundles c;
     mDummyBufferWriteInfo := mDummyBufferWriteInfo c;
     mDescriptorRequirements := mDescriptorRequirements c;
     mBoundDescriptor := mBoundDescriptor c;
     mPipelineRequirements := mPipelineRequirements c;
     mCurrentTime := mCurrentTime c;
     mDescriptorCacheEntryCount := mDescriptorCacheEntryCount c;
     mPipelineBoundResources := mPipelineBoundResources c;
     mDevice := mDevice c |}.

Definition set_mExtinctDescriptorPools (v : _) (c : Cache) : Cache :=
  {| mDescriptorSets := mDescriptorSets c;
     mDescriptorResources := mDescriptorResources c;
     mPipelineLayouts := mPipelineLayouts c;
     mDescriptorPoolSize := mDescriptorPoolSize c;
     mDescriptorArenasCount := mDescriptorArenasCount c;
     mDescriptorPool := mDescriptorPool c; mExtinctDescriptorPools := v;
     mExtinctDescriptorBundles := mExtinctDescriptorBundles c;
     mDummyBufferWriteInfo := mDummyBufferWriteInfo c;
     mDescriptorRequirements := mDescriptorRequirements c;
     mBoundDescriptor := mBoundDescriptor c;
     mPipelineRequirements := mPipelineRequirements c;
     mCurrentTime := mCurrentTime c;
     mDescriptorCacheEntryCount := mDescriptorCacheEntryCount c;
     mPipelineBoundResources := mPipelineBoundResources c;
     mDevice := mDevice c |}.

Definition set_mExtinctDescriptorBundles (v : _) (c : Cache) : Cache :=
  {| mDescriptorSets := mDescriptorSets c;
     mDescriptorResources := mDescriptorResources c;
     mPipelineLayouts := mPipelineLayouts c;
     mDescriptorPoolSize := mDescriptorPoolSize c;
     mDescriptorArenasCount := mDescriptorArenasCount c;
     mDescriptorPool := mDescriptorPool c;
     mExtinctDescriptorPools := mExtinctDescriptorPools c;
     mExtinctDescriptorBundles := v;
     mDummyBufferWriteInfo := mDummyBufferWriteInfo c;
     mDescriptorRequirements := mDescriptorRequirements c;
     mBoundDescriptor := mBoundDescriptor c;
     mPipelineRequirements := mPipelineRequirements c;
     mCurrentTime := mCurrentTime c;
     mDescriptorCacheEntryCount := mDescriptorCacheEntryCount c;
     mPipelineBoundResources := mPipelineBoundResources c;
     mDevice := mDevice c |}.

Definition set_mBoundDescriptor (v : _) (c : Cache) : Cache :=
  {| mDescriptorSets := mDescriptorSets c;
     mDescriptorResources := mDescriptorResources c;
     mPipelineLayouts := mPipelineLayouts c;
     mDescriptorPoolSize := mDescriptorPoolSize c;
     mDescriptorArenasCount := mDescriptorArenasCount c;
     mDescriptorPool := mDescriptorPool c;
     mExtinctDescriptorPools := mExtinctDescriptorPools c;
     mExtinctDescriptorBundles := mExtinctDescriptorBundles c;
     mDummyBufferWriteInfo := mDummyBufferWriteInfo c;
     mDescriptorRequirements := mDescriptorRequirements c;
     mBoundDescriptor := v; mPipelineRequirements := mPipelineRequirements c;
     mCurrentTime := mCurrentTime c;
     mDescriptorCacheEntryCount := mDescriptorCacheEntryCount c;
     mPipelineBoundResources := mPipelineBoundResources c;
     mDevice := mDevice c |}.

Definition set_mDescriptorCacheEntryCount (v : _) (c : Cache) : Cache :=
  {| mDescriptorSets := mDescriptorSets c;
     mDescriptorResources := mDescriptorResources c;
     mPipelineLayouts := mPipelineLayouts c;
     mDescriptorPoolSize := mDescriptorPoolSize c;
     mDescriptorArenasCount := mDescriptorArenasCount c;
     mDescriptorPool := mDescriptorPool c;
     mExtinctDescriptorPools := mExtinctDescriptorPools c;
     mExtinctDescriptorBundles := mExtinctDescriptorBundles c;
     mDummyBufferWriteInfo := mDummyBufferWriteInfo c;
     mDescriptorRequirements := mDescriptorRequirements c;
     mBoundDescriptor := mBoundDescriptor c;
     mPipelineRequirements := mPipelineRequirements c;
     mCurrentTime := mCurrentTime c; mDescriptorCacheEntryCount := v;
     mPipelineBoundResources := mPipelineBoundResources c;
     mDevice := mDevice c |}.

Definition set_mDevice (v : _) (c : Cache) : Cache :=
  {| mDescriptorSets := mDescriptorSets c;
     mDescriptorResources := mDescriptorResources c;
     mPipelineLayouts := mPipelineLayouts c;
     mDescriptorPoolSize := mDescriptorPoolSize c;
     mDescriptorArenasCount := mDescriptorArenasCount c;
     mDescriptorPool := mDescriptorPool c;
     mExtinctDescriptorPools := mExtinctDescriptorPools c;
     mExtinctDescriptorBundles := mExtinctDescriptorBundles c;
     mDummyBufferWriteInfo := mDummyBufferWriteInfo c;
     mDescriptorRequirements := mDescriptorRequirements c;
     mBoundDescriptor := mBoundDescriptor c;
     mPipelineRequirements := mPipelineRequirements c;
     mCurrentTime := mCurrentTime c;
     mDescriptorCacheEntryCount := mDescriptorCacheEntryCount c;
     mPipelineBoundResources := mPipelineBoundResources c; mDevice := v |}.
Definition set_mDescriptorRequirements (v : _) (c : Cache) : Cache :=
  {| mDescriptorSets := mDescriptorSets c;
     mDescriptorResources := mDescriptorResources c;
     mPipelineLayouts := mPipelineLayouts c;
     mDescriptorPoolSize := mDescriptorPoolSize c;
     mDescriptorArenasCount := mDescriptorArenasCount c;
     mDescriptorPool := mDescriptorPool c;
     mExtinctDescriptorPools := mExtinctDescriptorPools c;
     mExtinctDescriptorBundles := mExtinctDescriptorBundles c;
     mDummyBufferWriteInfo := mDummyBufferWriteInfo c;
     mDescriptorRequirements := v; mBoundDescriptor := mBoundDescriptor c;
     mPipelineRequirements := mPipelineRequirements c;
     mCurrentTime := mCurrentTime c;
     mDescriptorCacheEntryCount := mDescriptorCacheEntryCount c;
     mPipelineBoundResources := mPipelineBoundResources c;
     mDevice := mDevice c |}.

Definition set_mPipelineRequirements (v : _) (c : Cache) : Cache :=
  {| mDescriptorSets := mDescriptorSets c;
     mDescriptorResources := mDescriptorResources c;
     mPipelineLayouts := mPipelineLayouts c;
     mDescriptorPoolSize := mDescriptorPoolSize c;
     mDescriptorArenasCount := mDescriptorArenasCount c;
     mDescriptorPool := mDescriptorPool c;
     mExtinctDescriptorPools := mExtinctDescriptorPools c;
     mExtinctDescriptorBundles := mExtinctDescriptorBundles c;
     mDummyBufferWriteInfo := mDummyBufferWriteInfo c;
     mDescriptorRequirements := mDescriptorRequirements c;
     mBoundDescriptor := mBoundDescriptor c; mPipelineRequirements := v;
     mCurrentTime := mCurrentTime c;
     mDescriptorCacheEntryCount := mDescriptorCacheEntryCount c;
     mPipelineBoundResources := mPipelineBoundResources c;
     mDevice := mDevice c |}.

Definition set_mCurrentTime (v : _) (c : Cache) : Cache :=
  {| mDescriptorSets := mDescriptorSets c;
     mDescriptorResources := mDescriptorResources c;
     mPipelineLayouts := mPipelineLayouts c;
     mDescriptorPoolSize := mDescriptorPoolSize c;
     mDescriptorArenasCount := mDescriptorArenasCount c;
     mDescriptorPool := mDescriptorPool c;
     mExtinctDescriptorPools := mExtinctDescriptorPools c;
     mExtinctDescriptorBundles := mExtinctDescriptorBundles c;
     mDummyBufferWriteInfo := mDummyBufferWriteInfo c;
     mDescriptorRequirements := mDescriptorRequirements c;
     mBoundDescriptor := mBoundDescriptor c;
     mPipelineRequirements := mPipelineRequirements c; mCurrentTime := v;
     mDescriptorCacheEntryCount := mDescriptorCacheEntryCount c;
     mPipelineBoundResources := mPipelineBoundResources c;
     mDevice := mDevice c |}.

Definition set_mPipelineBoundResources (v : _) (c : Cache) : Cache :=
  {| mDescriptorSets := mDescriptorSets c;
     mDescriptorResources := mDescriptorResources c;
     mPipelineLayouts := mPipelineLayouts c;
     mDescriptorPoolSize := mDescriptorPoolSize c;
     mDescriptorArenasCount := mDescriptorArenasCount c;
     mDescriptorPool := mDescriptorPool c;
     mExtinctDescriptorPools := mExtinctDescriptorPools c;
     mExtinctDescriptorBundles := mExtinctDescriptorBundles c;
     mDummyBufferWriteInfo := mDummyBufferWriteInfo c;
     mDescriptorRequirements := mDescriptorRequirements c;
     mBoundDescriptor := mBoundDescriptor c;
     mPipelineRequirements := mPipelineRequirements c;
     mCurrentTime := mCurrentTime c;
     mDescriptorCacheEntryCount := mDescriptorCacheEntryCount c;
     mPipelineBoundResources := v; mDevice := mDevice c |}.

(** ** Computations on the cache

    A member function is a function of the cache object that either gives
    a result and the next cache, or has no defined result ([None]): the C++
    reads past the end of a container ([back()] of an empty vector, the
    value of an end iterator).  [assert_invariant] expands to nothing in a
    release build and is not part of the computation. *)

Definition M (A : Type) : Type := Cache -> option (A * Cache).

Definition ret {A : Type} (a : A) : M A := fun c => Some (a, c).

Definition bind {A B : Type} (m : M A) (k : A -> M B) : M B :=
  fun c => match m c with
           | Some (a, c') => k a c'
           | None => None
           end.

Definition undefined {A : Type} : M A := fun _ => None.
Definition get : M Cache := fun c => Some (c, c).
Definition modify (f : Cache -> Cache) : M unit := fun c => Some (tt, f c).

Declare Scope cache_scope.
Delimit Scope cache_scope with cache.
Notation "'let*' x := m 'in' k" := (bind m (fun x => k))
  (at level 10, x name, m at level 100, k at level 200) : cache_scope.
Notation "m >> k" := (bind m (fun _ => k))
  (at level 100, k at level 200, right associativity) : cache_scope.

Local Open Scope cache_scope.

(** *** Device calls *)

Definition log (e : Call) (d : Device) : Device :=
  {| nextHandle := nextHandle d; allocResults := allocResults d;
     descriptors := descriptors d; calls := calls d ++ [e] |}.

Definition call (e : Call) : M unit :=
  modify (fun c => set_mDevice (log e (mDevice c)) c).

(** A handle the device has not given out before. *)
Definition freshHandle : M Z :=
  fun c =>
    let d := mDevice c in
    Some (nextHandle d,
          set_mDevice {| nextHandle := nextHandle d + 1;
                         allocResults := allocResults d;
                         descriptors := descriptors d;
                         calls := calls d |} c).

Fixpoint freshHandles (n : nat) : M (list Z) :=
  match n with
  | O => ret []
  | S n' => let* h := freshHandle in
            let* hs := freshHandles n' in
            ret (h :: hs)
  end.

(** The result the device gives to this allocation request. *)
Definition nextAllocResult : M VkResult :=
  fun c =>
    let d := mDevice c in
    Some (hd VK_SUCCESS (allocResults d),
          set_mDevice {| nextHandle := nextHandle d;
                         allocResults := tl (allocResults d);
                         descriptors := descriptors d;
                         calls := calls d |} c).

(** [vkAllocateDescriptorSets]: on success one new set per layout. *)
Definition vkAllocateDescriptorSets (pool : VkDescriptorPool)
    (descriptorSetCount : nat) (pSetLayouts : list VkDescriptorSetLayout)
    : M (VkResult * list VkDescriptorSet) :=
  let* error := nextAllocResult in
  call (AllocateDescriptorSets pool pSetLayouts error) >>
  match error with
  | VK_SUCCESS =>
      let* sets := freshHandles descriptorSetCount in
      ret (VK_SUCCESS, sets)
  | _ => ret (error, [])
  end.

Definition applyWrite (m : gmap (Z * Z) VkWriteDescriptorSet)
    (w : VkWriteDescriptorSet) : gmap (Z * Z) VkWriteDescriptorSet :=
  <[(dstSet w, dstBinding w) := w]> m.

(** [vkUpdateDescriptorSets]: every write replaces the content of the
    binding it is addressed to. *)
Definition vkUpdateDescriptorSets (writes : list VkWriteDescriptorSet)
    : M unit :=
  modify (fun c =>
    let d := mDevice c in
    set_mDevice {| nextHandle := nextHandle d;
                   allocResults := allocResults d;
                   descriptors := fold_left applyWrite writes (descriptors d);
                   calls := calls d ++ [UpdateDescriptorSets writes] |} c).

Definition vkCmdBindDescriptorSets (cmdbuffer : VkCommandBuffer)
    (l : VkPipelineLayout) (sets : list VkDescriptorSet) : M unit :=
  call (CmdBindDescriptorSets cmdbuffer l sets).

(** [acquireResource]: [mPipelineBoundResources.acquire(resource)]. *)
Definition acquireResource (resource : Z) : M unit :=
  modify (fun c =>
    set_mPipelineBoundResources ({[resource]} ∪ mPipelineBoundResources c) c).

(** *** Collaborators whose bodies are not among the sources *)

(** Modelled from the spec: the body of [getOrCreatePipelineLayout] is not
    among the sources.  The spec: "returns a layout entry; creates
    descriptor-set layout objects (one per binding class ...) and a combined
    pipeline-layout object on miss", every entry "owns three arenas", and a
    cache entry's [lastUsed] is "updated on every hit"; the header has the
    arenas "created in an empty state".  The result is the entry's place in
    [mPipelineLayouts], that is its key. *)
Definition getOrCreatePipelineLayout : M PipelineLayoutKey :=
  let* c := get in
  let key := layout (mPipelineRequirements c) in
  match mPipelineLayouts c !! key with
  | Some e =>
      modify (set_mPipelineLayouts
                (<[key := set_layout_lastUsed (mCurrentTime c) e]>
                   (mPipelineLayouts c))) >>
      ret key
  | None =>
      let* dsls := freshHandles DESCRIPTOR_TYPE_COUNT in
      call (CreateDescriptorSetLayout (nth 0 dsls 0)) >>
      call (CreateDescriptorSetLayout (nth 1 dsls 0)) >>
      call (CreateDescriptorSetLayout (nth 2 dsls 0)) >>
      let* h := freshHandle in
      call (CreatePipelineLayout h) >>
      modify (fun c' =>
        set_mPipelineLayouts
          (<[key := {| layout_handle := h;
                       layout_lastUsed := mCurrentTime c;
                       descriptorSetLayouts := dsls;
                       descriptorSetArenas :=
                         repeat [] DESCRIPTOR_TYPE_COUNT |}]>
             (mPipelineLayouts c')) c') >>
      ret key
  end.

(** Modelled from the spec: the body of [growDescriptorPool] is not among
    the sources.  The spec: "the pool is replaced by a larger one and the
    old pool plus all descriptor sets allocated from it are moved to an
    extinct list"; growth "migrates tracking state".  The active sets (the
    entries of [mDescriptorSets]) become extinct bundles; the dormant sets
    of the arenas belong to the old pool as well and leave the arenas, and
    the dormant count starts again from zero.  The spec gives no growth
    factor: the capacity is doubled. *)
Definition growDescriptorPool : M unit :=
  modify (fun c =>
    set_mExtinctDescriptorPools
      (mExtinctDescriptorPools c ++ [mDescriptorPool c]) c) >>
  modify (fun c =>
    set_mDescriptorPoolSize (wrap32 (mDescriptorPoolSize c * 2)) c) >>
  let* h := freshHandle in
  let* c := get in
  call (CreateDescriptorPool (mDescriptorPoolSize c) h) >>
  modify (set_mDescriptorPool h) >>
  modify (fun c =>
    set_mPipelineLayouts
      (set_descriptorSetArenas (repeat [] DESCRIPTOR_TYPE_COUNT)
         <$> mPipelineLayouts c) c) >>
  modify (set_mDescriptorArenasCount 0) >>
  modify (fun c =>
    set_mExtinctDescriptorBundles
      (mExtinctDescriptorBundles c ++ (map_to_list (mDescriptorSets c)).*2)
      c) >>
  modify (set_mDescriptorSets ∅).

(** Modelled from the spec: [VulkanAcquireOnlyResourceManager::acquireAll]
    is not among the sources.  The spec: it "bulk-transfers all tracked
    references from one manager to another"; the receiver holds afterwards
    every resource the source tracks. *)
Definition acquireAll (this src : ResourceManager) : ResourceManager :=
  this ∪ src.

(** ** [createDescriptorSets] *)

(** The first loop of the write phase: the write of one uniform-buffer
    slot. *)
Definition uniformWrite (req : DescriptorKey) (dummy : VkWriteDescriptorSet)
    (set0 : VkDescriptorSet) (binding : nat) : VkWriteDescriptorSet :=
  let writeInfo :=
    if nth binding (uniformBuffers req) 0 =? 0 then dummy
    else
      let range := nth binding (uniformBufferSizes req) 0 in
      {| dstSet := 0; dstBinding := 0;
         dstArrayElement := 0;
         descriptorCount := 1;
         descriptorType := VK_DESCRIPTOR_TYPE_UNIFORM_BUFFER;
         pImageInfo := None;
         pBufferInfo := Some
           {| buffer := nth binding (uniformBuffers req) 0;
              offset := nth binding (uniformBufferOffsets req) 0;
              range := if range =? WHOLE_SIZE then VK_WHOLE_SIZE
                       else range |} |} in
  address set0 (Z.of_nat binding) writeInfo.

(** The write of an active sampler or input-attachment slot. *)
Definition imageWrite (type : VkDescriptorType) (info : DescriptorImageInfo)
    (set : VkDescriptorSet) (binding : nat) : VkWriteDescriptorSet :=
  {| dstSet := set; dstBinding := Z.of_nat binding;
     dstArrayElement := 0;
     descriptorCount := 1;
     descriptorType := type;
     pImageInfo := Some (to_VkDescriptorImageInfo info);
     pBufferInfo := None |}.

Definition uniformWrites (req : DescriptorKey) (dummy : VkWriteDescriptorSet)
    (hs : list VkDescriptorSet) : list VkWriteDescriptorSet :=
  map (uniformWrite req dummy (nth 0 hs 0)) (seq 0 UBUFFER_BINDING_COUNT).

(** The second loop: a write only where a sampler is bound. *)
Definition samplerWrites (req : DescriptorKey) (hs : list VkDescriptorSet)
    : list VkWriteDescriptorSet :=
  flat_map
    (fun binding =>
       let info := nth binding (samplers req) zeroImageInfo in
       if sampler info =? 0 then []
       else [imageWrite VK_DESCRIPTOR_TYPE_COMBINED_IMAGE_SAMPLER info
               (nth 1 hs 0) binding])
    (seq 0 SAMPLER_BINDING_COUNT).

(** The third loop: a write only where an image view is attached. *)
Definition inputAttachmentWrites (req : DescriptorKey)
    (hs : list VkDescriptorSet) : list VkWriteDescriptorSet :=
  flat_map
    (fun binding =>
       let info := nth binding (inputAttachments req) zeroImageInfo in
       if imageView info =? 0 then []
       else [imageWrite VK_DESCRIPTOR_TYPE_INPUT_ATTACHMENT info
               (nth 2 hs 0) binding])
    (seq 0 INPUT_ATTACHMENT_COUNT).

Definition descriptorWrites (req : DescriptorKey)
    (dummy : VkWriteDescriptorSet) (hs : list VkDescriptorSet)
    : list VkWriteDescriptorSet :=
  uniformWrites req dummy hs ++ samplerWrites req hs
  ++ inputAttachmentWrites req hs.

(** [mDescriptorSets.size() + mDescriptorArenasCount + 1 >
    mDescriptorPoolSize], computed in [size_t]. *)
Definition poolWouldOverflow (c : Cache) : bool :=
  wrap64 (Z.of_nat (size (mDescriptorSets c)) + mDescriptorArenasCount c + 1)
  >? mDescriptorPoolSize c.

(** The layout entry behind the pointer [getOrCreatePipelineLayout] gave. *)
Definition layoutEntry (p : PipelineLayoutKey) : M PipelineLayoutCacheEntry :=
  fun c => match mPipelineLayouts c !! p with
           | Some e => Some (e, c)
           | None => None
           end.

(** [h = arenas[i].back(); arenas[i].pop_back();] for one [i]. *)
Definition popArena (p : PipelineLayoutKey) (i : nat) : M VkDescriptorSet :=
  let* e := layoutEntry p in
  match rev (arena i e) with
  | [] => undefined
  | h :: _ =>
      modify (fun c =>
        set_mPipelineLayouts
          (<[p := set_descriptorSetArenas
                    (<[i := removelast (arena i e)]> (descriptorSetArenas e))
                    e]> (mPipelineLayouts c)) c) >>
      ret h
  end.

(** The loop over the [DESCRIPTOR_TYPE_COUNT] arenas, from index [i]. *)
Fixpoint popArenas (p : PipelineLayoutKey) (i n : nat)
    : M (list VkDescriptorSet) :=
  match n with
  | O => ret []
  | S n' => let* h := popArena p i in
            let* hs := popArenas p (S i) n' in
            ret (h :: hs)
  end.

(** [mDescriptorSets.emplace(key, entry)]: nothing is stored when the key
    is present already. *)
Definition emplace (k : list Z) (e : DescriptorCacheEntry)
    (m : DescriptorMap) : DescriptorMap :=
  match m !! k with
  | Some _ => m
  | None => <[k := e]> m
  end.

(** The branch taken when the first arena is empty: grow the pool if the
    new sets would overflow it, then allocate one set per binding type.
    [None] is the early [return nullptr]. *)
Definition allocateFromPool (layoutCacheEntry : PipelineLayoutKey)
    : M (option (list VkDescriptorSet)) :=
  let* c := get in
  (if poolWouldOverflow c
   then call GrowDescriptorPool >> growDescriptorPool
   else ret tt) >>
  let* c := get in
  let* e := layoutEntry layoutCacheEntry in
  let* r :=
    vkAllocateDescriptorSets (mDescriptorPool c) DESCRIPTOR_TYPE_COUNT
      (descriptorSetLayouts e) in
  match r with
  | (VK_SUCCESS, sets) => ret (Some sets)
  | _ => ret None
  end.

(** The other branch: take the last set of every arena. *)
Definition reclaimFromArenas (layoutCacheEntry : PipelineLayoutKey)
    : M (option (list VkDescriptorSet)) :=
  let* hs := popArenas layoutCacheEntry 0 DESCRIPTOR_TYPE_COUNT in
  modify (fun c =>
    set_mDescriptorArenasCount (wrap32 (mDescriptorArenasCount c - 1)) c) >>
  ret (Some hs).

(** The write phase and the insertion into [mDescriptorSets]. *)
Definition writeDescriptorSets (descriptorCacheEntry : DescriptorCacheEntry)
    : M (option (list Z)) :=
  let* c := get in
  let req := mDescriptorRequirements c in
  vkUpdateDescriptorSets
    (descriptorWrites req (mDummyBufferWriteInfo c)
       (handles descriptorCacheEntry)) >>
  modify (fun c =>
    set_mDescriptorSets
      (emplace (DescriptorKey_bytes req) descriptorCacheEntry
         (mDescriptorSets c)) c) >>
  ret (Some (DescriptorKey_bytes req)).

(** The result is the place of the entry in [mDescriptorSets] (its key),
    or [None] for [nullptr]. *)
Definition createDescriptorSets : M (option (list Z)) :=
  let* layoutCacheEntry := getOrCreatePipelineLayout in
  let* c := get in
  let descriptorCacheEntry :=
    {| handles := repeat 0 DESCRIPTOR_TYPE_COUNT;
       lastUsed := 0;
       pipelineLayout := layout (mPipelineRequirements c);
       id := mDescriptorCacheEntryCount c |} in
  modify (set_mDescriptorCacheEntryCount
            (wrap32 (mDescriptorCacheEntryCount c + 1))) >>
  let* e := layoutEntry layoutCacheEntry in
  let* allocated :=
    match arena 0 e with
    | [] => allocateFromPool layoutCacheEntry
    | _ :: _ => reclaimFromArenas layoutCacheEntry
    end in
  match allocated with
  | None => ret None
  | Some hs => writeDescriptorSets (set_handles hs descriptorCacheEntry)
  end.

(** ** [bindDescriptors] *)

(** [cacheEntry->...]: the entry behind a pointer into [mDescriptorSets]. *)
Definition cacheEntryAt (p : list Z) : M DescriptorCacheEntry :=
  fun c => match mDescriptorSets c !! p with
           | Some e => Some (e, c)
           | None => None
           end.

Definition touch (p : list Z) : M unit :=
  let* e := cacheEntryAt p in
  modify (fun c =>
    set_mDescriptorSets
      (<[p := set_lastUsed (mCurrentTime c) e]> (mDescriptorSets c)) c).

(** The end of [bindDescriptors], from the null check of [cacheEntry]
    on. *)
Definition bindCacheEntry (cmdbuffer : VkCommandBuffer)
    (cacheEntry : option (list Z)) : M bool :=
  match cacheEntry with
  | None => ret false
  | Some p =>
      touch p >>
      modify (fun c => set_mBoundDescriptor (mDescriptorRequirements c) c) >>
      let* e := cacheEntryAt p in
      let* c := get in
      (match mDescriptorResources c !! id e with
       | Some _ => ret tt
       | None =>
           call (MakeResourceManager (id e)) >>
           modify (fun c =>
             set_mDescriptorResources
               (<[id e := ∅]> (mDescriptorResources c)) c)
       end) >>
      call (AcquireAll (id e)) >>
      modify (fun c =>
        set_mDescriptorResources
          (alter (fun r => acquireAll r (mPipelineBoundResources c)) (id e)
             (mDescriptorResources c)) c) >>
      let* l := getOrCreatePipelineLayout in
      let* le := layoutEntry l in
      vkCmdBindDescriptorSets cmdbuffer (layout_handle le) (handles e) >>
      ret true
  end.

(** The part of [bindDescriptors] after the early return: re-use the
    cached object if there is one, otherwise create a new one. *)
Definition lookupOrCreate (cmdbuffer : VkCommandBuffer) : M bool :=
  let* c := get in
  let key := DescriptorKey_bytes (mDescriptorRequirements c) in
  let* cacheEntry :=
    match mDescriptorSets c !! key with
    | Some _ => ret (Some key)
    | None => createDescriptorSets
    end in
  bindCacheEntry cmdbuffer cacheEntry.

Definition bindDescriptors (cmdbuffer : VkCommandBuffer) : M bool :=
  let* c := get in
  let descriptorIter :=
    mDescriptorSets c !! DescriptorKey_bytes (mDescriptorRequirements c) in
  if DescEqual (mBoundDescriptor c) (mDescriptorRequirements c) then
    if negb (bool_decide (mDescriptorSets c = ∅)) then
      match descriptorIter with
      | Some e =>
          modify (set_mDescriptorSets
                    (<[DescriptorKey_bytes (mDescriptorRequirements c) :=
                         set_lastUsed (mCurrentTime c) e]>
                       (mDescriptorSets c))) >>
          ret true
      | None => undefined
      end
    else lookupOrCreate cmdbuffer
  else lookupOrCreate cmdbuffer.

(** ** The cache after construction *)

Definition initialDevice : Device :=
  {| nextHandle := 1; allocResults := []; descriptors := ∅; calls := [] |}.

Definition zeroRasterState : RasterState :=
  {| cullMode := 0; frontFace := 0; depthBiasEnable := 0; blendEnable := 0;
     depthWriteEnable := 0; alphaToCoverageEnable := 0;
     srcColorBlendFactor := 0; dstColorBlendFactor := 0;
     srcAlphaBlendFactor := 0; dstAlphaBlendFactor := 0;
     colorWriteMask := 0; rasterizationSamples := 0; colorTargetCount := 0;
     colorBlendOp := 0; alphaBlendOp := 0; depthCompareOp := 0;
     depthBiasConstantFactor := 0; depthBiasSlopeFactor := 0 |}.

Definition zeroPipelineKey : PipelineKey :=
  {| shaders := []; renderPass := 0; topology := 0; subpassIndex := 0;
     vertexAttributes := []; vertexBuffers := [];
     rasterState := zeroRasterState; pipeline_padding := 0; layout := 0 |}.

(** The members as their default initialisers leave them; the dummy write
    and the first pool are set up by code that is not part of this
    development and are taken as given. *)
Definition initialCache (dummy : VkWriteDescriptorSet)
    (pool : VkDescriptorPool) : Cache :=
  {| mDescriptorSets := ∅;
     mDescriptorResources := ∅;
     mPipelineLayouts := ∅;
     mDescriptorPoolSize := INITIAL_DESCRIPTOR_SET_POOL_SIZE;
     mDescriptorArenasCount := 0;
     mDescriptorPool := pool;
     mExtinctDescriptorPools := [];
     mExtinctDescriptorBundles := [];
     mDummyBufferWriteInfo := dummy;
     mDescriptorRequirements := zeroDescriptorKey;
     mBoundDescriptor := zeroDescriptorKey;
     mPipelineRequirements := zeroPipelineKey;
     mCurrentTime := 0;
     mDescriptorCacheEntryCount := 0;
     mPipelineBoundResources := ∅;
     mDevice := initialDevice |}.

(** * Other parts of the backend

    The compact vertex descriptions of the pipeline key, and the render
    targets and programs of VulkanHandles.cpp. *)

(** ** The compact vertex descriptions and their Vulkan counterparts *)

(** [VkVertexInputAttributeDescription]: three [uint32_t] and the
    [VkFormat] enumeration. *)
Record VkVertexInputAttributeDescription := {
  vk_location : Z;
  vk_binding : Z;
  vk_format : Z;
  vk_offset : Z
}.

(** [VkVertexInputBindingDescription]. *)
Record VkVertexInputBindingDescription := {
  vk_vertex_binding : Z;
  vk_stride : Z;
  vk_inputRate : Z
}.

(** [VertexInputAttributeDescription::operator=]: the members are
    [uint8_t], [uint8_t], [uint16_t] and [uint32_t], and the assignments
    narrow. *)
Definition VertexInputAttributeDescription_assign
    (that : VkVertexInputAttributeDescription)
    : VertexInputAttributeDescription :=
  {| via_location := vk_location that mod 2 ^ 8;
     via_binding := vk_binding that mod 2 ^ 8;
     via_format := vk_format that mod 2 ^ 16;
     via_offset := vk_offset that |}.

(** [VertexInputAttributeDescription::operator
    VkVertexInputAttributeDescription()]. *)
Definition to_VkVertexInputAttributeDescription
    (a : VertexInputAttributeDescription)
    : VkVertexInputAttributeDescription :=
  {| vk_location := via_location a;
     vk_binding := via_binding a;
     vk_format := via_format a;
     vk_offset := via_offset a |}.

(** [VertexInputBindingDescription::operator=]: [binding] and [inputRate]
    are [uint16_t] members. *)
Definition VertexInputBindingDescription_assign
    (that : VkVertexInputBindingDescription)
    : VertexInputBindingDescription :=
  {| vib_binding := vk_vertex_binding that mod 2 ^ 16;
     vib_inputRate := vk_inputRate that mod 2 ^ 16;
     vib_stride := vk_stride that |}.

(** [VertexInputBindingDescription::operator
    VkVertexInputBindingDescription()]. *)
Definition to_VkVertexInputBindingDescription
    (b : VertexInputBindingDescription)
    : VkVertexInputBindingDescription :=
  {| vk_vertex_binding := vib_binding b;
     vk_stride := vib_stride b;
     vk_inputRate := vib_inputRate b |}.

(** ** Render targets (VulkanHandles.cpp): rectangles

    [VkRect2D] has a signed 32-bit offset and an unsigned 32-bit extent. *)

Record VkOffset2D := {
  offset_x : Z;
  offset_y : Z
}.

Record VkExtent2D := {
  extent_width : Z;
  extent_height : Z
}.

Record VkRect2D := {
  rect_offset : VkOffset2D;
  rect_extent : VkExtent2D
}.

(** The value of a 32-bit pattern read as [int32_t]: the conversion
    [(int32_t) u] of an unsigned value and the result of assigning an
    unsigned expression to an [int32_t]. *)
Definition to_int32 (v : Z) : Z :=
  let u := wrap32 v in
  if u <? 2 ^ 31 then u else u - 2 ^ 32.

(** Signed arithmetic has no defined result outside [int32_t]. *)
Definition int32_checked (v : Z) : option Z :=
  if (- 2 ^ 31 <=? v) && (v <? 2 ^ 31) then Some v else None.

(** [flipVertically], the overload for a [VkRect2D]: the operands of the two
    subtractions are converted to [uint32_t], the difference is stored into
    the signed [offset.y]. *)
Definition flipVertically (rect : VkRect2D) (framebufferHeight : Z)
    : VkRect2D :=
  {| rect_offset :=
       {| offset_x := offset_x (rect_offset rect);
          offset_y :=
            to_int32
              (wrap32
                 (wrap32 (framebufferHeight
                          - wrap32 (offset_y (rect_offset rect)))
                  - extent_height (rect_extent rect))) |};
     rect_extent := rect_extent rect |}.

(** [clampToFramebuffer]. *)
Definition clampToFramebuffer (rect : VkRect2D) (fbWidth fbHeight : Z)
    : option VkRect2D :=
  let x := Z.max (offset_x (rect_offset rect)) 0 in
  let y := Z.max (offset_y (rect_offset rect)) 0 in
  sumx ← int32_checked (offset_x (rect_offset rect)
                        + to_int32 (extent_width (rect_extent rect)));
  let right := Z.min sumx (to_int32 fbWidth) in
  sumy ← int32_checked (offset_y (rect_offset rect)
                        + to_int32 (extent_height (rect_extent rect)));
  let top := Z.min sumy (to_int32 fbHeight) in
  w ← int32_checked (right - x);
  h ← int32_checked (top - y);
  Some {| rect_offset :=
            {| offset_x := Z.min x (to_int32 fbWidth);
               offset_y := Z.min y (to_int32 fbHeight) |};
          rect_extent :=
            {| extent_width := wrap32 (Z.max w 0);
               extent_height := wrap32 (Z.max h 0) |} |}.

(** [VulkanAttachment]: the texture (a pointer, 0 for [nullptr]) with the
    mip level and the layer attached. *)
Record VulkanAttachment := {
  texture : Z;
  level : Z;
  layer : Z
}.

Definition zeroAttachment : VulkanAttachment :=
  {| texture := 0; level := 0; layer := 0 |}.

(** The members of [VulkanRenderTarget] (with the [width] and [height]
    of [HwRenderTarget]) that the functions below read. *)
Record VulkanRenderTarget := {
  width : Z;
  height : Z;
  mOffscreen : bool;
  mSamples : Z;
  mColor : list VulkanAttachment;
  mDepth : VulkanAttachment
}.

(** [VulkanRenderTarget::getExtent]. *)
Definition getExtent (rt : VulkanRenderTarget) : VkExtent2D :=
  {| extent_width := width rt; extent_height := height rt |}.

(** [VulkanRenderTarget::transformClientRectToPlatform], the overload for
    a [VkRect2D]. *)
Definition transformClientRectToPlatform (rt : VulkanRenderTarget)
    (bounds : VkRect2D) : option VkRect2D :=
  let extent := getExtent rt in
  clampToFramebuffer (flipVertically bounds (extent_height extent))
    (extent_width extent) (extent_height extent).

(** The part of a [VulkanRenderPass] that [getColorTargetCount] reads. *)
Record VulkanRenderPass := {
  subpassMask : Z;
  currentSubpass : Z
}.

(** One turn of the loop of [getColorTargetCount]; [count] is a
    [uint8_t], and [1 << i] is the bit [i] of the mask as long as the shift
    stays within [int]. *)
Definition countColorTarget (rt : VulkanRenderTarget)
    (pass : VulkanRenderPass) (count : Z) (i : nat) : Z :=
  if texture (nth i (mColor rt) zeroAttachment) =? 0 then count
  else if (Z.land (subpassMask pass) (Z.shiftl 1 (Z.of_nat i)) =? 0)
          || (currentSubpass pass =? 1)
       then (count + 1) mod 2 ^ 8
       else count.

(** [VulkanRenderTarget::getColorTargetCount].  The bound of the loop,
    [MRT::MAX_SUPPORTED_RENDER_TARGET_COUNT], is declared outside the
    sources and is an argument here. *)
Definition getColorTargetCount (MAX_SUPPORTED_RENDER_TARGET_COUNT : nat)
    (rt : VulkanRenderTarget) (pass : VulkanRenderPass) : Z :=
  if negb (mOffscreen rt) then 1
  else fold_left (countColorTarget rt pass)
         (seq 0 MAX_SUPPORTED_RENDER_TARGET_COUNT) 0.

(** ** Programs (VulkanHandles.cpp)

    The two constructors of [VulkanProgram] fill a [PipelineInfo].  The
    device and the helpers declared outside the sources are arguments:
    [vkCreateShaderModule] gives the result and the module made from a
    blob, [getUsageFlags] is [VulkanPipelineCache::getUsageFlags], and
    [resize] is the [resize] of [utils::FixedCapacityVector]. *)

Module VulkanProgram.

Definition Blob := list Z.

Definition MAX_SHADER_MODULES : nat := 2.

(** [MAX_SAMPLER_COUNT], which [SAMPLER_BINDING_COUNT] is an alias of. *)
Definition MAX_SAMPLER_COUNT : nat := SAMPLER_BINDING_COUNT.

Definition VK_TRUE : Z := 1.
Definition VK_FALSE : Z := 0.

(** [Program::SpecializationConstant]: an id and an [int32_t], a [float]
    (its 32 bits) or a [bool]. *)
Inductive SpecConstantValue :=
  | of_int32 (v : Z)
  | of_float (bits : Z)
  | of_bool (b : bool).

Record SpecializationConstant := {
  id : Z;
  value : SpecConstantValue
}.

(** A sampler of a sampler group, as far as the constructor reads it. *)
Record Sampler := {
  binding : nat
}.

Record SamplerGroupData := {
  stageFlags : Z;
  samplers : list Sampler
}.

(** What the constructor reads of its [Program]. *)
Record Program := {
  shadersSource : list Blob;
  specializationConstants : list SpecializationConstant;
  samplerGroupInfo : list SamplerGroupData
}.

Record VkSpecializationMapEntry := {
  constantID : Z;
  offset : Z;
  size : Z
}.

(** [VkSpecializationInfo]; the two pointers are either null or the
    addresses of the arrays of the same [PipelineInfo]. *)
Record VkSpecializationInfo := {
  mapEntryCount : Z;
  pMapEntries : bool;
  dataSize : Z;
  pData : bool
}.

Record PipelineInfo := {
  usage : Z;
  bindingToSamplerIndex : list Z;
  shaders : list Z;
  specializationInfo : VkSpecializationInfo;
  specConsts : list VkSpecializationMapEntry;
  specConstData : list Z
}.

(** [PipelineInfo(size_t specConstsCount)].  [new char[n]] gives [n] bytes
    of no particular content: [garbage] is what the memory holds. *)
Definition PipelineInfo_new (specConstsCount : nat) (garbage : nat -> Z)
    : PipelineInfo :=
  {| usage := 0;
     bindingToSamplerIndex := repeat 0xffff MAX_SAMPLER_COUNT;
     shaders := repeat 0 MAX_SHADER_MODULES;
     specializationInfo :=
       {| mapEntryCount := 0; pMapEntries := false;
          dataSize := 0; pData := false |};
     specConsts :=
       repeat {| constantID := 0; offset := 0; size := 0 |} specConstsCount;
     specConstData := map garbage (seq 0 (specConstsCount * 4)) |}.

(** The loop over the shader blobs; a module that cannot be created fails
    the postcondition and the constructor does not return. *)
Fixpoint createShaderModules (vkCreateShaderModule : Blob -> VkResult * Z)
    (blobs : list Blob) (i n : nat) (modules : list Z) : option (list Z) :=
  match n with
  | O => Some modules
  | S n' =>
      match vkCreateShaderModule (nth i blobs []) with
      | (VK_SUCCESS, module) =>
          createShaderModules vkCreateShaderModule blobs (S i) n'
            (<[i := module]> modules)
      | _ => None
      end
  end.

(** A store of some bytes at an address of a buffer; outside the buffer
    it has no defined result. *)
Definition storeBytes (addr : Z) (bs mem : list Z) : option (list Z) :=
  let a := Z.to_nat addr in
  if (a + length bs <=? length mem)%nat
  then Some (take a mem ++ bs ++ drop (a + length bs) mem)
  else None.

(** The four bytes written for a constant. *)
Definition specConstantBytes (arg : SpecConstantValue) : list Z :=
  match arg with
  | of_bool b => le_bytes 4 (if b then VK_TRUE else VK_FALSE)
  | of_float bits => le_bytes 4 bits
  | of_int32 v => le_bytes 4 v
  end.

(** One turn of the loop over the specialization constants. *)
Definition setSpecConstant (constants : list SpecializationConstant)
    (i : nat) (info : PipelineInfo) : option PipelineInfo :=
  let offset := wrap32 (wrap32 (Z.of_nat i) * 4) in
  c ← constants !! i;
  if (i <? length (specConsts info))%nat then
    data ← storeBytes offset (specConstantBytes (value c))
             (specConstData info);
    Some {| usage := usage info;
            bindingToSamplerIndex := bindingToSamplerIndex info;
            shaders := shaders info;
            specializationInfo := specializationInfo info;
            specConsts :=
              <[i := {| constantID := id c; offset := offset; size := 4 |}]>
                (specConsts info);
            specConstData := data |}
  else None.

Fixpoint setSpecConstants (constants : list SpecializationConstant)
    (i n : nat) (info : PipelineInfo) : option PipelineInfo :=
  match n with
  | O => Some info
  | S n' =>
      info' ← setSpecConstant constants i info;
      setSpecConstants constants (S i) n' info'
  end.

(** The value stored for a sampler: the group in the top 8 bits, the
    index within the group in the low 8 bits of a [uint16_t]. *)
Definition samplerIndex (group index : Z) : Z :=
  Z.lor (Z.shiftl group 8) (Z.land 0xff index) mod 2 ^ 16.

(** The inner loop: the samplers of one group, from index [i] on. *)
Fixpoint bindSamplers (getUsageFlags : Z -> Z -> Z -> Z)
    (samplerGroupIdx : nat) (flags : Z) (ss : list Sampler) (i : nat)
    (info : PipelineInfo) : option PipelineInfo :=
  match ss with
  | [] => Some info
  | s :: ss' =>
      if (binding s <? length (bindingToSamplerIndex info))%nat then
        bindSamplers getUsageFlags samplerGroupIdx flags ss' (S i)
          {| usage :=
               getUsageFlags (Z.of_nat (binding s) mod 2 ^ 16) flags
                 (usage info);
             bindingToSamplerIndex :=
               <[binding s :=
                   samplerIndex (Z.of_nat samplerGroupIdx) (Z.of_nat i)]>
                 (bindingToSamplerIndex info);
             shaders := shaders info;
             specializationInfo := specializationInfo info;
             specConsts := specConsts info;
             specConstData := specConstData info |}
      else None
  end.

(** The outer loop over the sampler groups, [Program::SAMPLER_BINDING_COUNT]
    of them, from group [samplerGroupIdx] on. *)
Fixpoint bindSamplerGroups (getUsageFlags : Z -> Z -> Z -> Z)
    (groups : list SamplerGroupData) (samplerGroupIdx : nat)
    (info : PipelineInfo) : option PipelineInfo :=
  match groups with
  | [] => Some info
  | samplerGroup :: groups' =>
      info' ← bindSamplers getUsageFlags samplerGroupIdx
                (stageFlags samplerGroup) (samplers samplerGroup) 0 info;
      bindSamplerGroups getUsageFlags groups' (S samplerGroupIdx) info'
  end.

(** [VulkanProgram::VulkanProgram(VkDevice, const Program&)]: the
    [PipelineInfo] it leaves. *)
Definition fromProgram (vkCreateShaderModule : Blob -> VkResult * Z)
    (getUsageFlags : Z -> Z -> Z -> Z) (garbage : nat -> Z)
    (builder : Program) : option PipelineInfo :=
  let mInfo :=
    PipelineInfo_new (length (specializationConstants builder)) garbage in
  modules ← createShaderModules vkCreateShaderModule (shadersSource builder)
              0 MAX_SHADER_MODULES (shaders mInfo);
  let specConstCount :=
    wrap32 (Z.of_nat (length (specializationConstants builder))) in
  let info1 :=
    {| usage := usage mInfo;
       bindingToSamplerIndex := bindingToSamplerIndex mInfo;
       shaders := modules;
       specializationInfo :=
         if 0 <? specConstCount
         then {| mapEntryCount := specConstCount; pMapEntries := true;
                 dataSize := wrap32 (specConstCount * 4); pData := true |}
         else specializationInfo mInfo;
       specConsts := specConsts mInfo;
       specConstData := specConstData mInfo |} in
  info2 ← setSpecConstants (specializationConstants builder) 0
            (Z.to_nat specConstCount) info1;
  bindSamplerGroups getUsageFlags (samplerGroupInfo builder) 0 info2.

(** The loop of the second constructor, over the tuples [(groupInd,
    samplerInd, stageFlags)] from index [binding] on. *)
Fixpoint bindSamplerTuples (getUsageFlags : Z -> Z -> Z -> Z)
    (samplerBindings : list (Z * Z * Z)) (binding : nat)
    (info : PipelineInfo) : option PipelineInfo :=
  match samplerBindings with
  | [] => Some info
  | (groupInd, samplerInd, flags) :: rest =>
      if (binding <? length (bindingToSamplerIndex info))%nat then
        bindSamplerTuples getUsageFlags rest (S binding)
          {| usage :=
               getUsageFlags (Z.of_nat binding mod 2 ^ 16) flags
                 (usage info);
             bindingToSamplerIndex :=
               <[binding := samplerIndex groupInd samplerInd]>
                 (bindingToSamplerIndex info);
             shaders := shaders info;
             specializationInfo := specializationInfo info;
             specConsts := specConsts info;
             specConstData := specConstData info |}
      else None
  end.

(** [VulkanProgram::VulkanProgram(VkDevice, VkShaderModule, VkShaderModule,
    samplerBindings)]. *)
Definition fromModules (resize : nat -> list Z -> option (list Z))
    (getUsageFlags : Z -> Z -> Z -> Z) (garbage : nat -> Z)
    (vs fs : Z) (samplerBindings : list (Z * Z * Z))
    : option PipelineInfo :=
  let mInfo := PipelineInfo_new 0 garbage in
  resized ← resize (length samplerBindings) (bindingToSamplerIndex mInfo);
  bindSamplerTuples getUsageFlags samplerBindings 0
    {| usage := usage mInfo;
       bindingToSamplerIndex := resized;
       shaders := <[1%nat := fs]> (<[0%nat := vs]> (shaders mInfo));
       specializationInfo := specializationInfo mInfo;
       specConsts := specConsts mInfo;
       specConstData := specConstData mInfo |}.

End VulkanProgram.

(** * Vocabulary of the properties

    What the statements below speak of: the cache a computation leaves,
    the parts of a run, the calls made, the invariants, and concrete caches
    to run the code on. *)

(** ** Running a computation *)

Definition requiredLayout (c : Cache) : PipelineLayoutKey :=
  layout (mPipelineRequirements c).

Definition requiredKey (c : Cache) : list Z :=
  DescriptorKey_bytes (mDescriptorRequirements c).

(** The cache a total computation leaves. *)
Definition exec {A : Type} (m : M A) (c : Cache) : Cache :=
  match m c with
  | Some (_, c') => c'
  | None => c
  end.

(** Whether a computation has a result, and that result. *)
Definition defined {A : Type} (m : M A) (c : Cache) : bool :=
  match m c with
  | Some _ => true
  | None => false
  end.

Definition result {A : Type} (d : A) (m : M A) (c : Cache) : A :=
  match m c with
  | Some (a, _) => a
  | None => d
  end.

(** The entry of the required layout as [getOrCreatePipelineLayout] finds
    or makes it. *)
Definition theLayout (c : Cache) : PipelineLayoutCacheEntry :=
  match mPipelineLayouts (exec getOrCreatePipelineLayout c)
        !! requiredLayout c with
  | Some e => e
  | None => {| layout_handle := 0; layout_lastUsed := 0;
               descriptorSetLayouts := []; descriptorSetArenas := [] |}
  end.

(** ** The parts of [createDescriptorSets] *)

(** The entry under construction and the cache once the counter moved. *)
Definition newEntry (c : Cache) : DescriptorCacheEntry :=
  {| handles := repeat 0 DESCRIPTOR_TYPE_COUNT;
     lastUsed := 0;
     pipelineLayout := requiredLayout c;
     id := mDescriptorCacheEntryCount c |}.

Definition counted (c : Cache) : Cache :=
  set_mDescriptorCacheEntryCount (wrap32 (mDescriptorCacheEntryCount c + 1))
    (exec getOrCreatePipelineLayout c).

(** The device after one [vkAllocateDescriptorSets]. *)
Definition allocationSucceeds (d : Device) : bool :=
  match hd VK_SUCCESS (allocResults d) with
  | VK_SUCCESS => true
  | _ => false
  end.

Definition allocatedSets (d : Device) : list VkDescriptorSet :=
  [nextHandle d; nextHandle d + 1; nextHandle d + 1 + 1].

Definition allocDevice (pool : VkDescriptorPool)
    (ls : list VkDescriptorSetLayout) (d : Device) : Device :=
  {| nextHandle := if allocationSucceeds d then nextHandle d + 1 + 1 + 1
                   else nextHandle d;
     allocResults := tl (allocResults d);
     descriptors := descriptors d;
     calls := calls d
              ++ [AllocateDescriptorSets pool ls
                    (hd VK_SUCCESS (allocResults d))] |}.

(** The cache after the growth the capacity test asks for. *)
Definition afterGrowth (c : Cache) : Cache :=
  if poolWouldOverflow c
  then exec (call GrowDescriptorPool >> growDescriptorPool) c
  else c.

(** The device after the batched update. *)
Definition updateDevice (writes : list VkWriteDescriptorSet) (d : Device)
    : Device :=
  {| nextHandle := nextHandle d;
     allocResults := allocResults d;
     descriptors := fold_left applyWrite writes (descriptors d);
     calls := calls d ++ [UpdateDescriptorSets writes] |}.

(** Whether this call grows the pool. *)
Definition grows (c : Cache) : bool :=
  match arena 0 (theLayout c) with
  | [] => poolWouldOverflow c
  | _ :: _ => false
  end.

(** ** The calls made *)

Fixpoint countCalls (p : Call -> bool) (cs : list Call) : nat :=
  match cs with
  | [] => 0
  | e :: cs' => (if p e then 1 else 0) + countCalls p cs'
  end.

Definition isGrowDescriptorPool (e : Call) : bool :=
  match e with GrowDescriptorPool => true | _ => false end.

Definition isAllocateDescriptorSets (e : Call) : bool :=
  match e with AllocateDescriptorSets _ _ _ => true | _ => false end.

Definition isUpdateDescriptorSets (e : Call) : bool :=
  match e with UpdateDescriptorSets _ => true | _ => false end.

Definition isCmdBindDescriptorSets (e : Call) : bool :=
  match e with CmdBindDescriptorSets _ _ _ => true | _ => false end.

Definition isCreateDescriptorPool (e : Call) : bool :=
  match e with CreateDescriptorPool _ _ => true | _ => false end.

Definition isAcquireAll (e : Call) : bool :=
  match e with AcquireAll _ => true | _ => false end.

(** The calls made between two states of the cache. *)
Definition newCalls (c c' : Cache) : list Call :=
  drop (length (calls (mDevice c))) (calls (mDevice c')).

(** The calls [getOrCreatePipelineLayout] makes. *)
Definition layoutCalls (c : Cache) : list Call :=
  match mPipelineLayouts c !! requiredLayout c with
  | Some _ => []
  | None =>
      let n := nextHandle (mDevice c) in
      [CreateDescriptorSetLayout n; CreateDescriptorSetLayout (n + 1);
       CreateDescriptorSetLayout (n + 1 + 1);
       CreatePipelineLayout (n + 1 + 1 + 1)]
  end.

(** The calls of the growth step. *)
Definition growthCalls (c : Cache) : list Call :=
  if poolWouldOverflow c
  then [GrowDescriptorPool;
        CreateDescriptorPool (wrap32 (mDescriptorPoolSize c * 2))
          (nextHandle (mDevice c))]
  else [].

(** ** The parts of [bindDescriptors] *)

(** The test of the early return: the required key is the bound key and
    the cache holds something. *)
Definition alreadyBound (c : Cache) : bool :=
  DescEqual (mBoundDescriptor c) (mDescriptorRequirements c)
  && negb (bool_decide (mDescriptorSets c = ∅)).

(** The resource manager of entry [i] once the pipeline-bound resources
    were handed to it: a manager made on the spot if there was none. *)
Definition acquired (c : Cache) (i : Z) : ResourceManager :=
  match mDescriptorResources c !! i with
  | Some r => acquireAll r (mPipelineBoundResources c)
  | None => acquireAll ∅ (mPipelineBoundResources c)
  end.

(** The calls of the acquisition, in order. *)
Definition acquireCalls (c : Cache) (i : Z) : list Call :=
  match mDescriptorResources c !! i with
  | Some _ => [AcquireAll i]
  | None => [MakeResourceManager i; AcquireAll i]
  end.

(** The cache before the pipeline layout is fetched for the bind call:
    time stamp and bound key set, resources acquired. *)
Definition acquiredCache (c : Cache) (p : list Z) (e : DescriptorCacheEntry)
    : Cache :=
  let c0 :=
    set_mBoundDescriptor (mDescriptorRequirements c)
      (set_mDescriptorSets
         (<[p := set_lastUsed (mCurrentTime c) e]> (mDescriptorSets c)) c) in
  let c1 :=
    match mDescriptorResources c !! id e with
    | Some _ => c0
    | None =>
        set_mDescriptorResources (<[id e := ∅]> (mDescriptorResources c))
          (set_mDevice (log (MakeResourceManager (id e)) (mDevice c)) c0)
    end in
  set_mDescriptorResources
    (alter (fun r => acquireAll r (mPipelineBoundResources c)) (id e)
       (mDescriptorResources c1))
    (set_mDevice (log (AcquireAll (id e)) (mDevice c1)) c1).

(** ** Invariants *)

(** The ids of all entries the cache still knows: the active ones and the
    extinct bundles. *)
Definition entryIds (c : Cache) : list Z :=
  (id <$> (map_to_list (mDescriptorSets c)).*2)
  ++ (id <$> mExtinctDescriptorBundles c).

(** No id occurs twice and every id was given out by the counter. *)
Definition idsBelowCounter (c : Cache) : Prop :=
  NoDup (entryIds c)
  /\ Forall (fun i => 0 <= i < mDescriptorCacheEntryCount c) (entryIds c).

(** The [DESCRIPTOR_TYPE_COUNT] arenas of a layout hold the same number of
    sets. *)
Definition arenasBalanced (e : PipelineLayoutCacheEntry) : Prop :=
  exists a0 a1 a2,
    descriptorSetArenas e = [a0; a1; a2]
    /\ length a0 = length a1 /\ length a1 = length a2.

Definition layoutsBalanced (c : Cache) : Prop :=
  forall l e, mPipelineLayouts c !! l = Some e -> arenasBalanced e.

(** ** Concrete keys and caches *)

(** A descriptor key whose arrays are spelled out, with one sampler slot
    assigned from a null [VkDescriptorImageInfo]: another value of the
    record than [zeroDescriptorKey], with the same bytes. *)
Definition spelledOutZeroKey : DescriptorKey :=
  {| uniformBuffers := repeat 0 UBUFFER_BINDING_COUNT;
     samplers :=
       [DescriptorImageInfo_assign
          {| vk_sampler := 0; vk_imageView := 0; vk_imageLayout := 0 |}];
     inputAttachments := [zeroImageInfo];
     uniformBufferOffsets := [0; 0];
     uniformBufferSizes := [] |}.

Definition spelledOutZeroPipelineKey : PipelineKey :=
  {| shaders := [0; 0]; renderPass := 0; topology := 0; subpassIndex := 0;
     vertexAttributes := [zeroAttribute]; vertexBuffers := [zeroBinding];
     rasterState := zeroRasterState; pipeline_padding := 0; layout := 0 |}.

(** The placeholder write the constructor prepares: a uniform buffer
    descriptor over the whole dummy buffer. *)
Definition exampleDummyWrite : VkWriteDescriptorSet :=
  {| dstSet := 0; dstBinding := 0; dstArrayElement := 0;
     descriptorCount := 1;
     descriptorType := VK_DESCRIPTOR_TYPE_UNIFORM_BUFFER;
     pImageInfo := None;
     pBufferInfo :=
       Some {| buffer := 900; offset := 0; range := VK_WHOLE_SIZE |} |}.

Definition freshCache : Cache := initialCache exampleDummyWrite 500.

(** A cache whose pool is full of dormant sets: layout 1 holds 512 unused
    sets of each type, and layout 0 is asked for. *)
Definition crowdedCache : Cache :=
  set_mPipelineLayouts
    {[ 1 := {| layout_handle := 600; layout_lastUsed := 0;
               descriptorSetLayouts := [601; 602; 603];
               descriptorSetArenas :=
                 [Z.of_nat <$> seq 1000 512; Z.of_nat <$> seq 2000 512;
                  Z.of_nat <$> seq 3000 512] |} ]}
    (set_mDescriptorArenasCount 512 freshCache).

(** A device that refuses the next allocation. *)
Definition refusingDevice : Device :=
  {| nextHandle := 1; allocResults := [VK_ERROR_OUT_OF_POOL_MEMORY];
     descriptors := ∅; calls := [] |}.

Definition refusedCache : Cache := set_mDevice refusingDevice freshCache.

(** The cache after a first draw, three submissions later. *)
Definition boundCache : Cache :=
  set_mCurrentTime 3 (exec (bindDescriptors 7) freshCache).

Definition firstEntry : DescriptorCacheEntry :=
  {| handles := [5; 6; 7]; lastUsed := 0; pipelineLayout := 0; id := 0 |}.

(** A pool that is full: one active entry under another key and layout 1
    with 511 dormant sets of each type; the device refuses the next
    allocation. *)
Definition otherKey : DescriptorKey :=
  {| uniformBuffers := [77]; samplers := []; inputAttachments := [];
     uniformBufferOffsets := [0]; uniformBufferSizes := [64] |}.

Definition otherEntry : DescriptorCacheEntry :=
  {| handles := [10; 11; 12]; lastUsed := 2; pipelineLayout := 1; id := 0 |}.

Definition fullCache : Cache :=
  set_mDescriptorSets {[ DescriptorKey_bytes otherKey := otherEntry ]}
    (set_mBoundDescriptor otherKey
       (set_mDescriptorCacheEntryCount 512
          (set_mPipelineLayouts
             {[ 1 := {| layout_handle := 600; layout_lastUsed := 0;
                        descriptorSetLayouts := [601; 602; 603];
                        descriptorSetArenas :=
                          [Z.of_nat <$> seq 1000 511;
                           Z.of_nat <$> seq 2000 511;
                           Z.of_nat <$> seq 3000 511] |} ]}
             (set_mDescriptorArenasCount 511 refusedCache)))).

(** A first draw with resource 42 acquired for the pipeline. *)
Definition firstDrawCache : Cache := exec (acquireResource 42) freshCache.

(** The same state drawn once, with resource 43 acquired for the next
    draw. *)
Definition nextDrawCache : Cache :=
  exec (acquireResource 43) (exec (bindDescriptors 7) firstDrawCache).

(** The manager of entry 0 after the first draw. *)
Definition firstManager : ResourceManager := ∅ ∪ ({[42]} ∪ ∅).

(** A cache with one bundle of sets waiting in the arenas of layout 0. *)
Definition reusableCache : Cache :=
  set_mPipelineLayouts
    {[ 0 := {| layout_handle := 4; layout_lastUsed := 0;
               descriptorSetLayouts := [1; 2; 3];
               descriptorSetArenas := [[8; 5]; [9; 6]; [10; 7]] |} ]}
    (set_mDescriptorArenasCount 2
       (set_mDescriptorCacheEntryCount 2 freshCache)).

(** A draw with two uniform buffers (the second over its whole size), a
    gap between them, and one sampler. *)
Definition drawKey : DescriptorKey :=
  {| uniformBuffers := [700; 0; 701];
     samplers := [{| sampler := 800; imageView := 810; imageLayout := 5;
                     padding := 0 |}];
     inputAttachments := [];
     uniformBufferOffsets := [16; 0; 0];
     uniformBufferSizes := [64; 0; WHOLE_SIZE] |}.

Definition drawCache : Cache := set_mDescriptorRequirements drawKey freshCache.

(** The sets 5, 6 and 7 wait in the arenas with what their last use wrote
    into the sampler set: samplers in slots 0 and 1.  The draw that takes
    them has a sampler in slot 1 only. *)
Definition staleInfo : DescriptorImageInfo :=
  {| sampler := 800; imageView := 810; imageLayout := 5; padding := 0 |}.

Definition staleWrite (binding : nat) : VkWriteDescriptorSet :=
  imageWrite VK_DESCRIPTOR_TYPE_COMBINED_IMAGE_SAMPLER staleInfo 6 binding.

Definition nextInfo : DescriptorImageInfo :=
  {| sampler := 801; imageView := 811; imageLayout := 5; padding := 0 |}.

Definition nextKey : DescriptorKey :=
  {| uniformBuffers := [700];
     samplers := [zeroImageInfo; nextInfo];
     inputAttachments := [];
     uniformBufferOffsets := [0];
     uniformBufferSizes := [64] |}.

Definition staleCache : Cache :=
  set_mDescriptorRequirements nextKey
    (set_mDevice
       {| nextHandle := 11; allocResults := [];
          descriptors := <[(6, 0) := staleWrite 0]>
                           (<[(6, 1) := staleWrite 1]> ∅);
          calls := [] |}
       reusableCache).

(** ** Invariants of the binding state *)

(** The key whose sets were bound last is still in the cache, unless the
    cache holds nothing: what the assertion of the early return of
    [bindDescriptors] relies on. *)
Definition boundKeyCached (c : Cache) : Prop :=
  mDescriptorSets c = ∅
  \/ is_Some (mDescriptorSets c !! DescriptorKey_bytes (mBoundDescriptor c)).

(** The sets waiting in the arenas, counted in bundles: the length of
    the first arena of every layout. *)
Definition dormantBundles (m : PipelineLayoutMap) : nat :=
  sum_list_with (fun le => length (arena 0 le.2)) (map_to_list m).

(** [mDescriptorArenasCount] is the number of dormant bundles. *)
Definition dormantCounted (c : Cache) : Prop :=
  mDescriptorArenasCount c = Z.of_nat (dormantBundles (mPipelineLayouts c)).

(** ** The write batch *)

(** The slots of the required key that get a write of their own: the
    sampler slots with a sampler and the input attachments with an image
    view. *)
Definition activeSamplers (req : DescriptorKey) : list nat :=
  List.filter
    (fun binding =>
       negb (sampler (nth binding (samplers req) zeroImageInfo) =? 0))
    (seq 0 SAMPLER_BINDING_COUNT).

Definition activeInputAttachments (req : DescriptorKey) : list nat :=
  List.filter
    (fun binding =>
       negb (imageView (nth binding (inputAttachments req) zeroImageInfo)
             =? 0))
    (seq 0 INPUT_ATTACHMENT_COUNT).

(** ** Reading an object representation *)

(** The unsigned integer a little-endian byte sequence stands for. *)
Fixpoint le_value (bs : list Z) : Z :=
  match bs with
  | [] => 0
  | b :: bs' => b + 256 * le_value bs'
  end.

(** The [len] bytes at offset [off] of an object representation. *)
Definition field (off len : nat) (image : list Z) : list Z :=
  take len (drop off image).

(** What the assertions of
    [VertexInputAttributeDescription::operator=] ask of the argument. *)
Definition attributeFits (that : VkVertexInputAttributeDescription) : Prop :=
  0 <= vk_location that <= 0xff
  /\ 0 <= vk_binding that <= 0xff
  /\ 0 <= vk_format that <= 0xffff.

(** The assertion of [VertexInputBindingDescription::operator=], and the
    same bound for the input rate, which is stored with 16 bits as well. *)
Definition bindingFits (that : VkVertexInputBindingDescription) : Prop :=
  0 <= vk_vertex_binding that <= 0xffff
  /\ 0 <= vk_inputRate that <= 0xffff.

(** The value of a bit-field of [w] bits at bit [pos] of a storage unit. *)
Definition bits (w pos word : Z) : Z :=
  Z.land (Z.shiftr word pos) (Z.ones w).

Definition exampleRasterState : RasterState :=
  {| cullMode := 2; frontFace := 1; depthBiasEnable := 0; blendEnable := 1;
     depthWriteEnable := 1; alphaToCoverageEnable := 0;
     srcColorBlendFactor := 6; dstColorBlendFactor := 7;
     srcAlphaBlendFactor := 1; dstAlphaBlendFactor := 0;
     colorWriteMask := 15; rasterizationSamples := 4; colorTargetCount := 1;
     colorBlendOp := 0; alphaBlendOp := 2; depthCompareOp := 3;
     depthBiasConstantFactor := 0; depthBiasSlopeFactor := 0 |}.

(** ** Render targets *)

(** The rectangle lies in a framebuffer of the given size. *)
Definition insideFramebuffer (rect : VkRect2D) (fbWidth fbHeight : Z)
    : Prop :=
  0 <= offset_x (rect_offset rect)
  /\ 0 <= offset_y (rect_offset rect)
  /\ 0 <= extent_width (rect_extent rect)
  /\ 0 <= extent_height (rect_extent rect)
  /\ offset_x (rect_offset rect) + extent_width (rect_extent rect) <= fbWidth
  /\ offset_y (rect_offset rect) + extent_height (rect_extent rect)
     <= fbHeight.

(** The color attachments a subpass renders to. *)
Definition rendersTo (rt : VulkanRenderTarget) (pass : VulkanRenderPass)
    (i : nat) : bool :=
  negb (texture (nth i (mColor rt) zeroAttachment) =? 0)
  && (negb (Z.testbit (subpassMask pass) (Z.of_nat i))
      || (currentSubpass pass =? 1)).

Definition exampleRect : VkRect2D :=
  {| rect_offset := {| offset_x := -10; offset_y := 100 |};
     rect_extent := {| extent_width := 50; extent_height := 2000 |} |}.

(** What is left of it in a framebuffer of 640 by 480. *)
Definition clampedRect : VkRect2D :=
  {| rect_offset := {| offset_x := 0; offset_y := 100 |};
     rect_extent := {| extent_width := 40; extent_height := 380 |} |}.

Definition exampleTarget : VulkanRenderTarget :=
  {| width := 640; height := 480; mOffscreen := true; mSamples := 1;
     mColor := [ {| texture := 11; level := 0; layer := 0 |};
                 zeroAttachment;
                 {| texture := 12; level := 0; layer := 0 |} ];
     mDepth := zeroAttachment |}.

(** ** Programs *)

(** The bindings the sampler groups of a program name, group after
    group. *)
Definition programBindings (groups : list VulkanProgram.SamplerGroupData)
    : list nat :=
  flat_map (fun g => VulkanProgram.binding <$> VulkanProgram.samplers g)
    groups.

(** A device on which every shader module can be created. *)
Definition exampleCreateShaderModule (blob : VulkanProgram.Blob)
    : VkResult * Z :=
  (VK_SUCCESS, 100 + Z.of_nat (length blob)).

(** Usage flags as a bit per binding. *)
Definition exampleUsageFlags (binding stages src : Z) : Z :=
  Z.lor src (Z.shiftl 1 binding).

Definition exampleProgram : VulkanProgram.Program :=
  {| VulkanProgram.shadersSource := [[1; 2; 3; 4]; [5; 6; 7; 8; 9; 10; 11; 12]];
     VulkanProgram.specializationConstants :=
       [ {| VulkanProgram.id := 7;
            VulkanProgram.value := VulkanProgram.of_bool true |};
         {| VulkanProgram.id := 3;
            VulkanProgram.value := VulkanProgram.of_int32 (-2) |} ];
     VulkanProgram.samplerGroupInfo :=
       [ {| VulkanProgram.stageFlags := 1;
            VulkanProgram.samplers := [ {| VulkanProgram.binding := 4 |} ] |};
         {| VulkanProgram.stageFlags := 2;
            VulkanProgram.samplers :=
              [ {| VulkanProgram.binding := 0 |};
                {| VulkanProgram.binding := 9 |} ] |} ] |}.

(** A [resize] that keeps the first elements of a vector it does not have
    to grow. *)
Definition exampleResize (n : nat) (v : list Z) : option (list Z) :=
  if (n <=? length v)%nat then Some (take n v) else None.

(** ** Outcomes *)

(** Whether this call of [createDescriptorSets] gets its sets: from the
    arenas when the first one holds a set, otherwise from an allocation,
    which the device grants or refuses. *)
Definition creates (c : Cache) : bool :=
  match arena 0 (theLayout c) with
  | [] => allocationSucceeds (mDevice c)
  | _ :: _ => true
  end.

(** Every member of the cache object but [mDescriptorSets] and the device
    is the same in both. *)
Definition sameButDescriptorSets (c c' : Cache) : Prop :=
  mDescriptorResources c' = mDescriptorResources c
  /\ mPipelineLayouts c' = mPipelineLayouts c
  /\ mDescriptorPoolSize c' = mDescriptorPoolSize c
  /\ mDescriptorArenasCount c' = mDescriptorArenasCount c
  /\ mDescriptorPool c' = mDescriptorPool c
  /\ mExtinctDescriptorPools c' = mExtinctDescriptorPools c
  /\ mExtinctDescriptorBundles c' = mExtinctDescriptorBundles c
  /\ mDummyBufferWriteInfo c' = mDummyBufferWriteInfo c
  /\ mDescriptorRequirements c' = mDescriptorRequirements c
  /\ mBoundDescriptor c' = mBoundDescriptor c
  /\ mPipelineRequirements c' = mPipelineRequirements c
  /\ mCurrentTime c' = mCurrentTime c
  /\ mDescriptorCacheEntryCount c' = mDescriptorCacheEntryCount c
  /\ mPipelineBoundResources c' = mPipelineBoundResources c.

(** The cache after a first draw, with another key bound since and a
    pipeline layout asked for that the cache has not seen. *)
Definition relayoutCache : Cache :=
  set_mPipelineRequirements
    {| shaders := []; renderPass := 0; topology := 0; subpassIndex := 0;
       vertexAttributes := []; vertexBuffers := [];
       rasterState := zeroRasterState; pipeline_padding := 0; layout := 1 |}
    (set_mBoundDescriptor otherKey boundCache).

(** Whether a write of the batch is addressed to a binding of a set. *)
Definition addressedTo (set : VkDescriptorSet) (binding : Z)
    (w : VkWriteDescriptorSet) : bool :=
  (dstSet w =? set) && (dstBinding w =? binding).

(** ** Members of a key *)













(** * Properties *)

(** ** Keys: byte images, equality and hash *)

Lemma bytes_eqb_eq (a b : list Z) : bytes_eqb a b = true <-> a = b.
Proof.
  revert b. induction a as [|x a IH]; intros [|y b]; simpl;
    try (split; [discriminate | congruence]); [tauto|].
  rewrite andb_true_iff, Z.eqb_eq, IH. split.
  - intros [-> ->]. reflexivity.
  - intros [= -> ->]. auto.
Qed.

Lemma length_le_bytes (n : nat) (v : Z) : length (le_bytes n v) = n.
Proof. revert v. induction n; intros v; simpl; [|rewrite IHn]; reflexivity. Qed.

Lemma length_array_bytes {A : Type} (N w : nat) (d : A) (f : A -> list Z)
    (l : list A) :
  (forall a, length (f a) = w) ->
  length (array_bytes N d f l) = (N * w)%nat.
Proof.
  intros Hf. unfold array_bytes, c_array. generalize 0%nat.
  induction N as [|N IH]; intros start; simpl; [reflexivity|].
  rewrite length_app, Hf, IH. reflexivity.
Qed.

Lemma length_imageInfo_bytes (i : DescriptorImageInfo) :
  length (imageInfo_bytes i) = 24%nat.
Proof.
  unfold imageInfo_bytes. rewrite !length_app, !length_le_bytes. reflexivity.
Qed.

(** [static_assert(sizeof(DescriptorKey) == 1672)]: the image is the named
    fields and nothing else. *)
Lemma sizeof_DescriptorKey (k : DescriptorKey) :
  length (DescriptorKey_bytes k) = 1672%nat.
Proof.
  unfold DescriptorKey_bytes. rewrite !length_app.
  rewrite (length_array_bytes _ 8 _ (le_bytes 8)),
    !(length_array_bytes _ 24 _ imageInfo_bytes),
    !(length_array_bytes _ 4 _ (le_bytes 4));
    auto using length_le_bytes, length_imageInfo_bytes.
Qed.

(** [static_assert(sizeof(PipelineKey) == 320)]. *)
Lemma sizeof_PipelineKey (k : PipelineKey) :
  length (PipelineKey_bytes k) = 320%nat.
Proof.
  unfold PipelineKey_bytes, RasterState_bytes. rewrite !length_app.
  rewrite (length_array_bytes _ 8 _ (le_bytes 8)),
    (length_array_bytes _ 8 _ attribute_bytes),
    (length_array_bytes _ 8 _ binding_bytes),
    !length_le_bytes; auto using length_le_bytes;
    intros a; unfold binding_bytes, attribute_bytes;
    rewrite !length_app, !length_le_bytes; reflexivity.
Qed.

Lemma DescEqual_bytes (k1 k2 : DescriptorKey) :
  DescEqual k1 k2 = true <-> DescriptorKey_bytes k1 = DescriptorKey_bytes k2.
Proof. apply bytes_eqb_eq. Qed.


(** The byte images and the write lists are never unfolded by
    simplification. *)
Arguments DescriptorKey_bytes : simpl never.
Arguments PipelineKey_bytes : simpl never.
Arguments descriptorWrites : simpl never.
Arguments emplace : simpl never.
Arguments wrap32 : simpl never.
Arguments wrap64 : simpl never.
Arguments getOrCreatePipelineLayout : simpl never.

(** ** Running the collaborators *)

Lemma run_defined {A : Type} (d : A) (m : M A) (c : Cache) :
  defined m c = true -> m c = Some (result d m c, exec m c).
Proof.
  unfold defined, result, exec. destruct (m c) as [[a c']|];
    [reflexivity | discriminate].
Qed.

Ltac unfold_M :=
  unfold bind, ret, get, modify, call, undefined, layoutEntry, cacheEntryAt,
    freshHandle, nextAllocResult in *.

Lemma getOrCreatePipelineLayout_run (c : Cache) :
  getOrCreatePipelineLayout c
  = Some (requiredLayout c, exec getOrCreatePipelineLayout c).
Proof.
  unfold exec, getOrCreatePipelineLayout, requiredLayout. unfold_M.
  destruct (mPipelineLayouts c !! layout (mPipelineRequirements c));
    reflexivity.
Qed.

Lemma theLayout_lookup (c : Cache) :
  mPipelineLayouts (exec getOrCreatePipelineLayout c) !! requiredLayout c
  = Some (theLayout c).
Proof.
  unfold theLayout, exec, getOrCreatePipelineLayout, requiredLayout.
  unfold_M.
  destruct (mPipelineLayouts c !! layout (mPipelineRequirements c)) eqn:E;
    simpl; rewrite lookup_insert_eq; reflexivity.
Qed.

(** The layouts and arenas of the entry, read off the cache before the
    call. *)
Lemma theLayout_arenas (c : Cache) :
  descriptorSetArenas (theLayout c)
  = match mPipelineLayouts c !! requiredLayout c with
    | Some e => descriptorSetArenas e
    | None => repeat [] DESCRIPTOR_TYPE_COUNT
    end.
Proof.
  unfold theLayout, exec, getOrCreatePipelineLayout, requiredLayout.
  unfold_M.
  destruct (mPipelineLayouts c !! layout (mPipelineRequirements c)) eqn:E;
    simpl; rewrite lookup_insert_eq; reflexivity.
Qed.

(** What [getOrCreatePipelineLayout] leaves alone. *)
Lemma getOrCreatePipelineLayout_frame (c : Cache) :
  let c' := exec getOrCreatePipelineLayout c in
  mDescriptorSets c' = mDescriptorSets c
  /\ mDescriptorResources c' = mDescriptorResources c
  /\ mDescriptorPoolSize c' = mDescriptorPoolSize c
  /\ mDescriptorArenasCount c' = mDescriptorArenasCount c
  /\ mDescriptorPool c' = mDescriptorPool c
  /\ mExtinctDescriptorPools c' = mExtinctDescriptorPools c
  /\ mExtinctDescriptorBundles c' = mExtinctDescriptorBundles c
  /\ mDummyBufferWriteInfo c' = mDummyBufferWriteInfo c
  /\ mDescriptorRequirements c' = mDescriptorRequirements c
  /\ mBoundDescriptor c' = mBoundDescriptor c
  /\ mPipelineRequirements c' = mPipelineRequirements c
  /\ mCurrentTime c' = mCurrentTime c
  /\ mDescriptorCacheEntryCount c' = mDescriptorCacheEntryCount c
  /\ mPipelineBoundResources c' = mPipelineBoundResources c
  /\ allocResults (mDevice c') = allocResults (mDevice c)
  /\ descriptors (mDevice c') = descriptors (mDevice c).
Proof.
  unfold exec, getOrCreatePipelineLayout. unfold_M.
  destruct (mPipelineLayouts c !! layout (mPipelineRequirements c));
    simpl; repeat split; reflexivity.
Qed.

(** Layouts other than the required one are not touched. *)
Lemma getOrCreatePipelineLayout_others (c : Cache) (k : PipelineLayoutKey) :
  k <> requiredLayout c ->
  mPipelineLayouts (exec getOrCreatePipelineLayout c) !! k
  = mPipelineLayouts c !! k.
Proof.
  intros Hk. unfold exec, getOrCreatePipelineLayout, requiredLayout in *.
  unfold_M.
  destruct (mPipelineLayouts c !! layout (mPipelineRequirements c));
    simpl; rewrite lookup_insert_ne; congruence.
Qed.

(** A known layout is found without a call to the device. *)
Lemma getOrCreatePipelineLayout_hit (c : Cache) (e : PipelineLayoutCacheEntry) :
  mPipelineLayouts c !! requiredLayout c = Some e ->
  exec getOrCreatePipelineLayout c
  = set_mPipelineLayouts
      (<[requiredLayout c := set_layout_lastUsed (mCurrentTime c) e]>
         (mPipelineLayouts c)) c.
Proof.
  intros He. unfold exec, getOrCreatePipelineLayout, requiredLayout in *.
  unfold_M. rewrite He. reflexivity.
Qed.

(** ** The blocks of [createDescriptorSets] *)

Arguments counted : simpl never.

Lemma createDescriptorSets_unfold (c : Cache) :
  createDescriptorSets c
  = bind (match arena 0 (theLayout c) with
          | [] => allocateFromPool (requiredLayout c)
          | _ :: _ => reclaimFromArenas (requiredLayout c)
          end)
         (fun allocated =>
            match allocated with
            | None => ret None
            | Some hs => writeDescriptorSets (set_handles hs (newEntry c))
            end)
         (counted c).
Proof.
  unfold createDescriptorSets. unfold bind at 1.
  rewrite getOrCreatePipelineLayout_run.
  unfold bind at 1, get at 1, bind at 1, modify at 1, bind at 1,
    layoutEntry at 1.
  cbn [mPipelineLayouts set_mDescriptorCacheEntryCount].
  rewrite theLayout_lookup.
  destruct (getOrCreatePipelineLayout_frame c)
    as (_ & _ & _ & _ & _ & _ & _ & _ & _ & _ & Hp & _ & Hn & _).
  cbv zeta in Hp, Hn. unfold counted, newEntry, requiredLayout.
  rewrite Hp, Hn. reflexivity.
Qed.

Lemma growDescriptorPool_layouts (c : Cache) (l : PipelineLayoutKey) :
  mPipelineLayouts (exec (call GrowDescriptorPool >> growDescriptorPool) c)
    !! l
  = set_descriptorSetArenas (repeat [] DESCRIPTOR_TYPE_COUNT)
      <$> mPipelineLayouts c !! l.
Proof. cbn. apply lookup_fmap. Qed.

Lemma afterGrowth_layouts (c : Cache) (l : PipelineLayoutKey)
    (e : PipelineLayoutCacheEntry) :
  mPipelineLayouts c !! l = Some e ->
  exists e', mPipelineLayouts (afterGrowth c) !! l = Some e'
    /\ descriptorSetLayouts e' = descriptorSetLayouts e
    /\ layout_handle e' = layout_handle e
    /\ descriptorSetArenas e'
       = if poolWouldOverflow c then repeat [] DESCRIPTOR_TYPE_COUNT
         else descriptorSetArenas e.
Proof.
  intros He. unfold afterGrowth. destruct (poolWouldOverflow c).
  - rewrite growDescriptorPool_layouts, He. simpl. eauto.
  - eauto.
Qed.

Lemma allocateFromPool_run (c : Cache) (l : PipelineLayoutKey)
    (e : PipelineLayoutCacheEntry) :
  mPipelineLayouts c !! l = Some e ->
  let c1 := afterGrowth c in
  allocateFromPool l c
  = Some (if allocationSucceeds (mDevice c1)
          then Some (allocatedSets (mDevice c1)) else None,
          set_mDevice
            (allocDevice (mDescriptorPool c1) (descriptorSetLayouts e)
               (mDevice c1)) c1).
Proof.
  intros He c1. destruct (afterGrowth_layouts c l e He) as (e' & He' & Hl & _).
  unfold allocateFromPool. unfold bind at 1, get at 1, bind at 1.
  assert (Hg : (if poolWouldOverflow c
                then call GrowDescriptorPool >> growDescriptorPool
                else ret ()) c = Some (tt, c1)).
  { unfold c1, afterGrowth. destruct (poolWouldOverflow c); reflexivity. }
  rewrite Hg. unfold bind at 1, get at 1, bind at 1, layoutEntry at 1.
  fold c1 in He'. rewrite He'. rewrite Hl.
  unfold vkAllocateDescriptorSets, allocDevice, allocationSucceeds,
    allocatedSets. unfold_M. cbn.
  destruct (hd VK_SUCCESS (allocResults (mDevice c1))); reflexivity.
Qed.

Lemma list_eq_nil_or_snoc {A : Type} (l : list A) :
  l = [] \/ exists a h, l = a ++ [h].
Proof.
  induction l as [|h a _] using rev_ind; [left; reflexivity | right; eauto].
Qed.

Lemma popArena_run (c : Cache) (l : PipelineLayoutKey)
    (e : PipelineLayoutCacheEntry) (i : nat) (a : list VkDescriptorSet)
    (h : VkDescriptorSet) :
  mPipelineLayouts c !! l = Some e ->
  arena i e = a ++ [h] ->
  popArena l i c
  = Some (h, set_mPipelineLayouts
               (<[l := set_descriptorSetArenas
                         (<[i := a]> (descriptorSetArenas e)) e]>
                  (mPipelineLayouts c)) c).
Proof.
  intros He Ha. unfold popArena. unfold_M. rewrite He, Ha.
  rewrite rev_unit, removelast_last. reflexivity.
Qed.

Lemma popArena_empty (c : Cache) (l : PipelineLayoutKey)
    (e : PipelineLayoutCacheEntry) (i : nat) :
  mPipelineLayouts c !! l = Some e ->
  arena i e = [] ->
  popArena l i c = None.
Proof.
  intros He Ha. unfold popArena. unfold_M. rewrite He, Ha. reflexivity.
Qed.

Lemma reclaimFromArenas_run (c : Cache) (l : PipelineLayoutKey)
    (e : PipelineLayoutCacheEntry) (a0 a1 a2 : list VkDescriptorSet)
    (h0 h1 h2 : VkDescriptorSet) :
  mPipelineLayouts c !! l = Some e ->
  descriptorSetArenas e = [a0 ++ [h0]; a1 ++ [h1]; a2 ++ [h2]] ->
  reclaimFromArenas l c
  = Some (Some [h0; h1; h2],
          set_mDescriptorArenasCount (wrap32 (mDescriptorArenasCount c - 1))
            (set_mPipelineLayouts
               (<[l := set_descriptorSetArenas [a0; a1; a2] e]>
                  (mPipelineLayouts c)) c)).
Proof.
  intros He Ha. unfold reclaimFromArenas, DESCRIPTOR_TYPE_COUNT.
  cbn [popArenas]. unfold bind at 1 2 3.
  rewrite (popArena_run c l e 0 a0 h0 He) by (unfold arena; rewrite Ha; reflexivity).
  unfold bind at 1 2.
  erewrite (popArena_run _ l _ 1 a1 h1);
    [| cbn; apply lookup_insert_eq | unfold arena; cbn; rewrite Ha; reflexivity].
  unfold bind at 1 2.
  erewrite (popArena_run _ l _ 2 a2 h2);
    [| cbn; apply lookup_insert_eq | unfold arena; cbn; rewrite Ha; reflexivity].
  unfold_M. cbn. rewrite Ha. cbn. rewrite !insert_insert_eq. reflexivity.
Qed.

(** Popping an arena that is empty has no defined result. *)
Lemma reclaimFromArenas_unbalanced (c : Cache) (l : PipelineLayoutKey)
    (e : PipelineLayoutCacheEntry) (i : nat) :
  mPipelineLayouts c !! l = Some e ->
  length (descriptorSetArenas e) = DESCRIPTOR_TYPE_COUNT ->
  (i < DESCRIPTOR_TYPE_COUNT)%nat ->
  arena i e = [] ->
  reclaimFromArenas l c = None.
Proof.
  intros He Hlen Hi Hemp.
  destruct (descriptorSetArenas e) as [|b0 [|b1 [|b2 [|]]]] eqn:Ha;
    try discriminate.
  assert (Hi3 : i = 0%nat \/ i = 1%nat \/ i = 2%nat)
    by (unfold DESCRIPTOR_TYPE_COUNT in Hi; lia).
  unfold arena in Hemp. rewrite Ha in Hemp.
  unfold reclaimFromArenas, DESCRIPTOR_TYPE_COUNT.
  cbn [popArenas]. unfold bind at 1 2 3.
  destruct (list_eq_nil_or_snoc b0) as [-> | (a0 & h0 & ->)].
  { rewrite (popArena_empty c l e 0 He)
      by (unfold arena; rewrite Ha; reflexivity). reflexivity. }
  rewrite (popArena_run c l e 0 a0 h0 He)
    by (unfold arena; rewrite Ha; reflexivity).
  unfold bind at 1 2.
  destruct (list_eq_nil_or_snoc b1) as [-> | (a1 & h1 & ->)].
  { erewrite (popArena_empty _ l _ 1);
      [reflexivity | cbn; apply lookup_insert_eq
      | unfold arena; cbn; rewrite Ha; reflexivity]. }
  erewrite (popArena_run _ l _ 1 a1 h1);
    [| cbn; apply lookup_insert_eq
     | unfold arena; cbn; rewrite Ha; reflexivity].
  unfold bind at 1 2.
  destruct (list_eq_nil_or_snoc b2) as [-> | (a2 & h2 & ->)].
  { erewrite (popArena_empty _ l _ 2);
      [reflexivity | cbn; apply lookup_insert_eq
      | unfold arena; cbn; rewrite Ha; reflexivity]. }
  exfalso. destruct Hi3 as [-> | [-> | ->]]; cbn in Hemp;
    eapply app_cons_not_nil; symmetry; exact Hemp.
Qed.

Lemma writeDescriptorSets_run (c : Cache) (entry : DescriptorCacheEntry) :
  writeDescriptorSets entry c
  = Some (Some (requiredKey c),
          set_mDescriptorSets
            (emplace (requiredKey c) entry (mDescriptorSets c))
            (set_mDevice
               (updateDevice
                  (descriptorWrites (mDescriptorRequirements c)
                     (mDummyBufferWriteInfo c) (handles entry))
                  (mDevice c)) c)).
Proof. reflexivity. Qed.

(** The arenas are only ever changed through [mPipelineLayouts]. *)
Lemma popArenas_frame (l : PipelineLayoutKey) (n i : nat) (c c' : Cache)
    (hs : list VkDescriptorSet) :
  popArenas l i n c = Some (hs, c') ->
  exists L, c' = set_mPipelineLayouts L c.
Proof.
  revert i c hs. induction n as [|n IH]; intros i c hs; cbn [popArenas].
  - unfold_M. intros [= <- <-]. exists (mPipelineLayouts c).
    destruct c; reflexivity.
  - unfold bind at 1. destruct (popArena l i c) as [[h c1]|] eqn:E1;
      [|discriminate].
    unfold bind at 1.
    destruct (popArenas l (S i) n c1) as [[hs' c2]|] eqn:E2; [|discriminate].
    unfold ret. intros [= <- <-].
    apply IH in E2 as [L2 ->].
    unfold popArena in E1. unfold_M.
    destruct (mPipelineLayouts c !! l) as [e|]; [|discriminate].
    destruct (rev (arena i e)); [discriminate|].
    injection E1 as <- <-. eexists. reflexivity.
Qed.

Lemma reclaimFromArenas_frame (l : PipelineLayoutKey) (c c' : Cache)
    (r : option (list VkDescriptorSet)) :
  reclaimFromArenas l c = Some (r, c') ->
  exists L hs,
    r = Some hs
    /\ c' = set_mDescriptorArenasCount
              (wrap32 (mDescriptorArenasCount c - 1))
              (set_mPipelineLayouts L c).
Proof.
  unfold reclaimFromArenas. unfold bind at 1.
  destruct (popArenas l 0 DESCRIPTOR_TYPE_COUNT c) as [[hs c1]|] eqn:E;
    [|discriminate].
  apply popArenas_frame in E as [L ->]. unfold_M. intros [= <- <-].
  exists L, hs. split; reflexivity.
Qed.

(** *** The two ways through [createDescriptorSets] *)

Lemma createDescriptorSets_fresh (c : Cache) :
  arena 0 (theLayout c) = [] ->
  let c1 := afterGrowth (counted c) in
  let c2 := set_mDevice
              (allocDevice (mDescriptorPool c1)
                 (descriptorSetLayouts (theLayout c)) (mDevice c1)) c1 in
  createDescriptorSets c
  = if allocationSucceeds (mDevice c1)
    then writeDescriptorSets
           (set_handles (allocatedSets (mDevice c1)) (newEntry c)) c2
    else Some (None, c2).
Proof.
  intros Ha c1 c2. rewrite createDescriptorSets_unfold, Ha.
  unfold bind at 1.
  rewrite (allocateFromPool_run (counted c) _ (theLayout c))
    by (unfold counted; cbn; apply theLayout_lookup).
  fold c1. fold c2. destruct (allocationSucceeds (mDevice c1)); reflexivity.
Qed.

Lemma createDescriptorSets_reuse (c c' : Cache) (r : option (list Z)) :
  arena 0 (theLayout c) <> [] ->
  createDescriptorSets c = Some (r, c') ->
  exists L hs,
    let c1 := set_mDescriptorArenasCount
                (wrap32 (mDescriptorArenasCount c - 1))
                (set_mPipelineLayouts L (counted c)) in
    reclaimFromArenas (requiredLayout c) (counted c) = Some (Some hs, c1)
    /\ writeDescriptorSets (set_handles hs (newEntry c)) c1 = Some (r, c').
Proof.
  intros Ha. rewrite createDescriptorSets_unfold.
  destruct (arena 0 (theLayout c)) as [|x a]; [congruence|].
  unfold bind at 1.
  destruct (reclaimFromArenas (requiredLayout c) (counted c))
    as [[r1 c1]|] eqn:E; [|discriminate].
  destruct (reclaimFromArenas_frame _ _ _ _ E) as (L & hs & -> & ->).
  assert (Hn : mDescriptorArenasCount (counted c)
               = mDescriptorArenasCount c).
  { destruct (getOrCreatePipelineLayout_frame c) as (_ & _ & _ & Hn & _).
    exact Hn. }
  rewrite Hn in *. intros H. exists L, hs. split; [reflexivity|exact H].
Qed.

(** ** Counting calls *)

Lemma countCalls_app (p : Call -> bool) (a b : list Call) :
  countCalls p (a ++ b) = (countCalls p a + countCalls p b)%nat.
Proof. induction a as [|e a IH]; simpl; [reflexivity|rewrite IH; lia]. Qed.

Lemma newCalls_app (c c' : Cache) (cs : list Call) :
  calls (mDevice c') = calls (mDevice c) ++ cs -> newCalls c c' = cs.
Proof. intros H. unfold newCalls. rewrite H. apply drop_app_length. Qed.

Lemma getOrCreatePipelineLayout_calls (c : Cache) :
  calls (mDevice (exec getOrCreatePipelineLayout c))
  = calls (mDevice c) ++ layoutCalls c.
Proof.
  unfold layoutCalls, exec, getOrCreatePipelineLayout, requiredLayout.
  unfold_M.
  destruct (mPipelineLayouts c !! layout (mPipelineRequirements c)); cbn.
  - rewrite app_nil_r. reflexivity.
  - rewrite <- !app_assoc. reflexivity.
Qed.

Lemma layoutCalls_count (p : Call -> bool) (c : Cache) :
  (forall h, p (CreateDescriptorSetLayout h) = false) ->
  (forall h, p (CreatePipelineLayout h) = false) ->
  countCalls p (layoutCalls c) = 0%nat.
Proof.
  intros H1 H2. unfold layoutCalls.
  destruct (mPipelineLayouts c !! requiredLayout c); cbn;
    rewrite ?H1, ?H2; reflexivity.
Qed.

Arguments afterGrowth : simpl never.

Lemma afterGrowth_calls (c : Cache) :
  calls (mDevice (afterGrowth c)) = calls (mDevice c) ++ growthCalls c.
Proof.
  unfold afterGrowth, growthCalls. destruct (poolWouldOverflow c); cbn.
  - rewrite <- app_assoc. reflexivity.
  - rewrite app_nil_r. reflexivity.
Qed.

Lemma poolWouldOverflow_counted (c : Cache) :
  poolWouldOverflow (counted c) = poolWouldOverflow c.
Proof.
  unfold poolWouldOverflow, counted. cbn.
  destruct (getOrCreatePipelineLayout_frame c)
    as (Hm & _ & Hs & Hn & _). cbv zeta in Hm, Hs, Hn.
  rewrite Hm, Hs, Hn. reflexivity.
Qed.

(** What the counter step and the growth step leave alone. *)
Lemma counted_frame (c : Cache) :
  mDescriptorSets (counted c) = mDescriptorSets c
  /\ mDescriptorResources (counted c) = mDescriptorResources c
  /\ mDescriptorPoolSize (counted c) = mDescriptorPoolSize c
  /\ mDescriptorArenasCount (counted c) = mDescriptorArenasCount c
  /\ mDescriptorPool (counted c) = mDescriptorPool c
  /\ mExtinctDescriptorBundles (counted c) = mExtinctDescriptorBundles c
  /\ mDummyBufferWriteInfo (counted c) = mDummyBufferWriteInfo c
  /\ mDescriptorRequirements (counted c) = mDescriptorRequirements c
  /\ mBoundDescriptor (counted c) = mBoundDescriptor c
  /\ mPipelineRequirements (counted c) = mPipelineRequirements c
  /\ mCurrentTime (counted c) = mCurrentTime c
  /\ mPipelineBoundResources (counted c) = mPipelineBoundResources c
  /\ allocResults (mDevice (counted c)) = allocResults (mDevice c)
  /\ descriptors (mDevice (counted c)) = descriptors (mDevice c)
  /\ mDescriptorCacheEntryCount (counted c)
     = wrap32 (mDescriptorCacheEntryCount c + 1)
  /\ mPipelineLayouts (counted c)
     = mPipelineLayouts (exec getOrCreatePipelineLayout c)
  /\ calls (mDevice (counted c)) = calls (mDevice c) ++ layoutCalls c.
Proof.
  destruct (getOrCreatePipelineLayout_frame c)
    as (H1 & H2 & H3 & H4 & H5 & H6 & H7 & H8 & H9 & H10 & H11 & H12 & H13
        & H14 & H15 & H16).
  pose proof (getOrCreatePipelineLayout_calls c) as H17.
  unfold counted. cbn. repeat split; assumption || reflexivity.
Qed.

Lemma afterGrowth_frame (c : Cache) :
  mDescriptorResources (afterGrowth c) = mDescriptorResources c
  /\ mDummyBufferWriteInfo (afterGrowth c) = mDummyBufferWriteInfo c
  /\ mDescriptorRequirements (afterGrowth c) = mDescriptorRequirements c
  /\ mBoundDescriptor (afterGrowth c) = mBoundDescriptor c
  /\ mPipelineRequirements (afterGrowth c) = mPipelineRequirements c
  /\ mCurrentTime (afterGrowth c) = mCurrentTime c
  /\ mPipelineBoundResources (afterGrowth c) = mPipelineBoundResources c
  /\ mDescriptorCacheEntryCount (afterGrowth c) = mDescriptorCacheEntryCount c
  /\ allocResults (mDevice (afterGrowth c)) = allocResults (mDevice c)
  /\ descriptors (mDevice (afterGrowth c)) = descriptors (mDevice c)
  /\ mDescriptorSets (afterGrowth c)
     = (if poolWouldOverflow c then ∅ else mDescriptorSets c)
  /\ mExtinctDescriptorBundles (afterGrowth c)
     = (if poolWouldOverflow c
        then mExtinctDescriptorBundles c
             ++ (map_to_list (mDescriptorSets c)).*2
        else mExtinctDescriptorBundles c).
Proof.
  unfold afterGrowth. destruct (poolWouldOverflow c); cbn;
    repeat split; reflexivity.
Qed.

Lemma arena0_nonempty_known (c : Cache) :
  arena 0 (theLayout c) <> [] ->
  exists e, mPipelineLayouts c !! requiredLayout c = Some e
    /\ descriptorSetArenas (theLayout c) = descriptorSetArenas e.
Proof.
  intros Ha. unfold arena in Ha. rewrite theLayout_arenas in *.
  destruct (mPipelineLayouts c !! requiredLayout c) as [e|]; [eauto|].
  exfalso. apply Ha. reflexivity.
Qed.

(** The calls of one [createDescriptorSets], branch by branch. *)
Lemma createDescriptorSets_calls_fresh (c c' : Cache) (r : option (list Z)) :
  arena 0 (theLayout c) = [] ->
  createDescriptorSets c = Some (r, c') ->
  let c1 := afterGrowth (counted c) in
  newCalls c c'
  = layoutCalls c ++ growthCalls (counted c)
    ++ [AllocateDescriptorSets (mDescriptorPool c1)
          (descriptorSetLayouts (theLayout c))
          (hd VK_SUCCESS (allocResults (mDevice c)))]
    ++ (if allocationSucceeds (mDevice c)
        then [UpdateDescriptorSets
                (descriptorWrites (mDescriptorRequirements c)
                   (mDummyBufferWriteInfo c) (allocatedSets (mDevice c1)))]
        else []).
Proof.
  intros Ha H c1. rewrite (createDescriptorSets_fresh c Ha) in H.
  fold c1 in H.
  destruct (counted_frame c)
    as (_ & _ & _ & _ & _ & _ & Hd & Hq & _ & _ & _ & _ & Hr & _ & _ & _ & Hc).
  destruct (afterGrowth_frame (counted c))
    as (_ & Hd' & Hq' & _ & _ & _ & _ & _ & Hr' & _).
  pose proof (afterGrowth_calls (counted c)) as Hg. fold c1 in Hd', Hq', Hr', Hg.
  assert (Hs : allocationSucceeds (mDevice c1) = allocationSucceeds (mDevice c))
    by (unfold allocationSucceeds; rewrite Hr', Hr; reflexivity).
  rewrite Hs in H. apply newCalls_app.
  destruct (allocationSucceeds (mDevice c)).
  - rewrite writeDescriptorSets_run in H. injection H as _ <-. cbn.
    rewrite Hg, Hc, Hr', Hr, Hq', Hq, Hd', Hd, <- !app_assoc. reflexivity.
  - injection H as _ <-. cbn.
    rewrite Hg, Hc, Hr', Hr, <- !app_assoc. reflexivity.
Qed.

Lemma createDescriptorSets_calls_reuse (c c' : Cache) (r : option (list Z)) :
  arena 0 (theLayout c) <> [] ->
  createDescriptorSets c = Some (r, c') ->
  exists hs,
    newCalls c c'
    = [UpdateDescriptorSets
         (descriptorWrites (mDescriptorRequirements c)
            (mDummyBufferWriteInfo c) hs)].
Proof.
  intros Ha H.
  destruct (createDescriptorSets_reuse c c' r Ha H) as (L & hs & _ & Hw).
  destruct (arena0_nonempty_known c Ha) as (e & He & _).
  destruct (counted_frame c)
    as (_ & _ & _ & _ & _ & _ & Hd & Hq & _ & _ & _ & _ & _ & _ & _ & _ & Hc).
  unfold layoutCalls in Hc. rewrite He, app_nil_r in Hc.
  rewrite writeDescriptorSets_run in Hw. injection Hw as _ <-.
  exists hs. apply newCalls_app. unfold counted in *. cbn in *.
  rewrite Hc, Hq, Hd. reflexivity.
Qed.

(** C2. A call of [createDescriptorSets] that returns invokes
    [growDescriptorPool] exactly when the first arena of the layout is
    empty and [mDescriptorSets.size() + mDescriptorArenasCount + 1]
    exceeds [mDescriptorPoolSize], and never more than once.  The sum is
    taken where it does not wrap in [size_t]. *)
Theorem growth_exactly_on_overflow (c c' : Cache) (r : option (list Z)) :
  createDescriptorSets c = Some (r, c') ->
  0 <= mDescriptorArenasCount c ->
  Z.of_nat (size (mDescriptorSets c)) + mDescriptorArenasCount c + 1 < 2 ^ 64 ->
  (countCalls isGrowDescriptorPool (newCalls c c') = 1%nat <->
   arena 0 (theLayout c) = []
   /\ Z.of_nat (size (mDescriptorSets c)) + mDescriptorArenasCount c + 1
      > mDescriptorPoolSize c)
  /\ (countCalls isGrowDescriptorPool (newCalls c c') <= 1)%nat.
Proof.
  intros H Hn Hw.
  assert (Hov : poolWouldOverflow c = true <->
                Z.of_nat (size (mDescriptorSets c))
                + mDescriptorArenasCount c + 1 > mDescriptorPoolSize c).
  { unfold poolWouldOverflow, wrap64. rewrite Z.mod_small by lia.
    rewrite Z.gtb_gt. lia. }
  destruct (arena 0 (theLayout c)) as [|x a] eqn:Ha.
  - rewrite (createDescriptorSets_calls_fresh c c' r Ha H).
    rewrite !countCalls_app, layoutCalls_count by reflexivity.
    unfold growthCalls. rewrite poolWouldOverflow_counted.
    destruct (poolWouldOverflow c), (allocationSucceeds (mDevice c)); cbn;
      (split; [split; [intros; split; [reflexivity|]|]|]);
      try (apply Hov; reflexivity); try lia;
      intros [_ Hgt]; apply Hov in Hgt; discriminate.
  - destruct (createDescriptorSets_calls_reuse c c' r) as (hs & ->);
      [rewrite Ha; discriminate | exact H |].
    cbn. split; [|lia]. split; [discriminate|]. intros [? _]. discriminate.
Qed.

Lemma growth_exactly_on_overflow_witness :
  let c := crowdedCache in
  let c' := exec createDescriptorSets c in
  defined createDescriptorSets c = true
  /\ countCalls isGrowDescriptorPool (newCalls c c') = 1%nat
  /\ arena 0 (theLayout c) = []
  /\ Z.of_nat (size (mDescriptorSets c)) + mDescriptorArenasCount c + 1
     > mDescriptorPoolSize c.
Proof.
  intros c c'.
  assert (Hd : defined createDescriptorSets c = true)
    by (vm_compute; reflexivity).
  split; [exact Hd|].
  destruct (growth_exactly_on_overflow c c' _ (run_defined None _ _ Hd))
    as [Hiff _]; [vm_compute; discriminate | vm_compute; reflexivity |].
  assert (Hr : arena 0 (theLayout c) = []
               /\ Z.of_nat (size (mDescriptorSets c))
                  + mDescriptorArenasCount c + 1 > mDescriptorPoolSize c)
    by (split; vm_compute; reflexivity).
  split; [apply Hiff; exact Hr | exact Hr].
Defined.

(** ** What one [createDescriptorSets] does to the cache *)

Opaque counted.

Lemma createDescriptorSets_summary (c c' : Cache) (r : option (list Z)) :
  createDescriptorSets c = Some (r, c') ->
  let m1 := if grows c then ∅ else mDescriptorSets c in
  mDescriptorCacheEntryCount c'
  = wrap32 (mDescriptorCacheEntryCount c + 1)
  /\ mExtinctDescriptorBundles c'
     = (if grows c
        then mExtinctDescriptorBundles c
             ++ (map_to_list (mDescriptorSets c)).*2
        else mExtinctDescriptorBundles c)
  /\ mDescriptorResources c' = mDescriptorResources c
  /\ mBoundDescriptor c' = mBoundDescriptor c
  /\ mDescriptorRequirements c' = mDescriptorRequirements c
  /\ mPipelineRequirements c' = mPipelineRequirements c
  /\ mCurrentTime c' = mCurrentTime c
  /\ mPipelineBoundResources c' = mPipelineBoundResources c
  /\ match r with
     | None =>
         mDescriptorSets c' = m1
         /\ arena 0 (theLayout c) = []
         /\ allocationSucceeds (mDevice c) = false
     | Some p =>
         p = requiredKey c
         /\ exists hs,
              mDescriptorSets c'
              = emplace (requiredKey c) (set_handles hs (newEntry c)) m1
     end.
Proof.
  intros H m1. unfold grows in *.
  destruct (counted_frame c)
    as (Hm & Hres & _ & _ & _ & Hx & _ & Hq & Hb & Hp & Ht & Hpb & Hr & _
        & Hn & _).
  destruct (arena 0 (theLayout c)) as [|x a] eqn:Ha.
  - rewrite (createDescriptorSets_fresh c Ha) in H.
    destruct (afterGrowth_frame (counted c))
      as (Hres' & _ & Hq' & Hb' & Hp' & Ht' & Hpb' & Hn' & Hr' & _ & Hm'
          & Hx').
    rewrite poolWouldOverflow_counted in Hm', Hx'.
    rewrite Hm in Hm'. rewrite Hx, Hm in Hx'.
    assert (Hs : allocationSucceeds (mDevice (afterGrowth (counted c)))
                 = allocationSucceeds (mDevice c))
      by (unfold allocationSucceeds; rewrite Hr', Hr; reflexivity).
    rewrite Hs in H.
    destruct (allocationSucceeds (mDevice c)) eqn:Hok.
    + rewrite writeDescriptorSets_run in H. injection H as <- <-. cbn.
      unfold requiredKey. cbn.
      rewrite Hn', Hn, Hx', Hres', Hres, Hb', Hb, Hq', Hq, Hp', Hp, Ht', Ht,
        Hpb', Hpb, Hm'.
      repeat split; eauto.
    + injection H as <- <-. cbn.
      rewrite Hn', Hn, Hx', Hres', Hres, Hb', Hb, Hq', Hq, Hp', Hp, Ht', Ht,
        Hpb', Hpb, Hm'.
      repeat split; reflexivity.
  - destruct (createDescriptorSets_reuse c c' r) as (L & hs & _ & Hw);
      [rewrite Ha; discriminate | exact H |].
    rewrite writeDescriptorSets_run in Hw. injection Hw as <- <-.
    unfold requiredKey. cbn.
    rewrite Hn, Hx, Hres, Hb, Hq, Hp, Ht, Hpb, Hm.
    repeat split; eauto.
Qed.

(** ** The ids in use *)

Lemma entryIds_emplace (k : list Z) (e : DescriptorCacheEntry)
    (m : DescriptorMap) :
  (id <$> (map_to_list (emplace k e m)).*2) = (id <$> (map_to_list m).*2)
  \/ (id <$> (map_to_list (emplace k e m)).*2)
     ≡ₚ id e :: (id <$> (map_to_list m).*2).
Proof.
  unfold emplace. destruct (m !! k) eqn:E; [left; reflexivity|].
  right. rewrite (map_to_list_insert m k e E). reflexivity.
Qed.

Lemma createDescriptorSets_entryIds (c c' : Cache) (r : option (list Z)) :
  createDescriptorSets c = Some (r, c') ->
  entryIds c' ≡ₚ entryIds c
  \/ entryIds c' ≡ₚ mDescriptorCacheEntryCount c :: entryIds c.
Proof.
  intros H.
  destruct (createDescriptorSets_summary c c' r H)
    as (_ & Hx & _ & _ & _ & _ & _ & _ & Hr).
  assert (Hbase :
    (id <$> (map_to_list (if grows c then ∅ else mDescriptorSets c)).*2)
    ++ (id <$> mExtinctDescriptorBundles c') ≡ₚ entryIds c).
  { rewrite Hx. unfold entryIds. destruct (grows c); [|reflexivity].
    rewrite map_to_list_empty, fmap_app. cbn. apply Permutation_app_comm. }
  unfold entryIds at 1 3. destruct r as [p|].
  - destruct Hr as (_ & hs & ->).
    destruct (entryIds_emplace (requiredKey c) (set_handles hs (newEntry c))
                (if grows c then ∅ else mDescriptorSets c)) as [-> | ->].
    + left. exact Hbase.
    + right. cbn. rewrite Hbase. reflexivity.
  - destruct Hr as (-> & _). left. exact Hbase.
Qed.

(** ** The end of [bindDescriptors] *)

Lemma bindCacheEntry_run (cmd : VkCommandBuffer) (c : Cache) (p : list Z)
    (e : DescriptorCacheEntry) :
  mDescriptorSets c !! p = Some e ->
  let c1 := acquiredCache c p e in
  let c2 := exec getOrCreatePipelineLayout c1 in
  bindCacheEntry cmd (Some p) c
  = Some (true,
          set_mDevice
            (log (CmdBindDescriptorSets cmd (layout_handle (theLayout c1))
                    (handles e))
               (mDevice c2)) c2).
Proof.
  intros He c1 c2. unfold bindCacheEntry, touch, vkCmdBindDescriptorSets.
  unfold_M. rewrite He. cbn. rewrite lookup_insert_eq. cbn.
  destruct (mDescriptorResources c !! id e) as [r|] eqn:Er.
  - rewrite getOrCreatePipelineLayout_run, theLayout_lookup.
    subst c2 c1. unfold acquiredCache. rewrite Er. reflexivity.
  - rewrite getOrCreatePipelineLayout_run, theLayout_lookup.
    subst c2 c1. unfold acquiredCache. rewrite Er. reflexivity.
Qed.

Lemma bindCacheEntry_dangling (cmd : VkCommandBuffer) (c : Cache)
    (p : list Z) :
  mDescriptorSets c !! p = None ->
  bindCacheEntry cmd (Some p) c = None.
Proof.
  intros He. unfold bindCacheEntry, touch. unfold_M. rewrite He.
  reflexivity.
Qed.

Lemma acquiredCache_resources (c : Cache) (p : list Z)
    (e : DescriptorCacheEntry) :
  mDescriptorResources (acquiredCache c p e)
  = <[id e := acquired c (id e)]> (mDescriptorResources c).
Proof.
  unfold acquiredCache, acquired.
  destruct (mDescriptorResources c !! id e) as [r|] eqn:Er; cbn;
    apply map_eq; intros i; destruct (decide (i = id e)) as [->|Hi].
  - rewrite lookup_alter_eq, lookup_insert_eq, Er. reflexivity.
  - rewrite lookup_alter_ne, lookup_insert_ne by congruence. reflexivity.
  - rewrite lookup_alter_eq, !lookup_insert_eq. reflexivity.
  - rewrite lookup_alter_ne, !lookup_insert_ne by congruence. reflexivity.
Qed.

Lemma acquiredCache_calls (c : Cache) (p : list Z)
    (e : DescriptorCacheEntry) :
  calls (mDevice (acquiredCache c p e))
  = calls (mDevice c) ++ acquireCalls c (id e).
Proof.
  unfold acquiredCache, acquireCalls.
  destruct (mDescriptorResources c !! id e); cbn;
    rewrite <- ?app_assoc; reflexivity.
Qed.

Lemma acquiredCache_entries (c : Cache) (p : list Z)
    (e : DescriptorCacheEntry) :
  mDescriptorSets (acquiredCache c p e)
  = <[p := set_lastUsed (mCurrentTime c) e]> (mDescriptorSets c)
  /\ mBoundDescriptor (acquiredCache c p e) = mDescriptorRequirements c.
Proof.
  unfold acquiredCache.
  destruct (mDescriptorResources c !! id e); cbn; split; reflexivity.
Qed.

(** ** The ways through [bindDescriptors] *)

Lemma bindDescriptors_early (cmd : VkCommandBuffer) (c : Cache) :
  alreadyBound c = true ->
  bindDescriptors cmd c
  = match mDescriptorSets c !! requiredKey c with
    | Some e =>
        Some (true,
              set_mDescriptorSets
                (<[requiredKey c := set_lastUsed (mCurrentTime c) e]>
                   (mDescriptorSets c)) c)
    | None => None
    end.
Proof.
  unfold alreadyBound. rewrite andb_true_iff. intros [H1 H2].
  unfold bindDescriptors, requiredKey. unfold_M. rewrite H1, H2.
  destruct (mDescriptorSets c !! DescriptorKey_bytes
              (mDescriptorRequirements c)); reflexivity.
Qed.

Lemma bindDescriptors_late (cmd : VkCommandBuffer) (c : Cache) :
  alreadyBound c = false ->
  bindDescriptors cmd c = lookupOrCreate cmd c.
Proof.
  unfold alreadyBound. intros H. unfold bindDescriptors.
  unfold bind at 1, get at 1.
  destruct (DescEqual (mBoundDescriptor c) (mDescriptorRequirements c));
    [|reflexivity].
  cbn in H. rewrite H. reflexivity.
Qed.

Lemma lookupOrCreate_hit (cmd : VkCommandBuffer) (c : Cache)
    (e : DescriptorCacheEntry) :
  mDescriptorSets c !! requiredKey c = Some e ->
  lookupOrCreate cmd c = bindCacheEntry cmd (Some (requiredKey c)) c.
Proof.
  intros He. unfold lookupOrCreate, requiredKey in *.
  unfold bind at 1, get at 1. rewrite He. reflexivity.
Qed.

Lemma lookupOrCreate_miss (cmd : VkCommandBuffer) (c : Cache) :
  mDescriptorSets c !! requiredKey c = None ->
  lookupOrCreate cmd c = bind createDescriptorSets (bindCacheEntry cmd) c.
Proof.
  intros He. unfold lookupOrCreate, requiredKey in *.
  unfold bind at 1, get at 1. rewrite He. reflexivity.
Qed.

(** [bindDescriptors] answers [false] only after a creation that
    failed. *)
Lemma bindDescriptors_false (cmd : VkCommandBuffer) (c c' : Cache) :
  bindDescriptors cmd c = Some (false, c') ->
  alreadyBound c = false
  /\ mDescriptorSets c !! requiredKey c = None
  /\ createDescriptorSets c = Some (None, c').
Proof.
  intros H. destruct (alreadyBound c) eqn:Hab.
  { rewrite (bindDescriptors_early cmd c Hab) in H.
    destruct (mDescriptorSets c !! requiredKey c); discriminate. }
  rewrite (bindDescriptors_late cmd c Hab) in H.
  destruct (mDescriptorSets c !! requiredKey c) as [e|] eqn:He.
  { rewrite (lookupOrCreate_hit cmd c e He),
      (bindCacheEntry_run cmd c _ e He) in H. discriminate. }
  rewrite (lookupOrCreate_miss cmd c He) in H. unfold bind in H.
  destruct (createDescriptorSets c) as [[[p|] c1]|] eqn:Hc;
    [| |discriminate].
  - destruct (mDescriptorSets c1 !! p) as [e|] eqn:He1.
    + rewrite (bindCacheEntry_run cmd c1 p e He1) in H. discriminate.
    + rewrite (bindCacheEntry_dangling cmd c1 p He1) in H. discriminate.
  - cbn in H. unfold ret in H. injection H as <-. auto.
Qed.

(** After a creation on a miss the new entry is in the cache. *)
Lemma createDescriptorSets_entry (c c' : Cache) (p : list Z) :
  mDescriptorSets c !! requiredKey c = None ->
  createDescriptorSets c = Some (Some p, c') ->
  p = requiredKey c
  /\ exists hs,
       mDescriptorSets c' !! p = Some (set_handles hs (newEntry c))
       /\ mDescriptorSets c'
          = <[p := set_handles hs (newEntry c)]>
              (if grows c then ∅ else mDescriptorSets c).
Proof.
  intros Hmiss H.
  destruct (createDescriptorSets_summary c c' _ H)
    as (_ & _ & _ & _ & _ & _ & _ & _ & -> & hs & Hm).
  split; [reflexivity|]. exists hs.
  assert (Hm1 : (if grows c then ∅ else mDescriptorSets c)
                !! requiredKey c = None)
    by (destruct (grows c); [apply lookup_empty | exact Hmiss]).
  unfold emplace in Hm. rewrite Hm1 in Hm. rewrite Hm.
  split; [apply lookup_insert_eq | reflexivity].
Qed.

(** A creation that succeeds: the sets it took, the calls it made before
    the one batched update, and what the device holds afterwards. *)
Lemma createDescriptorSets_success (c c' : Cache) (p : list Z) :
  createDescriptorSets c = Some (Some p, c') ->
  exists hs pre,
    let writes := descriptorWrites (mDescriptorRequirements c)
                    (mDummyBufferWriteInfo c) hs in
    newCalls c c' = pre ++ [UpdateDescriptorSets writes]
    /\ mDescriptorSets c'
       = emplace (requiredKey c) (set_handles hs (newEntry c))
           (if grows c then ∅ else mDescriptorSets c)
    /\ descriptors (mDevice c')
       = fold_left applyWrite writes (descriptors (mDevice c))
    /\ match arena 0 (theLayout c) with
       | [] =>
           let c1 := afterGrowth (counted c) in
           hs = allocatedSets (mDevice c1)
           /\ pre = layoutCalls c ++ growthCalls (counted c)
                    ++ [AllocateDescriptorSets (mDescriptorPool c1)
                          (descriptorSetLayouts (theLayout c)) VK_SUCCESS]
       | _ :: _ => pre = []
       end.
Proof.
  intros H.
  destruct (counted_frame c)
    as (Hm & _ & _ & _ & _ & _ & Hd & Hq & _ & _ & _ & _ & Hr & Hds & _ & _
        & Hc).
  destruct (arena 0 (theLayout c)) as [|x a] eqn:Ha.
  - pose proof (createDescriptorSets_calls_fresh c c' _ Ha H) as Hcalls.
    cbv zeta in Hcalls. unfold grows. rewrite Ha.
    rewrite (createDescriptorSets_fresh c Ha) in H.
    destruct (afterGrowth_frame (counted c))
      as (_ & Hd' & Hq' & _ & _ & _ & _ & _ & Hr' & Hds' & Hm' & _).
    rewrite poolWouldOverflow_counted, Hm in Hm'.
    assert (Hs : allocationSucceeds (mDevice (afterGrowth (counted c)))
                 = allocationSucceeds (mDevice c))
      by (unfold allocationSucceeds; rewrite Hr', Hr; reflexivity).
    rewrite Hs in H.
    destruct (allocationSucceeds (mDevice c)) eqn:Hok; [|discriminate].
    assert (Hhd : hd VK_SUCCESS (allocResults (mDevice c)) = VK_SUCCESS).
    { unfold allocationSucceeds in Hok.
      destruct (hd VK_SUCCESS (allocResults (mDevice c)));
        [reflexivity | discriminate..]. }
    rewrite Hhd in Hcalls.
    rewrite writeDescriptorSets_run in H. injection H as _ <-.
    eexists _, _. cbv zeta. split; [|split; [|split; [|split]]].
    + rewrite Hcalls, !app_assoc. reflexivity.
    + cbn. unfold requiredKey. cbn. rewrite Hq', Hq, Hm'. reflexivity.
    + cbn. rewrite Hq', Hq, Hd', Hd, Hds', Hds. reflexivity.
    + reflexivity.
    + rewrite <- !app_assoc. reflexivity.
  - assert (Hne : arena 0 (theLayout c) <> []) by (rewrite Ha; discriminate).
    destruct (createDescriptorSets_reuse c c' _ Hne H) as (L & hs & _ & Hw).
    destruct (arena0_nonempty_known c Hne) as (e & He & _).
    unfold layoutCalls in Hc. rewrite He, app_nil_r in Hc.
    rewrite writeDescriptorSets_run in Hw. injection Hw as _ <-.
    unfold grows. rewrite Ha.
    exists hs, []. cbv zeta. split; [|split; [|split]].
    + apply newCalls_app. cbn. rewrite Hc, Hq, Hd. reflexivity.
    + cbn. unfold requiredKey. cbn. rewrite Hq, Hm. reflexivity.
    + cbn. rewrite Hq, Hd, Hds. reflexivity.
    + reflexivity.
Qed.

Lemma growthCalls_count (p : Call -> bool) (c : Cache) :
  (forall s h, p (CreateDescriptorPool s h) = false) ->
  p GrowDescriptorPool = false ->
  countCalls p (growthCalls c) = 0%nat.
Proof.
  intros H3 H4. unfold growthCalls. destruct (poolWouldOverflow c); cbn;
    rewrite ?H3, ?H4; reflexivity.
Qed.

Lemma countCalls_layoutCalls_growthCalls (p : Call -> bool) (c : Cache) :
  (forall h, p (CreateDescriptorSetLayout h) = false) ->
  (forall h, p (CreatePipelineLayout h) = false) ->
  (forall s h, p (CreateDescriptorPool s h) = false) ->
  p GrowDescriptorPool = false ->
  countCalls p (layoutCalls c ++ growthCalls (counted c)) = 0%nat.
Proof.
  intros H1 H2 H3 H4. rewrite countCalls_app, layoutCalls_count by assumption.
  unfold growthCalls. destruct (poolWouldOverflow (counted c)); cbn;
    rewrite ?H3, ?H4; reflexivity.
Qed.

(** ** A pool that need not grow *)

Lemma afterGrowth_id (c : Cache) :
  poolWouldOverflow c = false -> afterGrowth c = c.
Proof. intros H. unfold afterGrowth. rewrite H. reflexivity. Qed.

(** ** Acquiring the bound resources *)

Lemma calls_prefix (c c' : Cache) (cs : list Call) :
  calls (mDevice c') = calls (mDevice c) ++ cs ->
  calls (mDevice c') = calls (mDevice c) ++ newCalls c c'.
Proof. intros H. rewrite (newCalls_app c c' cs H). exact H. Qed.

(** The log only grows during [createDescriptorSets]. *)
Lemma createDescriptorSets_calls_prefix (c c' : Cache)
    (r : option (list Z)) :
  createDescriptorSets c = Some (r, c') ->
  calls (mDevice c') = calls (mDevice c) ++ newCalls c c'.
Proof.
  intros H.
  destruct (counted_frame c)
    as (_ & _ & _ & _ & _ & _ & _ & _ & _ & _ & _ & _ & _ & _ & _ & _ & Hc).
  destruct (arena 0 (theLayout c)) as [|x a] eqn:Ha.
  - rewrite (createDescriptorSets_fresh c Ha) in H.
    pose proof (afterGrowth_calls (counted c)) as Hg.
    destruct (allocationSucceeds (mDevice (afterGrowth (counted c)))).
    + rewrite writeDescriptorSets_run in H. injection H as _ <-.
      eapply calls_prefix. cbn. rewrite Hg, Hc, <- !app_assoc. reflexivity.
    + injection H as _ <-.
      eapply calls_prefix. cbn. rewrite Hg, Hc, <- !app_assoc. reflexivity.
  - assert (Hne : arena 0 (theLayout c) <> []) by (rewrite Ha; discriminate).
    destruct (createDescriptorSets_reuse c c' _ Hne H) as (L & hs & _ & Hw).
    rewrite writeDescriptorSets_run in Hw. injection Hw as _ <-.
    eapply calls_prefix. cbn. rewrite Hc, <- !app_assoc. reflexivity.
Qed.

Lemma acquired_frame (c c1 : Cache) (i : Z) :
  mDescriptorResources c1 = mDescriptorResources c ->
  mPipelineBoundResources c1 = mPipelineBoundResources c ->
  acquired c1 i = acquired c i /\ acquireCalls c1 i = acquireCalls c i.
Proof.
  intros H1 H2. unfold acquired, acquireCalls. rewrite H1, H2. auto.
Qed.

Lemma acquired_holds_bound (c : Cache) (i : Z) :
  mPipelineBoundResources c ⊆ acquired c i.
Proof.
  unfold acquired, acquireAll.
  destruct (mDescriptorResources c !! i); set_solver.
Qed.

(** The end of [bindDescriptors] from a cache that holds the entry: the
    manager of the entry's id, the other managers, the entry itself, and
    the calls in their order. *)
Lemma bindCacheEntry_acquires (cmd : VkCommandBuffer) (c c' : Cache)
    (p : list Z) (e : DescriptorCacheEntry) (b : bool) :
  mDescriptorSets c !! p = Some e ->
  bindCacheEntry cmd (Some p) c = Some (b, c') ->
  b = true
  /\ mDescriptorSets c' !! p = Some (set_lastUsed (mCurrentTime c) e)
  /\ mDescriptorResources c' !! id e = Some (acquired c (id e))
  /\ (forall i, i <> id e ->
      mDescriptorResources c' !! i = mDescriptorResources c !! i)
  /\ mBoundDescriptor c' = mDescriptorRequirements c
  /\ exists post,
       calls (mDevice c')
       = calls (mDevice c) ++ acquireCalls c (id e) ++ post
       /\ countCalls isAcquireAll post = 0%nat
       /\ exists l, last post = Some (CmdBindDescriptorSets cmd l (handles e)).
Proof.
  intros He H. rewrite (bindCacheEntry_run cmd c p e He) in H.
  injection H as <- <-.
  destruct (getOrCreatePipelineLayout_frame (acquiredCache c p e))
    as (Hm & Hres & _).
  pose proof (getOrCreatePipelineLayout_calls (acquiredCache c p e)) as Hc.
  destruct (acquiredCache_entries c p e) as (Hm' & Hb').
  cbv zeta in Hm, Hres. cbn.
  rewrite Hm, Hres, Hm', acquiredCache_resources.
  split; [reflexivity|]. split; [apply lookup_insert_eq|].
  split; [apply lookup_insert_eq|].
  split; [intros i Hi; apply lookup_insert_ne; congruence|].
  split.
  { destruct (getOrCreatePipelineLayout_frame (acquiredCache c p e))
      as (_ & _ & _ & _ & _ & _ & _ & _ & _ & Hb & _).
    cbv zeta in Hb. rewrite Hb. exact Hb'. }
  eexists. split; [|split].
  - rewrite Hc, acquiredCache_calls, <- !app_assoc. reflexivity.
  - rewrite countCalls_app, layoutCalls_count by reflexivity. reflexivity.
  - eexists. rewrite last_snoc. reflexivity.
Qed.

(** C7, as the code has it. A [bindDescriptors] that answers [true]
    without taking the early return for an already bound key hands the
    pipeline-bound resources to the resource manager found under the id of
    the cache entry: where [mDescriptorResources] has no manager for the
    id, one is made first and [acquireAll] comes after it; the managers of
    other ids are not touched. *)
Theorem late_bind_acquires (cmd : VkCommandBuffer) (c c' : Cache) :
  alreadyBound c = false ->
  bindDescriptors cmd c = Some (true, c') ->
  exists e,
    mDescriptorSets c' !! requiredKey c = Some e
    /\ mDescriptorResources c' !! id e = Some (acquired c (id e))
    /\ mPipelineBoundResources c ⊆ acquired c (id e)
    /\ (mDescriptorResources c !! id e = None ->
        acquired c (id e) = acquireAll ∅ (mPipelineBoundResources c))
    /\ (forall i, i <> id e ->
        mDescriptorResources c' !! i = mDescriptorResources c !! i)
    /\ exists pre post,
         newCalls c c' = pre ++ acquireCalls c (id e) ++ post
         /\ countCalls isAcquireAll pre = 0%nat
         /\ countCalls isAcquireAll post = 0%nat.
Proof.
  intros Hab H. rewrite (bindDescriptors_late cmd c Hab) in H.
  assert (Hnone : forall i, mDescriptorResources c !! i = None ->
                  acquired c i = acquireAll ∅ (mPipelineBoundResources c)).
  { intros i Hi. unfold acquired. rewrite Hi. reflexivity. }
  destruct (mDescriptorSets c !! requiredKey c) as [e|] eqn:He.
  - rewrite (lookupOrCreate_hit cmd c e He) in H.
    destruct (bindCacheEntry_acquires cmd c c' _ e true He H)
      as (_ & He' & Hres & Hoth & _ & post & Hcalls & Hpost & _).
    exists (set_lastUsed (mCurrentTime c) e). cbn [id set_lastUsed].
    repeat (split; [solve [auto using acquired_holds_bound]|]).
    exists [], post. cbn [app countCalls].
    rewrite (newCalls_app c c' _ Hcalls). auto.
  - rewrite (lookupOrCreate_miss cmd c He) in H. unfold bind in H.
    destruct (createDescriptorSets c) as [[[p|] c1]|] eqn:Hc;
      [| discriminate H | discriminate H].
    destruct (createDescriptorSets_entry c c1 p He Hc) as (-> & hs & He1 & _).
    destruct (createDescriptorSets_summary c c1 _ Hc)
      as (_ & _ & Hres1 & _ & _ & _ & _ & Hpb1 & _).
    destruct (acquired_frame c c1 (id (set_handles hs (newEntry c)))
                Hres1 Hpb1) as (Hacq & Hacqc).
    destruct (bindCacheEntry_acquires cmd c1 c' _ _ true He1 H)
      as (_ & He' & Hres & Hoth & _ & post & Hcalls & Hpost & _).
    rewrite Hacq in Hres. rewrite Hacqc in Hcalls.
    eexists. split; [exact He'|]. cbn [id set_lastUsed].
    split; [exact Hres|]. split; [apply acquired_holds_bound|].
    split; [apply Hnone|].
    split; [intros i Hi; rewrite (Hoth i Hi), Hres1; reflexivity|].
    rewrite (createDescriptorSets_calls_prefix c c1 _ Hc) in Hcalls.
    rewrite <- app_assoc in Hcalls.
    exists (newCalls c c1), post.
    rewrite (newCalls_app c c' _ Hcalls). split; [reflexivity|].
    split; [|exact Hpost].
    destruct (createDescriptorSets_success c c1 _ Hc)
      as (hs' & pre & Hn & _ & _ & Hpre).
    cbv zeta in Hn. rewrite Hn, countCalls_app. cbn.
    destruct (arena 0 (theLayout c)).
    + destruct Hpre as (_ & ->).
      rewrite !countCalls_app, layoutCalls_count, growthCalls_count
        by reflexivity. reflexivity.
    + rewrite Hpre. reflexivity.
Qed.

Lemma late_bind_acquires_witness :
  let c := firstDrawCache in
  let c' := exec (bindDescriptors 7) c in
  bindDescriptors 7 c = Some (true, c')
  /\ alreadyBound c = false
  /\ mDescriptorResources c !! 0 = None
  /\ mDescriptorResources c' !! 0 = Some (∅ ∪ ({[42]} ∪ ∅))
  /\ exists pre post,
       newCalls c c'
       = pre ++ [MakeResourceManager 0; AcquireAll 0] ++ post.
Proof.
  intros c c'.
  assert (Hd : defined (bindDescriptors 7) c = true)
    by (vm_compute; reflexivity).
  assert (Hr : result false (bindDescriptors 7) c = true)
    by (vm_compute; reflexivity).
  pose proof (run_defined false _ _ Hd) as Hrun. rewrite Hr in Hrun.
  fold c' in Hrun.
  assert (Hab : alreadyBound c = false) by (vm_compute; reflexivity).
  destruct (late_bind_acquires 7 c c' Hab Hrun)
    as (e & He & Hres & _ & _ & _ & pre & post & Hcalls & _).
  assert (He' : mDescriptorSets c' !! requiredKey c = Some firstEntry)
    by (vm_compute; reflexivity).
  rewrite He' in He. injection He as <-.
  assert (Hnone : mDescriptorResources c !! 0 = None)
    by (vm_compute; reflexivity).
  split; [exact Hrun|]. split; [exact Hab|]. split; [exact Hnone|].
  split.
  - change (id firstEntry) with 0 in Hres. rewrite Hres.
    unfold acquired. rewrite Hnone. vm_compute. reflexivity.
  - exists pre, post. rewrite Hcalls. unfold acquireCalls.
    change (id firstEntry) with 0. rewrite Hnone. reflexivity.
Defined.

Lemma firstManager_misses_43 : 43 ∉ firstManager.
Proof.
  unfold firstManager.
  rewrite !elem_of_union, elem_of_singleton, elem_of_empty.
  intros [[]|[H|[]]]. discriminate H.
Qed.

(** C7 as stated does not hold: the second draw finds its key bound,
    answers [true], and resource 43, acquired for this draw, reaches no
    resource manager; [acquireAll] is not called. *)
Lemma early_return_skips_acquire :
  let c := nextDrawCache in
  let c' := exec (bindDescriptors 7) c in
  bindDescriptors 7 c = Some (true, c')
  /\ mPipelineBoundResources c = {[43]} ∪ ({[42]} ∪ ∅)
  /\ mDescriptorSets c' !! requiredKey c = Some (set_lastUsed 0 firstEntry)
  /\ mDescriptorResources c' = {[ 0 := firstManager ]}
  /\ (43 ∉ firstManager)
  /\ newCalls c c' = [].
Proof.
  intros c c'.
  assert (Hd : defined (bindDescriptors 7) c = true)
    by (vm_compute; reflexivity).
  assert (Hr : result false (bindDescriptors 7) c = true)
    by (vm_compute; reflexivity).
  pose proof (run_defined false _ _ Hd) as Hrun. rewrite Hr in Hrun.
  split; [exact Hrun|].
  split; [vm_compute; reflexivity|].
  split; [vm_compute; reflexivity|].
  split; [vm_compute; reflexivity|].
  split; [exact firstManager_misses_43|].
  vm_compute. reflexivity.
Qed.

(** ** The reclaim arenas *)

Lemma arenasBalanced_empty (e : PipelineLayoutCacheEntry) :
  descriptorSetArenas e = repeat [] DESCRIPTOR_TYPE_COUNT ->
  arenasBalanced e.
Proof. intros H. exists [], [], []. rewrite H. auto. Qed.

(** A balanced entry whose first arena holds a set holds one in each. *)
Lemma arenasBalanced_nonempty (e : PipelineLayoutCacheEntry) :
  arenasBalanced e ->
  arena 0 e <> [] ->
  exists a0 a1 a2 h0 h1 h2,
    descriptorSetArenas e = [a0 ++ [h0]; a1 ++ [h1]; a2 ++ [h2]]
    /\ length a0 = length a1 /\ length a1 = length a2.
Proof.
  intros (b0 & b1 & b2 & Ha & H01 & H12) Hne. unfold arena in Hne.
  rewrite Ha in Hne. cbn in Hne.
  destruct (list_eq_nil_or_snoc b0) as [-> | (a0 & h0 & ->)];
    [congruence|].
  rewrite length_app in H01. cbn in H01.
  destruct (list_eq_nil_or_snoc b1) as [-> | (a1 & h1 & ->)];
    [cbn in H01; lia|].
  rewrite length_app in H01, H12. cbn in H01, H12.
  destruct (list_eq_nil_or_snoc b2) as [-> | (a2 & h2 & ->)];
    [cbn in H12; lia|].
  rewrite length_app in H12. cbn in H12.
  exists a0, a1, a2, h0, h1, h2. repeat split; [exact Ha | lia | lia].
Qed.

(** A balanced entry whose first arena is empty has three empty arenas. *)
Lemma arenasBalanced_all_empty (e : PipelineLayoutCacheEntry) :
  arenasBalanced e ->
  arena 0 e = [] ->
  descriptorSetArenas e = repeat [] DESCRIPTOR_TYPE_COUNT.
Proof.
  intros (b0 & b1 & b2 & Ha & H01 & H12) He. unfold arena in He.
  rewrite Ha in He. cbn in He. subst b0. rewrite Ha.
  destruct b1; [|discriminate H01]. destruct b2; [|discriminate H12].
  reflexivity.
Qed.

Lemma theLayout_balanced (c : Cache) :
  layoutsBalanced c -> arenasBalanced (theLayout c).
Proof.
  intros Hb. pose proof (theLayout_arenas c) as Ha.
  destruct (mPipelineLayouts c !! requiredLayout c) as [e|] eqn:He.
  - destruct (Hb _ _ He) as (a0 & a1 & a2 & Hae & Hl).
    exists a0, a1, a2. rewrite Ha. auto.
  - apply arenasBalanced_empty. exact Ha.
Qed.

Lemma getOrCreatePipelineLayout_balanced (c : Cache) :
  layoutsBalanced c -> layoutsBalanced (exec getOrCreatePipelineLayout c).
Proof.
  intros Hb l e He. destruct (decide (l = requiredLayout c)) as [->|Hl].
  - rewrite theLayout_lookup in He. injection He as <-.
    apply theLayout_balanced. exact Hb.
  - rewrite getOrCreatePipelineLayout_others in He by exact Hl.
    exact (Hb _ _ He).
Qed.

Lemma counted_layout (c : Cache) :
  mPipelineLayouts (counted c) !! requiredLayout c = Some (theLayout c).
Proof.
  destruct (counted_frame c)
    as (_ & _ & _ & _ & _ & _ & _ & _ & _ & _ & _ & _ & _ & _ & _ & Hl & _).
  rewrite Hl. apply theLayout_lookup.
Qed.

(** The reuse branch, run on arenas that all hold a set. *)
Lemma createDescriptorSets_reuse_run (c : Cache)
    (a0 a1 a2 : list VkDescriptorSet) (h0 h1 h2 : VkDescriptorSet) :
  descriptorSetArenas (theLayout c) = [a0 ++ [h0]; a1 ++ [h1]; a2 ++ [h2]] ->
  createDescriptorSets c
  = writeDescriptorSets (set_handles [h0; h1; h2] (newEntry c))
      (set_mDescriptorArenasCount (wrap32 (mDescriptorArenasCount c - 1))
         (set_mPipelineLayouts
            (<[requiredLayout c :=
                 set_descriptorSetArenas [a0; a1; a2] (theLayout c)]>
               (mPipelineLayouts (counted c))) (counted c))).
Proof.
  intros Ha. rewrite createDescriptorSets_unfold. unfold arena at 1.
  rewrite Ha. cbn [nth].
  destruct (a0 ++ [h0]) as [|x a] eqn:E0;
    [symmetry in E0; apply app_cons_not_nil in E0; contradiction|].
  rewrite <- E0 in Ha. unfold bind at 1.
  rewrite (reclaimFromArenas_run (counted c) _ (theLayout c) a0 a1 a2
             h0 h1 h2 (counted_layout c) Ha).
  destruct (counted_frame c) as (_ & _ & _ & Hn & _). rewrite Hn.
  reflexivity.
Qed.

Lemma afterGrowth_balanced (c : Cache) :
  layoutsBalanced c -> layoutsBalanced (afterGrowth c).
Proof.
  intros Hb l e. unfold afterGrowth. destruct (poolWouldOverflow c).
  - rewrite growDescriptorPool_layouts.
    intros (e0 & _ & ->)%fmap_Some. apply arenasBalanced_empty.
    reflexivity.
  - apply Hb.
Qed.

Lemma counted_balanced (c : Cache) :
  layoutsBalanced c -> layoutsBalanced (counted c).
Proof.
  intros Hb l e.
  destruct (counted_frame c)
    as (_ & _ & _ & _ & _ & _ & _ & _ & _ & _ & _ & _ & _ & _ & _ & Hl & _).
  rewrite Hl. apply getOrCreatePipelineLayout_balanced. exact Hb.
Qed.

(** C9. The three arenas of every layout hold the same number of sets,
    and [createDescriptorSets] keeps it so: run from such a cache it
    returns, and it leaves the arenas of the owning layout as they are when
    the first one is empty, or has taken the last set off each of them.  A
    first arena that holds a set means that each arena holds one. *)
Theorem arenas_stay_balanced (c : Cache) :
  layoutsBalanced c ->
  (arena 0 (theLayout c) <> [] ->
   forall i, (i < DESCRIPTOR_TYPE_COUNT)%nat -> arena i (theLayout c) <> [])
  /\ exists r c' e',
       createDescriptorSets c = Some (r, c')
       /\ layoutsBalanced c'
       /\ mPipelineLayouts c' !! requiredLayout c = Some e'
       /\ descriptorSetArenas e'
          = match arena 0 (theLayout c) with
            | [] => descriptorSetArenas (theLayout c)
            | _ :: _ => (fun a => removelast a) <$> descriptorSetArenas (theLayout c)
            end.
Proof.
  intros Hb. pose proof (theLayout_balanced c Hb) as Hbl. split.
  { intros Hne i Hi.
    destruct (arenasBalanced_nonempty _ Hbl Hne)
      as (a0 & a1 & a2 & h0 & h1 & h2 & Ha & _).
    unfold arena. rewrite Ha. unfold DESCRIPTOR_TYPE_COUNT in Hi.
    destruct i as [|[|[|i]]]; [| | |lia]; cbn;
      intros E; symmetry in E; exact (app_cons_not_nil _ _ _ E). }
  destruct (arena 0 (theLayout c)) as [|x a] eqn:Ha0.
  - pose proof (arenasBalanced_all_empty _ Hbl Ha0) as Hall.
    destruct (afterGrowth_layouts (counted c) _ _ (counted_layout c))
      as (e' & He' & _ & _ & Hae').
    assert (Hae : descriptorSetArenas e' = descriptorSetArenas (theLayout c)).
    { rewrite Hae', Hall. destruct (poolWouldOverflow (counted c));
        reflexivity. }
    pose proof (afterGrowth_balanced _ (counted_balanced c Hb)) as Hb1.
    rewrite (createDescriptorSets_fresh c Ha0).
    destruct (allocationSucceeds (mDevice (afterGrowth (counted c)))).
    + rewrite writeDescriptorSets_run. eexists _, _, e'.
      split; [reflexivity|]. unfold layoutsBalanced. cbn. auto.
    + eexists _, _, e'. split; [reflexivity|].
      unfold layoutsBalanced. cbn. auto.
  - assert (Hne : arena 0 (theLayout c) <> [])
      by (rewrite Ha0; discriminate).
    destruct (arenasBalanced_nonempty _ Hbl Hne)
      as (a0 & a1 & a2 & h0 & h1 & h2 & Ha & H01 & H12).
    rewrite (createDescriptorSets_reuse_run c a0 a1 a2 h0 h1 h2 Ha),
      writeDescriptorSets_run.
    eexists _, _, _. split; [reflexivity|].
    unfold layoutsBalanced. cbn. split; [|split].
    + intros l e. destruct (decide (l = requiredLayout c)) as [->|Hl].
      * rewrite lookup_insert_eq. intros [= <-].
        exists a0, a1, a2. auto.
      * rewrite lookup_insert_ne by congruence.
        apply (counted_balanced c Hb).
    + apply lookup_insert_eq.
    + cbn. rewrite Ha. cbn. rewrite !removelast_last. reflexivity.
Qed.

Lemma reusableCache_balanced : layoutsBalanced reusableCache.
Proof.
  intros l e. unfold reusableCache. cbn.
  intros [<- <-]%lookup_singleton_Some.
  exists [8; 5], [9; 6], [10; 7]. auto.
Qed.

Lemma arenas_stay_balanced_witness :
  layoutsBalanced reusableCache
  /\ exists r c' e',
       createDescriptorSets reusableCache = Some (r, c')
       /\ layoutsBalanced c'
       /\ mPipelineLayouts c' !! requiredLayout reusableCache = Some e'
       /\ descriptorSetArenas e' = [[8]; [9]; [10]].
Proof.
  split; [exact reusableCache_balanced|].
  destruct (arenas_stay_balanced reusableCache reusableCache_balanced)
    as (_ & r & c' & e' & Hc & Hb & He & Ha).
  exists r, c', e'. repeat (split; [assumption|]).
  rewrite Ha. vm_compute. reflexivity.
Defined.

(** C6. On a miss with a set in the first arena of the owning layout
    (and, as the code asserts, balanced arenas and a positive dormant
    count), [createDescriptorSets] gives the new entry the last set of each
    of the [DESCRIPTOR_TYPE_COUNT] arenas, removes exactly those sets,
    lowers [mDescriptorArenasCount] by one, and its only call is the
    batched update: nothing is allocated and the pool is neither grown nor
    replaced. *)
Theorem reuse_takes_last_of_each_arena (c : Cache)
    (e : PipelineLayoutCacheEntry) :
  mDescriptorSets c !! requiredKey c = None ->
  mPipelineLayouts c !! requiredLayout c = Some e ->
  arenasBalanced e ->
  arena 0 e <> [] ->
  0 < mDescriptorArenasCount c < 2 ^ 32 ->
  exists c' entry e',
    createDescriptorSets c = Some (Some (requiredKey c), c')
    /\ mDescriptorSets c' !! requiredKey c = Some entry
    /\ handles entry = (fun a => List.last a 0) <$> descriptorSetArenas e
    /\ length (handles entry) = DESCRIPTOR_TYPE_COUNT
    /\ mPipelineLayouts c' !! requiredLayout c = Some e'
    /\ descriptorSetArenas e' = (fun a => removelast a) <$> descriptorSetArenas e
    /\ (forall i, (i < DESCRIPTOR_TYPE_COUNT)%nat ->
        S (length (arena i e')) = length (arena i e))
    /\ mDescriptorArenasCount c' = mDescriptorArenasCount c - 1
    /\ newCalls c c'
       = [UpdateDescriptorSets
            (descriptorWrites (mDescriptorRequirements c)
               (mDummyBufferWriteInfo c) (handles entry))]
    /\ countCalls isAllocateDescriptorSets (newCalls c c') = 0%nat
    /\ countCalls isGrowDescriptorPool (newCalls c c') = 0%nat
    /\ mDescriptorPool c' = mDescriptorPool c
    /\ mDescriptorPoolSize c' = mDescriptorPoolSize c.
Proof.
  intros Hmiss He Hbal Hne Hcount.
  destruct (arenasBalanced_nonempty e Hbal Hne)
    as (a0 & a1 & a2 & h0 & h1 & h2 & Ha & _).
  assert (Hal : descriptorSetArenas (theLayout c)
                = [a0 ++ [h0]; a1 ++ [h1]; a2 ++ [h2]])
    by (rewrite theLayout_arenas, He; exact Ha).
  destruct (counted_frame c)
    as (Hm & _ & Hs & _ & Hp & _ & Hd & Hq & _ & _ & _ & _ & _ & _ & _ & _
        & Hc).
  unfold layoutCalls in Hc. rewrite He, app_nil_r in Hc.
  rewrite (createDescriptorSets_reuse_run c a0 a1 a2 h0 h1 h2 Hal),
    writeDescriptorSets_run.
  eexists _, _, _.
  split; [unfold requiredKey; cbn; rewrite Hq; reflexivity|].
  unfold requiredKey. cbn. rewrite ?Hq, ?Hm, ?Hd, ?Hp, ?Hs.
  unfold emplace. fold (requiredKey c). rewrite Hmiss.
  split; [apply lookup_insert_eq|].
  split; [rewrite Ha; cbn; rewrite !last_last; reflexivity|].
  split; [reflexivity|].
  split; [apply lookup_insert_eq|].
  split; [rewrite Ha; cbn; rewrite !removelast_last; reflexivity|].
  split.
  { intros i Hi. unfold arena. cbn. rewrite Ha.
    unfold DESCRIPTOR_TYPE_COUNT in Hi.
    destruct i as [|[|[|i]]]; [| | |lia]; cbn; rewrite length_app; cbn; lia. }
  split; [unfold wrap32; apply Z.mod_small; lia|].
  assert (Hn : newCalls c
                 (set_mDescriptorSets
                    (<[requiredKey c := set_handles [h0; h1; h2] (newEntry c)]>
                       (mDescriptorSets c))
                    (set_mDevice
                       (updateDevice
                          (descriptorWrites (mDescriptorRequirements c)
                             (mDummyBufferWriteInfo c) [h0; h1; h2])
                          (mDevice (counted c)))
                       (set_mDescriptorArenasCount
                          (wrap32 (mDescriptorArenasCount c - 1))
                          (set_mPipelineLayouts
                             (<[requiredLayout c :=
                                  set_descriptorSetArenas [a0; a1; a2]
                                    (theLayout c)]>
                                (mPipelineLayouts (counted c)))
                             (counted c)))))
               = [UpdateDescriptorSets
                    (descriptorWrites (mDescriptorRequirements c)
                       (mDummyBufferWriteInfo c) [h0; h1; h2])]).
  { apply newCalls_app. cbn. rewrite Hc. reflexivity. }
  rewrite Hn. repeat split; reflexivity.
Qed.

Lemma reuse_takes_last_of_each_arena_witness :
  exists c' entry e',
    createDescriptorSets reusableCache
    = Some (Some (requiredKey reusableCache), c')
    /\ mDescriptorSets c' !! requiredKey reusableCache = Some entry
    /\ handles entry = [5; 6; 7]
    /\ mPipelineLayouts c' !! requiredLayout reusableCache = Some e'
    /\ descriptorSetArenas e' = [[8]; [9]; [10]]
    /\ mDescriptorArenasCount c' = 1
    /\ countCalls isAllocateDescriptorSets (newCalls reusableCache c')
       = 0%nat.
Proof.
  assert (He : mPipelineLayouts reusableCache !! requiredLayout reusableCache
               = Some {| layout_handle := 4; layout_lastUsed := 0;
                         descriptorSetLayouts := [1; 2; 3];
                         descriptorSetArenas := [[8; 5]; [9; 6]; [10; 7]] |})
    by (vm_compute; reflexivity).
  destruct (reuse_takes_last_of_each_arena reusableCache _
              (lookup_empty _) He)
    as (c' & entry & e' & Hc & Hent & Hh & _ & Hl & Ha & _ & Hn & _ & Hal & _).
  - exists [8; 5], [9; 6], [10; 7]. auto.
  - unfold arena. cbn. discriminate.
  - split; [reflexivity|]. vm_compute. reflexivity.
  - exists c', entry, e'. repeat (split; [assumption|]). auto.
Defined.

(** ** The write phase *)

Lemma uniformWrite_address (req : DescriptorKey)
    (dummy : VkWriteDescriptorSet) (set0 : VkDescriptorSet) (binding : nat) :
  dstSet (uniformWrite req dummy set0 binding) = set0
  /\ dstBinding (uniformWrite req dummy set0 binding) = Z.of_nat binding.
Proof. split; reflexivity. Qed.

Lemma uniformWrite_inactive (req : DescriptorKey)
    (dummy : VkWriteDescriptorSet) (set0 : VkDescriptorSet) (binding : nat) :
  nth binding (uniformBuffers req) 0 = 0 ->
  uniformWrite req dummy set0 binding
  = address set0 (Z.of_nat binding) dummy.
Proof. intros H. unfold uniformWrite. rewrite H. reflexivity. Qed.

Lemma uniformWrite_active (req : DescriptorKey)
    (dummy : VkWriteDescriptorSet) (set0 : VkDescriptorSet) (binding : nat) :
  nth binding (uniformBuffers req) 0 <> 0 ->
  descriptorType (uniformWrite req dummy set0 binding)
  = VK_DESCRIPTOR_TYPE_UNIFORM_BUFFER
  /\ pImageInfo (uniformWrite req dummy set0 binding) = None
  /\ pBufferInfo (uniformWrite req dummy set0 binding)
     = Some {| buffer := nth binding (uniformBuffers req) 0;
               offset := nth binding (uniformBufferOffsets req) 0;
               range :=
                 if nth binding (uniformBufferSizes req) 0 =? WHOLE_SIZE
                 then VK_WHOLE_SIZE
                 else nth binding (uniformBufferSizes req) 0 |}.
Proof.
  intros H. unfold uniformWrite.
  destruct (Z.eqb_spec (nth binding (uniformBuffers req) 0) 0);
    [contradiction|]. repeat split; reflexivity.
Qed.

Lemma uniformWrites_lookup (req : DescriptorKey)
    (dummy : VkWriteDescriptorSet) (hs : list VkDescriptorSet)
    (binding : nat) :
  (binding < UBUFFER_BINDING_COUNT)%nat ->
  uniformWrites req dummy hs !! binding
  = Some (uniformWrite req dummy (nth 0 hs 0) binding).
Proof.
  intros Hb. unfold uniformWrites.
  change (map ?f ?l) with (f <$> l).
  rewrite list_lookup_fmap, lookup_seq_lt by exact Hb. reflexivity.
Qed.

Lemma uniformWrites_bindings (req : DescriptorKey)
    (dummy : VkWriteDescriptorSet) (hs : list VkDescriptorSet) :
  dstBinding <$> uniformWrites req dummy hs
  = Z.of_nat <$> seq 0 UBUFFER_BINDING_COUNT.
Proof.
  unfold uniformWrites. change (map ?f ?l) with (f <$> l).
  rewrite <- list_fmap_compose. reflexivity.
Qed.

Lemma uniformWrites_set (req : DescriptorKey)
    (dummy : VkWriteDescriptorSet) (hs : list VkDescriptorSet) :
  Forall (fun w => dstSet w = nth 0 hs 0) (uniformWrites req dummy hs).
Proof.
  unfold uniformWrites. apply Forall_forall. intros w Hw.
  apply list_elem_of_In, in_map_iff in Hw as (b & <- & _). reflexivity.
Qed.

Lemma samplerWrites_set (req : DescriptorKey) (hs : list VkDescriptorSet) :
  Forall (fun w => dstSet w = nth 1 hs 0
                   /\ descriptorType w
                      = VK_DESCRIPTOR_TYPE_COMBINED_IMAGE_SAMPLER)
    (samplerWrites req hs).
Proof.
  unfold samplerWrites. apply Forall_forall. intros w Hw.
  apply list_elem_of_In, in_flat_map in Hw as (b & _ & Hw).
  destruct (sampler (nth b (samplers req) zeroImageInfo) =? 0);
    [destruct Hw|]. destruct Hw as [<-|[]]. split; reflexivity.
Qed.

Lemma inputAttachmentWrites_set (req : DescriptorKey)
    (hs : list VkDescriptorSet) :
  Forall (fun w => dstSet w = nth 2 hs 0
                   /\ descriptorType w = VK_DESCRIPTOR_TYPE_INPUT_ATTACHMENT)
    (inputAttachmentWrites req hs).
Proof.
  unfold inputAttachmentWrites. apply Forall_forall. intros w Hw.
  apply list_elem_of_In, in_flat_map in Hw as (b & _ & Hw).
  destruct (imageView (nth b (inputAttachments req) zeroImageInfo) =? 0);
    [destruct Hw|]. destruct Hw as [<-|[]]. split; reflexivity.
Qed.

(** C5. A [createDescriptorSets] that gives an entry makes one
    [vkUpdateDescriptorSets] call, its last call, with all the writes for
    the sets of the entry.  The first [UBUFFER_BINDING_COUNT] writes are
    those of the uniform slots, one per slot and in the order of the
    slots, addressed to the first set.  The write of an active slot carries
    the buffer with its offset and its size, [VK_WHOLE_SIZE] standing in for
    [WHOLE_SIZE]; the write of an inactive slot is the dummy write,
    addressed to the slot.  The writes that follow are sampler and input
    attachment writes. *)
Theorem uniform_slots_written_once (c c' : Cache) (p : list Z) :
  createDescriptorSets c = Some (Some p, c') ->
  exists hs pre,
    let req := mDescriptorRequirements c in
    let dummy := mDummyBufferWriteInfo c in
    newCalls c c' = pre ++ [UpdateDescriptorSets (descriptorWrites req dummy hs)]
    /\ countCalls isUpdateDescriptorSets (newCalls c c') = 1%nat
    /\ (mDescriptorSets c !! requiredKey c = None ->
        exists e, mDescriptorSets c' !! p = Some e /\ handles e = hs)
    /\ descriptorWrites req dummy hs
       = uniformWrites req dummy hs ++ samplerWrites req hs
         ++ inputAttachmentWrites req hs
    /\ length (uniformWrites req dummy hs) = UBUFFER_BINDING_COUNT
    /\ dstBinding <$> uniformWrites req dummy hs
       = Z.of_nat <$> seq 0 UBUFFER_BINDING_COUNT
    /\ Forall (fun w => dstSet w = nth 0 hs 0) (uniformWrites req dummy hs)
    /\ Forall (fun w => descriptorType w
                        = VK_DESCRIPTOR_TYPE_COMBINED_IMAGE_SAMPLER)
         (samplerWrites req hs)
    /\ Forall (fun w => descriptorType w
                        = VK_DESCRIPTOR_TYPE_INPUT_ATTACHMENT)
         (inputAttachmentWrites req hs)
    /\ forall binding, (binding < UBUFFER_BINDING_COUNT)%nat ->
       exists w,
         descriptorWrites req dummy hs !! binding = Some w
         /\ dstSet w = nth 0 hs 0
         /\ dstBinding w = Z.of_nat binding
         /\ (nth binding (uniformBuffers req) 0 = 0 ->
             w = address (nth 0 hs 0) (Z.of_nat binding) dummy)
         /\ (nth binding (uniformBuffers req) 0 <> 0 ->
             descriptorType w = VK_DESCRIPTOR_TYPE_UNIFORM_BUFFER
             /\ pBufferInfo w
                = Some {| buffer := nth binding (uniformBuffers req) 0;
                          offset := nth binding (uniformBufferOffsets req) 0;
                          range :=
                            if nth binding (uniformBufferSizes req) 0
                               =? WHOLE_SIZE
                            then VK_WHOLE_SIZE
                            else nth binding (uniformBufferSizes req) 0 |}).
Proof.
  intros H.
  destruct (createDescriptorSets_success c c' p H)
    as (hs & pre & Hcalls & Hm & _ & Hpre).
  exists hs, pre. cbv zeta in *.
  split; [exact Hcalls|]. split.
  { rewrite Hcalls, countCalls_app. cbn.
    destruct (arena 0 (theLayout c)).
    - destruct Hpre as (_ & ->).
      rewrite !countCalls_app, layoutCalls_count, growthCalls_count
        by reflexivity. reflexivity.
    - rewrite Hpre. reflexivity. }
  split.
  { intros Hmiss.
    destruct (createDescriptorSets_summary c c' _ H)
      as (_ & _ & _ & _ & _ & _ & _ & _ & -> & _).
    exists (set_handles hs (newEntry c)). split; [|reflexivity].
    rewrite Hm. unfold emplace.
    assert (Hm1 : (if grows c then ∅ else mDescriptorSets c)
                  !! requiredKey c = None)
      by (destruct (grows c); [apply lookup_empty | exact Hmiss]).
    rewrite Hm1. apply lookup_insert_eq. }
  split; [reflexivity|].
  split; [unfold uniformWrites; rewrite length_map, length_seq; reflexivity|].
  split; [apply uniformWrites_bindings|].
  split; [apply uniformWrites_set|].
  split; [eapply Forall_impl; [apply samplerWrites_set|]; cbn; tauto|].
  split; [eapply Forall_impl; [apply inputAttachmentWrites_set|];
          cbn; tauto|].
  intros binding Hb. eexists. split.
  { unfold descriptorWrites. rewrite lookup_app_l.
    - apply uniformWrites_lookup. exact Hb.
    - unfold uniformWrites. rewrite length_map, length_seq. exact Hb. }
  split; [reflexivity|]. split; [reflexivity|]. split.
  - apply uniformWrite_inactive.
  - intros Hne. destruct (uniformWrite_active (mDescriptorRequirements c)
      (mDummyBufferWriteInfo c) (nth 0 hs 0) binding Hne) as (Ht & _ & Hbuf).
    auto.
Qed.

Lemma uniform_slots_written_once_witness :
  let c := drawCache in
  let c' := exec createDescriptorSets c in
  createDescriptorSets c = Some (Some (requiredKey c), c')
  /\ countCalls isUpdateDescriptorSets (newCalls c c') = 1%nat
  /\ exists hs w0 w1 w2,
       descriptorWrites drawKey exampleDummyWrite hs !! 0%nat = Some w0
       /\ descriptorWrites drawKey exampleDummyWrite hs !! 1%nat = Some w1
       /\ descriptorWrites drawKey exampleDummyWrite hs !! 2%nat = Some w2
       /\ pBufferInfo w0
          = Some {| buffer := 700; offset := 16; range := 64 |}
       /\ w1 = address (nth 0 hs 0) 1 exampleDummyWrite
       /\ pBufferInfo w2
          = Some {| buffer := 701; offset := 0; range := VK_WHOLE_SIZE |}.
Proof.
  intros c c'.
  assert (Hd : defined createDescriptorSets c = true)
    by (vm_compute; reflexivity).
  assert (Hr : result None createDescriptorSets c = Some (requiredKey c))
    by (vm_compute; reflexivity).
  pose proof (run_defined None _ _ Hd) as Hrun. rewrite Hr in Hrun.
  fold c' in Hrun.
  destruct (uniform_slots_written_once c c' _ Hrun)
    as (hs & pre & _ & Hone & _ & _ & _ & _ & _ & _ & _ & Hslot).
  split; [exact Hrun|]. split; [exact Hone|].
  change (mDescriptorRequirements c) with drawKey in Hslot.
  change (mDummyBufferWriteInfo c) with exampleDummyWrite in Hslot.
  destruct (Hslot 0%nat) as (w0 & H0 & _ & _ & _ & Ha0);
    [unfold UBUFFER_BINDING_COUNT; lia|].
  destruct (Hslot 1%nat) as (w1 & H1 & _ & _ & Hi1 & _);
    [unfold UBUFFER_BINDING_COUNT; lia|].
  destruct (Hslot 2%nat) as (w2 & H2 & _ & _ & _ & Ha2);
    [unfold UBUFFER_BINDING_COUNT; lia|].
  exists hs, w0, w1, w2. repeat (split; [assumption|]).
  split; [apply Ha0; discriminate|].
  split; [apply Hi1; reflexivity|].
  apply Ha2. discriminate.
Defined.

(** ** The writes of the image slots *)

Lemma samplerWrites_active (req : DescriptorKey) (hs : list VkDescriptorSet)
    (binding : nat) :
  (binding < SAMPLER_BINDING_COUNT)%nat ->
  sampler (nth binding (samplers req) zeroImageInfo) <> 0 ->
  imageWrite VK_DESCRIPTOR_TYPE_COMBINED_IMAGE_SAMPLER
    (nth binding (samplers req) zeroImageInfo) (nth 1 hs 0) binding
  ∈ samplerWrites req hs.
Proof.
  intros Hb Hs. apply list_elem_of_In. unfold samplerWrites.
  apply in_flat_map. exists binding. split; [apply in_seq; lia|].
  destruct (Z.eqb_spec (sampler (nth binding (samplers req) zeroImageInfo)) 0);
    [contradiction|]. left. reflexivity.
Qed.

Lemma samplerWrites_inactive (req : DescriptorKey)
    (hs : list VkDescriptorSet) (binding : nat) (w : VkWriteDescriptorSet) :
  sampler (nth binding (samplers req) zeroImageInfo) = 0 ->
  w ∈ samplerWrites req hs ->
  dstBinding w <> Z.of_nat binding.
Proof.
  intros Hs Hw. apply list_elem_of_In in Hw. unfold samplerWrites in Hw.
  apply in_flat_map in Hw as (b & _ & Hw).
  destruct (Z.eqb_spec (sampler (nth b (samplers req) zeroImageInfo)) 0)
    as [|Hne]; [destruct Hw|]. destruct Hw as [<-|[]]. cbn.
  intros Heq. apply Nat2Z.inj in Heq. subst b. contradiction.
Qed.

Lemma inputAttachmentWrites_active (req : DescriptorKey)
    (hs : list VkDescriptorSet) (binding : nat) :
  (binding < INPUT_ATTACHMENT_COUNT)%nat ->
  imageView (nth binding (inputAttachments req) zeroImageInfo) <> 0 ->
  imageWrite VK_DESCRIPTOR_TYPE_INPUT_ATTACHMENT
    (nth binding (inputAttachments req) zeroImageInfo) (nth 2 hs 0) binding
  ∈ inputAttachmentWrites req hs.
Proof.
  intros Hb Hs. apply list_elem_of_In. unfold inputAttachmentWrites.
  apply in_flat_map. exists binding. split; [apply in_seq; lia|].
  destruct (Z.eqb_spec
              (imageView (nth binding (inputAttachments req) zeroImageInfo))
              0); [contradiction|]. left. reflexivity.
Qed.

Lemma inputAttachmentWrites_inactive (req : DescriptorKey)
    (hs : list VkDescriptorSet) (binding : nat) (w : VkWriteDescriptorSet) :
  imageView (nth binding (inputAttachments req) zeroImageInfo) = 0 ->
  w ∈ inputAttachmentWrites req hs ->
  dstBinding w <> Z.of_nat binding.
Proof.
  intros Hs Hw. apply list_elem_of_In in Hw.
  unfold inputAttachmentWrites in Hw.
  apply in_flat_map in Hw as (b & _ & Hw).
  destruct (Z.eqb_spec
              (imageView (nth b (inputAttachments req) zeroImageInfo)) 0)
    as [|Hne]; [destruct Hw|]. destruct Hw as [<-|[]]. cbn.
  intros Heq. apply Nat2Z.inj in Heq. subst b. contradiction.
Qed.

(** A binding that no write of the batch is addressed to keeps its
    content. *)
Lemma applyWrites_untouched (writes : list VkWriteDescriptorSet)
    (m : gmap (Z * Z) VkWriteDescriptorSet) (k : Z * Z) :
  (forall w, w ∈ writes -> (dstSet w, dstBinding w) <> k) ->
  fold_left applyWrite writes m !! k = m !! k.
Proof.
  revert m. induction writes as [|w ws IH]; intros m Hk; [reflexivity|].
  cbn. rewrite IH.
  - unfold applyWrite. apply lookup_insert_ne. apply Hk. left.
  - intros w' Hw'. apply Hk. right. exact Hw'.
Qed.

(** ** Binding: what every successful call leaves *)

Lemma acquiredCache_frame (c : Cache) (p : list Z) (e : DescriptorCacheEntry) :
  let c' := acquiredCache c p e in
  mPipelineLayouts c' = mPipelineLayouts c
  /\ mDescriptorPoolSize c' = mDescriptorPoolSize c
  /\ mDescriptorArenasCount c' = mDescriptorArenasCount c
  /\ mDescriptorPool c' = mDescriptorPool c
  /\ mExtinctDescriptorPools c' = mExtinctDescriptorPools c
  /\ mExtinctDescriptorBundles c' = mExtinctDescriptorBundles c
  /\ mDescriptorRequirements c' = mDescriptorRequirements c
  /\ mPipelineRequirements c' = mPipelineRequirements c
  /\ mCurrentTime c' = mCurrentTime c
  /\ mDescriptorCacheEntryCount c' = mDescriptorCacheEntryCount c
  /\ mPipelineBoundResources c' = mPipelineBoundResources c
  /\ descriptors (mDevice c') = descriptors (mDevice c).
Proof.
  unfold acquiredCache.
  destruct (mDescriptorResources c !! id e); cbn; repeat split; reflexivity.
Qed.

(** The end of [bindDescriptors] touches the entry, the bound key, the
    resource managers, the required layout and the log, and nothing else. *)
Lemma bindCacheEntry_frame (cmd : VkCommandBuffer) (c c' : Cache)
    (p : list Z) (e : DescriptorCacheEntry) (b : bool) :
  mDescriptorSets c !! p = Some e ->
  bindCacheEntry cmd (Some p) c = Some (b, c') ->
  b = true
  /\ mDescriptorSets c'
     = <[p := set_lastUsed (mCurrentTime c) e]> (mDescriptorSets c)
  /\ mBoundDescriptor c' = mDescriptorRequirements c
  /\ mDescriptorRequirements c' = mDescriptorRequirements c
  /\ mPipelineRequirements c' = mPipelineRequirements c
  /\ mCurrentTime c' = mCurrentTime c
  /\ mDescriptorCacheEntryCount c' = mDescriptorCacheEntryCount c
  /\ mDescriptorPoolSize c' = mDescriptorPoolSize c
  /\ mDescriptorArenasCount c' = mDescriptorArenasCount c
  /\ mDescriptorPool c' = mDescriptorPool c
  /\ mExtinctDescriptorPools c' = mExtinctDescriptorPools c
  /\ mExtinctDescriptorBundles c' = mExtinctDescriptorBundles c
  /\ mPipelineBoundResources c' = mPipelineBoundResources c
  /\ descriptors (mDevice c') = descriptors (mDevice c)
  /\ mPipelineLayouts c'
     = mPipelineLayouts (exec getOrCreatePipelineLayout (acquiredCache c p e))
  /\ newCalls c c'
     = acquireCalls c (id e) ++ layoutCalls (acquiredCache c p e)
       ++ [CmdBindDescriptorSets cmd
             (layout_handle (theLayout (acquiredCache c p e))) (handles e)].
Proof.
  intros He H. rewrite (bindCacheEntry_run cmd c p e He) in H.
  injection H as <- <-.
  destruct (getOrCreatePipelineLayout_frame (acquiredCache c p e))
    as (G1 & G2 & G3 & G4 & G5 & G6 & G7 & G8 & G9 & G10 & G11 & G12 & G13
        & G14 & G15 & G16).
  destruct (acquiredCache_frame c p e)
    as (F1 & F2 & F3 & F4 & F5 & F6 & F7 & F8 & F9 & F10 & F11 & F12).
  destruct (acquiredCache_entries c p e) as (Hm & Hb).
  pose proof (getOrCreatePipelineLayout_calls (acquiredCache c p e)) as Hc.
  cbv zeta in *. cbn.
  rewrite G1, G3, G4, G5, G6, G7, G9, G10, G11, G12, G13, G14, G16.
  repeat (split; [first [reflexivity | assumption | congruence]|]).
  apply newCalls_app. cbn.
    rewrite Hc, acquiredCache_calls, <- !app_assoc. reflexivity.
Qed.

Lemma set_lastUsed_same (e : DescriptorCacheEntry) :
  set_lastUsed (lastUsed e) e = e.
Proof. destruct e; reflexivity. Qed.

Lemma set_mDescriptorSets_same (c : Cache) :
  set_mDescriptorSets (mDescriptorSets c) c = c.
Proof. destruct c; reflexivity. Qed.

Lemma DescEqual_refl (k : DescriptorKey) : DescEqual k k = true.
Proof. apply DescEqual_bytes. reflexivity. Qed.

Lemma lookup_Some_nonempty (m : DescriptorMap) (k : list Z)
    (e : DescriptorCacheEntry) :
  m !! k = Some e -> m <> ∅.
Proof. intros H ->. rewrite lookup_empty in H. discriminate H. Qed.

(** Every way through [bindDescriptors] that answers [true]. *)
Lemma bindDescriptors_true (cmd : VkCommandBuffer) (c c' : Cache) :
  bindDescriptors cmd c = Some (true, c') ->
  mDescriptorRequirements c' = mDescriptorRequirements c
  /\ mCurrentTime c' = mCurrentTime c
  /\ DescEqual (mBoundDescriptor c') (mDescriptorRequirements c) = true
  /\ exists e, mDescriptorSets c' !! requiredKey c = Some e
       /\ lastUsed e = mCurrentTime c.
Proof.
  intros H. destruct (alreadyBound c) eqn:Hab.
  - rewrite (bindDescriptors_early cmd c Hab) in H.
    destruct (mDescriptorSets c !! requiredKey c) as [e|]; [|discriminate H].
    injection H as <-. cbn.
    unfold alreadyBound in Hab. apply andb_true_iff in Hab as [Hab _].
    repeat (split; [first [reflexivity | assumption]|]).
    eexists. split; [apply lookup_insert_eq | reflexivity].
  - rewrite (bindDescriptors_late cmd c Hab) in H.
    destruct (mDescriptorSets c !! requiredKey c) as [e|] eqn:He.
    + rewrite (lookupOrCreate_hit cmd c e He) in H.
      destruct (bindCacheEntry_frame cmd c c' _ e true He H)
        as (_ & Hm & Hb & Hq & _ & Ht & _).
      rewrite Hb. repeat (split; [first [assumption | apply DescEqual_refl]|]).
      eexists. rewrite Hm. split; [apply lookup_insert_eq | reflexivity].
    + rewrite (lookupOrCreate_miss cmd c He) in H. unfold bind in H.
      destruct (createDescriptorSets c) as [[[p|] c1]|] eqn:Hc;
        [| discriminate H | discriminate H].
      destruct (createDescriptorSets_entry c c1 p He Hc) as (-> & hs & He1 & _).
      destruct (createDescriptorSets_summary c c1 _ Hc)
        as (_ & _ & _ & _ & Hq1 & _ & Ht1 & _).
      destruct (bindCacheEntry_frame cmd c1 c' _ _ true He1 H)
        as (_ & Hm & Hb & Hq & _ & Ht & _).
      rewrite Hb, Hq, Ht, Hq1, Ht1.
      repeat (split; [first [reflexivity | apply DescEqual_refl]|]).
      eexists. rewrite Hm. split; [apply lookup_insert_eq | exact Ht1].
Qed.

(** X1. A successful [bindDescriptors] leaves the entry of the required key
    in the cache, stamped with the current time, and the bound key
    byte-equal to the required key, whichever way it took. *)
Theorem bind_success_marks_entry (cmd : VkCommandBuffer) (c c' : Cache) :
  bindDescriptors cmd c = Some (true, c') ->
  DescEqual (mBoundDescriptor c') (mDescriptorRequirements c') = true
  /\ exists e, mDescriptorSets c' !! requiredKey c' = Some e
       /\ lastUsed e = mCurrentTime c'.
Proof.
  intros H. destruct (bindDescriptors_true cmd c c' H)
    as (Hq & Ht & Hb & e & He & Hl).
  unfold requiredKey in *. rewrite Hq, Ht. eauto.
Qed.

Lemma bind_success_marks_entry_witness :
  exists e,
    mDescriptorSets (exec (bindDescriptors 7) freshCache)
      !! requiredKey freshCache = Some e
    /\ lastUsed e = 0.
Proof.
  assert (Hd : defined (bindDescriptors 7) freshCache = true)
    by (vm_compute; reflexivity).
  assert (Hr : result false (bindDescriptors 7) freshCache = true)
    by (vm_compute; reflexivity).
  pose proof (run_defined false _ _ Hd) as Hrun. rewrite Hr in Hrun.
  destruct (bind_success_marks_entry 7 _ _ Hrun) as (_ & e & He & Hl).
  exists e. split; [exact He | exact Hl].
Defined.

(** X2. Binding again with nothing changed in between is a fixed point: a
    second [bindDescriptors] right after a successful one answers [true] and
    leaves the cache and the device exactly as they are. *)
Theorem bind_again_changes_nothing (cmd cmd' : VkCommandBuffer)
    (c c' : Cache) :
  bindDescriptors cmd c = Some (true, c') ->
  bindDescriptors cmd' c' = Some (true, c').
Proof.
  intros H. destruct (bindDescriptors_true cmd c c' H)
    as (Hq & Ht & Hb & e & He & Hl).
  assert (Hab : alreadyBound c' = true).
  { unfold alreadyBound. rewrite Hq, Hb. cbn.
    rewrite bool_decide_eq_false_2; [reflexivity|].
    exact (lookup_Some_nonempty _ _ _ He). }
  rewrite (bindDescriptors_early cmd' c' Hab).
  unfold requiredKey in *. rewrite Hq, He, Ht, <- Hl, set_lastUsed_same.
  rewrite (insert_id _ _ _ He), set_mDescriptorSets_same. reflexivity.
Qed.

Lemma bind_again_changes_nothing_witness :
  let c' := exec (bindDescriptors 7) freshCache in
  bindDescriptors 8 c' = Some (true, c').
Proof.
  intros c'.
  assert (Hd : defined (bindDescriptors 7) freshCache = true)
    by (vm_compute; reflexivity).
  assert (Hr : result false (bindDescriptors 7) freshCache = true)
    by (vm_compute; reflexivity).
  pose proof (run_defined false _ _ Hd) as Hrun. rewrite Hr in Hrun.
  exact (bind_again_changes_nothing 7 8 _ _ Hrun).
Defined.

(** ** Calls that count for nothing *)

Lemma newCalls_same_device (c c' : Cache) :
  mDevice c' = mDevice c -> newCalls c c' = [].
Proof. intros H. unfold newCalls. rewrite H. apply drop_all. Qed.

Lemma acquireCalls_count (p : Call -> bool) (c : Cache) (i : Z) :
  (forall j, p (MakeResourceManager j) = false) ->
  (forall j, p (AcquireAll j) = false) ->
  countCalls p (acquireCalls c i) = 0%nat.
Proof.
  intros H1 H2. unfold acquireCalls.
  destruct (mDescriptorResources c !! i); cbn; rewrite ?H1, ?H2; reflexivity.
Qed.

(** ** Binding a key the cache does not hold *)

(** X4. A successful [bindDescriptors] for a key the cache does not hold
    adds exactly the entry of that key: it carries the value of the id
    counter, the current time and the required layout, the counter moves by
    one, and every other entry stays as it is, unless the pool was grown,
    which leaves the new entry alone in the cache. *)
Theorem missed_key_adds_one_entry (cmd : VkCommandBuffer) (c c' : Cache) :
  mDescriptorSets c !! requiredKey c = None ->
  bindDescriptors cmd c = Some (true, c') ->
  exists e,
    mDescriptorSets c'
    = <[requiredKey c := e]> (if grows c then ∅ else mDescriptorSets c)
    /\ id e = mDescriptorCacheEntryCount c
    /\ lastUsed e = mCurrentTime c
    /\ pipelineLayout e = requiredLayout c
    /\ size (mDescriptorSets c')
       = (if grows c then 1%nat else S (size (mDescriptorSets c)))
    /\ mDescriptorCacheEntryCount c'
       = wrap32 (mDescriptorCacheEntryCount c + 1).
Proof.
  intros He H. destruct (alreadyBound c) eqn:Hab.
  { rewrite (bindDescriptors_early cmd c Hab), He in H. discriminate H. }
  rewrite (bindDescriptors_late cmd c Hab), (lookupOrCreate_miss cmd c He) in H.
  unfold bind in H.
  destruct (createDescriptorSets c) as [[[p|] c1]|] eqn:Hc;
    [| discriminate H | discriminate H].
  destruct (createDescriptorSets_entry c c1 p He Hc) as (-> & hs & He1 & Hm1).
  destruct (createDescriptorSets_summary c c1 _ Hc)
    as (Hn1 & _ & _ & _ & _ & _ & Ht1 & _).
  destruct (bindCacheEntry_frame cmd c1 c' _ _ true He1 H)
    as (_ & Hm & _ & _ & _ & _ & Hn & _).
  exists (set_lastUsed (mCurrentTime c1) (set_handles hs (newEntry c))).
  rewrite Hm, Hm1, insert_insert_eq, Hn, Hn1.
  split; [reflexivity|]. split; [reflexivity|]. split; [exact Ht1|].
  split; [reflexivity|]. split; [|reflexivity].
  destruct (grows c).
  - rewrite map_size_insert_None by apply lookup_empty.
    rewrite map_size_empty. reflexivity.
  - apply map_size_insert_None. exact He.
Qed.

Lemma missed_key_adds_one_entry_witness :
  exists e,
    mDescriptorSets (exec (bindDescriptors 7) freshCache)
    = <[requiredKey freshCache := e]> ∅
    /\ id e = 0.
Proof.
  assert (Hd : defined (bindDescriptors 7) freshCache = true)
    by (vm_compute; reflexivity).
  assert (Hr : result false (bindDescriptors 7) freshCache = true)
    by (vm_compute; reflexivity).
  pose proof (run_defined false _ _ Hd) as Hrun. rewrite Hr in Hrun.
  assert (He : mDescriptorSets freshCache !! requiredKey freshCache = None)
    by reflexivity.
  destruct (missed_key_adds_one_entry 7 _ _ He Hrun)
    as (e & Hm & Hi & _).
  assert (Hg : grows freshCache = false) by (vm_compute; reflexivity).
  rewrite Hg in Hm. exists e. split; [exact Hm | exact Hi].
Defined.

(** ** The invariants a sequence of binds keeps *)

Lemma createDescriptorSets_keeps_balance (c : Cache) :
  layoutsBalanced c ->
  exists r c', createDescriptorSets c = Some (r, c') /\ layoutsBalanced c'.
Proof.
  intros Hb. pose proof (theLayout_balanced c Hb) as Hbl.
  destruct (arena 0 (theLayout c)) as [|x a] eqn:Ha0.
  - pose proof (afterGrowth_balanced _ (counted_balanced c Hb)) as Hb1.
    rewrite (createDescriptorSets_fresh c Ha0).
    destruct (allocationSucceeds (mDevice (afterGrowth (counted c)))).
    + rewrite writeDescriptorSets_run. eexists _, _.
      split; [reflexivity|]. exact Hb1.
    + eexists _, _. split; [reflexivity|]. exact Hb1.
  - assert (Hne : arena 0 (theLayout c) <> [])
      by (rewrite Ha0; discriminate).
    destruct (arenasBalanced_nonempty _ Hbl Hne)
      as (a0 & a1 & a2 & h0 & h1 & h2 & Ha & H01 & H12).
    rewrite (createDescriptorSets_reuse_run c a0 a1 a2 h0 h1 h2 Ha),
      writeDescriptorSets_run.
    eexists _, _. split; [reflexivity|].
    unfold layoutsBalanced. cbn.
    intros l e. destruct (decide (l = requiredLayout c)) as [->|Hl].
    + rewrite lookup_insert_eq. intros [= <-].
      exists a0, a1, a2. auto.
    + rewrite lookup_insert_ne by congruence.
      apply (counted_balanced c Hb).
Qed.

Lemma bindCacheEntry_keeps_invariants (cmd : VkCommandBuffer) (c c' : Cache)
    (p : list Z) (e : DescriptorCacheEntry) (b : bool) :
  mDescriptorSets c !! p = Some e ->
  p = requiredKey c ->
  bindCacheEntry cmd (Some p) c = Some (b, c') ->
  layoutsBalanced c ->
  layoutsBalanced c' /\ boundKeyCached c'.
Proof.
  intros He -> H Hb.
  destruct (bindCacheEntry_frame cmd c c' _ e b He H)
    as (_ & Hm & Hbd & _ & _ & _ & _ & _ & _ & _ & _ & _ & _ & _ & Hl & _).
  split.
  - unfold layoutsBalanced. rewrite Hl.
    apply getOrCreatePipelineLayout_balanced.
    destruct (acquiredCache_frame c (requiredKey c) e) as (Hl0 & _).
    unfold layoutsBalanced. cbv zeta in Hl0. rewrite Hl0. exact Hb.
  - right. rewrite Hm, Hbd. unfold requiredKey. rewrite lookup_insert_eq.
    eexists. reflexivity.
Qed.

(** X5. From a cache whose arenas are balanced and whose bound key is
    cached (or which holds nothing), [bindDescriptors] always has a defined
    result, whether it answers [true] or [false], and it leaves a cache
    with the same two properties: in a sequence of binds the bound key is
    never missing at the early return and no arena is read when empty. *)
Theorem bind_keeps_cache_consistent (cmd : VkCommandBuffer) (c : Cache) :
  layoutsBalanced c ->
  boundKeyCached c ->
  exists b c',
    bindDescriptors cmd c = Some (b, c')
    /\ layoutsBalanced c' /\ boundKeyCached c'.
Proof.
  intros Hb Hk. destruct (alreadyBound c) eqn:Hab.
  - rewrite (bindDescriptors_early cmd c Hab).
    unfold alreadyBound in Hab. apply andb_true_iff in Hab as [Heq Hne].
    apply DescEqual_bytes in Heq.
    apply negb_true_iff, bool_decide_eq_false in Hne.
    destruct Hk as [Hk | [e Hk]]; [contradiction|].
    rewrite Heq in Hk. fold (requiredKey c) in Hk. rewrite Hk.
    eexists _, _. split; [reflexivity|]. split; [exact Hb|].
    right. cbn. rewrite Heq. fold (requiredKey c).
    rewrite lookup_insert_eq. eexists. reflexivity.
  - rewrite (bindDescriptors_late cmd c Hab).
    destruct (mDescriptorSets c !! requiredKey c) as [e|] eqn:He.
    + rewrite (lookupOrCreate_hit cmd c e He).
      pose proof (bindCacheEntry_run cmd c _ e He) as Hrun.
      cbv zeta in Hrun. eexists _, _. split; [exact Hrun|].
      exact (bindCacheEntry_keeps_invariants cmd c _ _ e true He eq_refl
               Hrun Hb).
    + rewrite (lookupOrCreate_miss cmd c He). unfold bind.
      destruct (createDescriptorSets_keeps_balance c Hb)
        as (r & c1 & Hc & Hb1).
      rewrite Hc. destruct r as [p|].
      * destruct (createDescriptorSets_entry c c1 p He Hc)
          as (-> & hs & He1 & _).
        destruct (createDescriptorSets_summary c c1 _ Hc)
          as (_ & _ & _ & _ & Hq1 & _).
        pose proof (bindCacheEntry_run cmd c1 _ _ He1) as Hrun.
        cbv zeta in Hrun. eexists _, _. split; [exact Hrun|].
        refine (bindCacheEntry_keeps_invariants cmd c1 _ _ _ true He1 _
                  Hrun Hb1).
        unfold requiredKey. rewrite Hq1. reflexivity.
      * destruct (createDescriptorSets_summary c c1 _ Hc)
          as (_ & _ & _ & Hbd1 & _ & _ & _ & _ & Hm1 & _).
        eexists _, _. split; [reflexivity|]. split; [exact Hb1|].
        unfold boundKeyCached. rewrite Hm1, Hbd1.
        destruct (grows c); [left; reflexivity | exact Hk].
Qed.

Lemma bind_keeps_cache_consistent_witness :
  exists b c',
    bindDescriptors 7 reusableCache = Some (b, c')
    /\ layoutsBalanced c' /\ boundKeyCached c'.
Proof.
  apply (bind_keeps_cache_consistent 7 reusableCache).
  - exact reusableCache_balanced.
  - left. reflexivity.
Defined.

(** ** The count of dormant bundles *)

Lemma dormantBundles_insert_None (m : PipelineLayoutMap)
    (l : PipelineLayoutKey) (e : PipelineLayoutCacheEntry) :
  m !! l = None ->
  dormantBundles (<[l := e]> m)
  = (length (arena 0 e) + dormantBundles m)%nat.
Proof.
  intros H. unfold dormantBundles.
  rewrite (map_to_list_insert m l e H). reflexivity.
Qed.

Lemma dormantBundles_insert_Some (m : PipelineLayoutMap)
    (l : PipelineLayoutKey) (e0 e : PipelineLayoutCacheEntry) :
  m !! l = Some e0 ->
  (dormantBundles (<[l := e]> m) + length (arena 0 e0)
   = dormantBundles m + length (arena 0 e))%nat.
Proof.
  intros H. rewrite <- insert_delete_eq.
  rewrite dormantBundles_insert_None by apply lookup_delete_eq.
  unfold dormantBundles at 2. rewrite <- (map_to_list_delete m l e0 H).
  change (length (arena 0 e) + dormantBundles (delete l m)
          + length (arena 0 e0)
          = length (arena 0 e0) + dormantBundles (delete l m)
            + length (arena 0 e))%nat.
  lia.
Qed.

Lemma dormantBundles_cleared (m : PipelineLayoutMap) :
  dormantBundles
    (set_descriptorSetArenas (repeat [] DESCRIPTOR_TYPE_COUNT) <$> m)
  = 0%nat.
Proof.
  unfold dormantBundles. rewrite map_to_list_fmap.
  induction (map_to_list m) as [|[l e] ms IH]; [reflexivity|].
  cbn. exact IH.
Qed.

Lemma getOrCreatePipelineLayout_dormant (c : Cache) :
  dormantBundles (mPipelineLayouts (exec getOrCreatePipelineLayout c))
  = dormantBundles (mPipelineLayouts c).
Proof.
  destruct (mPipelineLayouts c !! requiredLayout c) as [e|] eqn:He.
  - rewrite (getOrCreatePipelineLayout_hit c e He). cbn.
    pose proof (dormantBundles_insert_Some _ _ _
                  (set_layout_lastUsed (mCurrentTime c) e) He) as H.
    unfold arena in H. cbn in H. fold (arena 0 e) in H. lia.
  - unfold exec, getOrCreatePipelineLayout, requiredLayout in *. unfold_M.
    rewrite He. cbn. rewrite dormantBundles_insert_None by exact He.
    reflexivity.
Qed.

Lemma counted_dormant (c : Cache) :
  dormantCounted c -> dormantCounted (counted c).
Proof.
  unfold dormantCounted.
  destruct (counted_frame c)
    as (_ & _ & _ & Hn & _ & _ & _ & _ & _ & _ & _ & _ & _ & _ & _ & Hl & _).
  rewrite Hn, Hl, getOrCreatePipelineLayout_dormant. auto.
Qed.

Lemma afterGrowth_dormant (c : Cache) :
  dormantCounted c ->
  dormantCounted (afterGrowth c)
  /\ mDescriptorArenasCount (afterGrowth c)
     = if poolWouldOverflow c then 0 else mDescriptorArenasCount c.
Proof.
  unfold dormantCounted, afterGrowth. destruct (poolWouldOverflow c).
  - intros _. cbn. rewrite dormantBundles_cleared. split; reflexivity.
  - auto.
Qed.

(** X6. [mDescriptorArenasCount] counts the bundles of sets waiting in the
    arenas, and [createDescriptorSets] keeps it so: the count is positive
    whenever the reuse branch is taken, which lowers it by exactly one
    without wrapping; growing the pool empties the arenas and the count
    together; otherwise both stay. *)
Theorem dormant_count_is_kept (c : Cache) :
  layoutsBalanced c ->
  dormantCounted c ->
  mDescriptorArenasCount c < 2 ^ 32 ->
  (arena 0 (theLayout c) <> [] -> 0 < mDescriptorArenasCount c)
  /\ exists r c',
       createDescriptorSets c = Some (r, c')
       /\ dormantCounted c'
       /\ mDescriptorArenasCount c'
          = match arena 0 (theLayout c) with
            | [] => if poolWouldOverflow c then 0
                    else mDescriptorArenasCount c
            | _ :: _ => mDescriptorArenasCount c - 1
            end.
Proof.
  intros Hb Hd Hlt. pose proof (theLayout_balanced c Hb) as Hbl.
  pose proof (counted_dormant c Hd) as Hd1.
  destruct (counted_frame c) as (_ & _ & _ & Hn & _).
  assert (Hpos : arena 0 (theLayout c) <> [] ->
                 exists a0 a1 a2 h0 h1 h2,
                   descriptorSetArenas (theLayout c)
                   = [a0 ++ [h0]; a1 ++ [h1]; a2 ++ [h2]]
                   /\ (dormantBundles
                         (<[requiredLayout c :=
                              set_descriptorSetArenas [a0; a1; a2]
                                (theLayout c)]>
                            (mPipelineLayouts (counted c))) + 1
                       = dormantBundles (mPipelineLayouts (counted c)))%nat).
  { intros Hne.
    destruct (arenasBalanced_nonempty _ Hbl Hne)
      as (a0 & a1 & a2 & h0 & h1 & h2 & Ha & _).
    exists a0, a1, a2, h0, h1, h2. split; [exact Ha|].
    pose proof (dormantBundles_insert_Some _ _ _
                  (set_descriptorSetArenas [a0; a1; a2] (theLayout c))
                  (counted_layout c)) as H.
    unfold arena in H. rewrite Ha in H. cbn in H.
    rewrite length_app in H. cbn in H. lia. }
  split.
  { intros Hne. destruct (Hpos Hne) as (a0 & a1 & a2 & h0 & h1 & h2 & _ & H).
    unfold dormantCounted in Hd1. rewrite Hn in Hd1. lia. }
  destruct (arena 0 (theLayout c)) as [|x a] eqn:Ha0.
  - destruct (afterGrowth_dormant _ Hd1) as (Hd2 & Hn2).
    rewrite poolWouldOverflow_counted, Hn in Hn2.
    rewrite (createDescriptorSets_fresh c Ha0).
    destruct (allocationSucceeds (mDevice (afterGrowth (counted c)))).
    + rewrite writeDescriptorSets_run. eexists _, _.
      split; [reflexivity|]. split; [exact Hd2 | exact Hn2].
    + eexists _, _. split; [reflexivity|]. split; [exact Hd2 | exact Hn2].
  - destruct Hpos as (a0 & a1 & a2 & h0 & h1 & h2 & Ha & H);
      [discriminate|].
    rewrite (createDescriptorSets_reuse_run c a0 a1 a2 h0 h1 h2 Ha),
      writeDescriptorSets_run.
    unfold dormantCounted in Hd1. rewrite Hn in Hd1.
    assert (Hw : wrap32 (mDescriptorArenasCount c - 1)
                 = mDescriptorArenasCount c - 1).
    { unfold wrap32. apply Z.mod_small. lia. }
    eexists _, _. split; [reflexivity|]. unfold dormantCounted. cbn.
    rewrite Hw. split; [lia | reflexivity].
Qed.

Lemma reusableCache_dormantCounted : dormantCounted reusableCache.
Proof. vm_compute. reflexivity. Qed.

Lemma dormant_count_is_kept_witness :
  0 < mDescriptorArenasCount reusableCache
  /\ exists r c',
       createDescriptorSets reusableCache = Some (r, c')
       /\ dormantCounted c'
       /\ mDescriptorArenasCount c' = 1.
Proof.
  destruct (dormant_count_is_kept reusableCache reusableCache_balanced
              reusableCache_dormantCounted)
    as (Hpos & r & c' & Hc & Hd & Hn); [reflexivity|].
  split; [apply Hpos; vm_compute; discriminate|].
  exists r, c'. split; [exact Hc|]. split; [exact Hd|].
  rewrite Hn. vm_compute. reflexivity.
Defined.

(** ** The size of the write batch *)

Lemma length_flat_map_filter {A B : Type} (p : A -> bool) (f : A -> B)
    (l : list A) :
  length (flat_map (fun a => if p a then [] else [f a]) l)
  = length (List.filter (fun a => negb (p a)) l).
Proof.
  induction l as [|a l IH]; [reflexivity|].
  cbn [flat_map List.filter]. destruct (p a); cbn; rewrite ?IH; reflexivity.
Qed.

Lemma length_descriptorWrites (req : DescriptorKey)
    (dummy : VkWriteDescriptorSet) (hs : list VkDescriptorSet) :
  length (descriptorWrites req dummy hs)
  = (UBUFFER_BINDING_COUNT + length (activeSamplers req)
     + length (activeInputAttachments req))%nat.
Proof.
  unfold descriptorWrites, uniformWrites, samplerWrites,
    inputAttachmentWrites, activeSamplers, activeInputAttachments.
  rewrite !length_app, length_map, length_seq.
  rewrite <- 2!length_flat_map_filter with (f := fun b => b).
  rewrite Nat.add_assoc. f_equal; [f_equal|].
  - generalize (seq 0 SAMPLER_BINDING_COUNT). intros l.
    induction l as [|b l IH]; [reflexivity|]. cbn [flat_map].
    rewrite !length_app, IH.
    destruct (sampler (nth b (samplers req) zeroImageInfo) =? 0);
      reflexivity.
  - generalize (seq 0 INPUT_ATTACHMENT_COUNT). intros l.
    induction l as [|b l IH]; [reflexivity|]. cbn [flat_map].
    rewrite !length_app, IH.
    destruct (imageView (nth b (inputAttachments req) zeroImageInfo) =? 0);
      reflexivity.
Qed.

(** X7. The batch [createDescriptorSets] hands to
    [vkUpdateDescriptorSets] is its last call and holds one write for each
    of the [UBUFFER_BINDING_COUNT] uniform slots, one for every sampler
    slot with a sampler and one for every input attachment with an image
    view: never more than the [UBUFFER_BINDING_COUNT +
    SAMPLER_BINDING_COUNT + INPUT_ATTACHMENT_COUNT] elements of the array
    the writes are collected in. *)
Theorem write_batch_fits_array (c c' : Cache) (p : list Z) :
  createDescriptorSets c = Some (Some p, c') ->
  exists pre writes,
    newCalls c c' = pre ++ [UpdateDescriptorSets writes]
    /\ length writes
       = (UBUFFER_BINDING_COUNT
          + length (activeSamplers (mDescriptorRequirements c))
          + length (activeInputAttachments (mDescriptorRequirements c)))%nat
    /\ (length writes
        <= UBUFFER_BINDING_COUNT + SAMPLER_BINDING_COUNT
           + INPUT_ATTACHMENT_COUNT)%nat.
Proof.
  intros H.
  destruct (createDescriptorSets_success c c' p H)
    as (hs & pre & Hcalls & _).
  cbv zeta in Hcalls. eexists pre, _. split; [exact Hcalls|].
  rewrite length_descriptorWrites. split; [reflexivity|].
  pose proof (List.filter_length_le
                (fun binding =>
                   negb (sampler (nth binding
                                    (samplers (mDescriptorRequirements c))
                                    zeroImageInfo) =? 0))
                (seq 0 SAMPLER_BINDING_COUNT)) as H1.
  pose proof (List.filter_length_le
                (fun binding =>
                   negb (imageView (nth binding
                                      (inputAttachments
                                         (mDescriptorRequirements c))
                                      zeroImageInfo) =? 0))
                (seq 0 INPUT_ATTACHMENT_COUNT)) as H2.
  rewrite length_seq in H1, H2.
  unfold activeSamplers, activeInputAttachments. lia.
Qed.

Lemma write_batch_fits_array_witness :
  exists pre writes,
    newCalls drawCache (exec createDescriptorSets drawCache)
    = pre ++ [UpdateDescriptorSets writes]
    /\ length writes = 11%nat.
Proof.
  assert (Hd : defined createDescriptorSets drawCache = true)
    by (vm_compute; reflexivity).
  pose proof (run_defined None _ _ Hd) as Hrun.
  assert (Hr : result None createDescriptorSets drawCache
               = Some (requiredKey drawCache)) by (vm_compute; reflexivity).
  rewrite Hr in Hrun.
  destruct (write_batch_fits_array _ _ _ Hrun)
    as (pre & writes & Hc & Hl & _).
  exists pre, writes. split; [exact Hc|]. rewrite Hl. vm_compute.
  reflexivity.
Defined.

(** ** The entries of other keys *)

Lemma createDescriptorSets_grow_count (c c' : Cache) (r : option (list Z)) :
  createDescriptorSets c = Some (r, c') ->
  countCalls isGrowDescriptorPool (newCalls c c')
  = if grows c then 1%nat else 0%nat.
Proof.
  intros H. unfold grows.
  destruct (arena 0 (theLayout c)) as [|x a] eqn:Ha.
  - rewrite (createDescriptorSets_calls_fresh c c' r Ha H).
    rewrite !countCalls_app, layoutCalls_count by reflexivity.
    unfold growthCalls. rewrite poolWouldOverflow_counted.
    destruct (poolWouldOverflow c), (allocationSucceeds (mDevice c));
      reflexivity.
  - destruct (createDescriptorSets_calls_reuse c c' r) as (hs & ->);
      [rewrite Ha; discriminate | exact H | reflexivity].
Qed.

Lemma newCalls_trans (c c1 c' : Cache) (cs : list Call) :
  calls (mDevice c1) = calls (mDevice c) ++ newCalls c c1 ->
  calls (mDevice c') = calls (mDevice c1) ++ cs ->
  newCalls c c' = newCalls c c1 ++ cs.
Proof.
  intros H1 H2. apply newCalls_app. rewrite H2, H1, <- app_assoc.
  reflexivity.
Qed.

(** X8. [bindDescriptors] does not disturb the entries of other keys:
    whatever it answers, an entry cached under a key other than the
    required one is afterwards still there with the same sets, time stamp
    and id, unless the pool was grown during the call. *)
Theorem other_entries_survive_bind (cmd : VkCommandBuffer) (c c' : Cache)
    (b : bool) (k : list Z) (e : DescriptorCacheEntry) :
  bindDescriptors cmd c = Some (b, c') ->
  mDescriptorSets c !! k = Some e ->
  k <> requiredKey c ->
  countCalls isGrowDescriptorPool (newCalls c c') = 0%nat ->
  mDescriptorSets c' !! k = Some e.
Proof.
  intros H Hk Hne Hgrow. destruct (alreadyBound c) eqn:Hab.
  - rewrite (bindDescriptors_early cmd c Hab) in H.
    destruct (mDescriptorSets c !! requiredKey c) as [e0|];
      [|discriminate H].
    injection H as <- <-. cbn. rewrite lookup_insert_ne by congruence.
    exact Hk.
  - rewrite (bindDescriptors_late cmd c Hab) in H.
    destruct (mDescriptorSets c !! requiredKey c) as [e0|] eqn:He.
    + rewrite (lookupOrCreate_hit cmd c e0 He) in H.
      destruct (bindCacheEntry_frame cmd c c' _ e0 b He H) as (_ & Hm & _).
      rewrite Hm, lookup_insert_ne by congruence. exact Hk.
    + rewrite (lookupOrCreate_miss cmd c He) in H. unfold bind in H.
      destruct (createDescriptorSets c) as [[r c1]|] eqn:Hc;
        [|discriminate H].
      pose proof (createDescriptorSets_grow_count c c1 r Hc) as Hg.
      pose proof (createDescriptorSets_calls_prefix c c1 r Hc) as Hpre.
      destruct r as [p|].
      * destruct (createDescriptorSets_entry c c1 p He Hc)
          as (-> & hs & He1 & Hm1).
        destruct (bindCacheEntry_acquires cmd c1 c' _ _ b He1 H)
          as (_ & _ & _ & _ & _ & post & Hcalls & _).
        destruct (bindCacheEntry_frame cmd c1 c' _ _ b He1 H)
          as (_ & Hm & _).
        rewrite (newCalls_trans c c1 c' _ Hpre Hcalls), countCalls_app in Hgrow.
        destruct (grows c); [rewrite Hg in Hgrow; discriminate Hgrow|].
        rewrite Hm, Hm1, !lookup_insert_ne by congruence. exact Hk.
      * cbn in H. unfold ret in H. injection H as <- <-.
        destruct (createDescriptorSets_summary c c1 _ Hc)
          as (_ & _ & _ & _ & _ & _ & _ & _ & Hm1 & _).
        destruct (grows c); [rewrite Hg in Hgrow; discriminate Hgrow|].
        rewrite Hm1. exact Hk.
Qed.

Lemma other_entries_survive_bind_witness :
  let c := set_mDescriptorRequirements drawKey boundCache in
  mDescriptorSets (exec (bindDescriptors 7) c)
    !! DescriptorKey_bytes zeroDescriptorKey
  = Some firstEntry.
Proof.
  intros c.
  assert (Hd : defined (bindDescriptors 7) c = true)
    by (vm_compute; reflexivity).
  pose proof (run_defined false _ _ Hd) as Hrun.
  apply (other_entries_survive_bind 7 c _ _ _ firstEntry Hrun).
  - vm_compute. reflexivity.
  - intros E. apply (f_equal (fun l => nth 0 l 0)) in E.
    vm_compute in E. discriminate E.
  - vm_compute. reflexivity.
Defined.

(** ** Whether a creation succeeds *)

Lemma allocationSucceeds_counted (c : Cache) :
  allocationSucceeds (mDevice (afterGrowth (counted c)))
  = allocationSucceeds (mDevice c).
Proof.
  destruct (counted_frame c)
    as (_ & _ & _ & _ & _ & _ & _ & _ & _ & _ & _ & _ & Hr & _).
  destruct (afterGrowth_frame (counted c))
    as (_ & _ & _ & _ & _ & _ & _ & _ & Hr' & _).
  unfold allocationSucceeds. rewrite Hr', Hr. reflexivity.
Qed.

(** [createDescriptorSets] returns an entry exactly when it got its
    sets. *)
Lemma createDescriptorSets_result (c c' : Cache) (r : option (list Z)) :
  createDescriptorSets c = Some (r, c') ->
  r = if creates c then Some (requiredKey c) else None.
Proof.
  intros H. unfold creates.
  destruct (arena 0 (theLayout c)) as [|x a] eqn:Ha.
  - rewrite (createDescriptorSets_fresh c Ha) in H.
    rewrite allocationSucceeds_counted in H.
    destruct (allocationSucceeds (mDevice c)).
    + rewrite writeDescriptorSets_run in H. injection H as <- _.
      unfold requiredKey. cbn.
      destruct (counted_frame c) as (_ & _ & _ & _ & _ & _ & _ & Hq & _).
      destruct (afterGrowth_frame (counted c)) as (_ & _ & Hq' & _).
      rewrite Hq', Hq. reflexivity.
    + injection H as <- _. reflexivity.
  - destruct (createDescriptorSets_summary c c' r H)
      as (_ & _ & _ & _ & _ & _ & _ & _ & Hr).
    destruct r as [p|].
    + destruct Hr as (-> & _). reflexivity.
    + destruct Hr as (_ & Hemp & _). rewrite Ha in Hemp. discriminate Hemp.
Qed.

(** ** The whole of a bind that has to create *)

(** The calls of the end of [bindDescriptors], appended to the log. *)
Lemma bindCacheEntry_calls (cmd : VkCommandBuffer) (c c' : Cache)
    (p : list Z) (e : DescriptorCacheEntry) (b : bool) :
  mDescriptorSets c !! p = Some e ->
  bindCacheEntry cmd (Some p) c = Some (b, c') ->
  calls (mDevice c')
  = calls (mDevice c)
    ++ acquireCalls c (id e) ++ layoutCalls (acquiredCache c p e)
    ++ [CmdBindDescriptorSets cmd
          (layout_handle (theLayout (acquiredCache c p e))) (handles e)].
Proof.
  intros He H. rewrite (bindCacheEntry_run cmd c p e He) in H.
  injection H as _ <-. cbn.
  rewrite getOrCreatePipelineLayout_calls, acquiredCache_calls,
    <- !app_assoc. reflexivity.
Qed.

(** A bind of a key the cache does not hold, outside the early return: it
    answers whether the creation got its sets, and after a creation the
    entry is alone under its key with the id the counter had. *)
Lemma bindDescriptors_miss (cmd : VkCommandBuffer) (c c' : Cache) (b : bool) :
  mDescriptorSets c !! requiredKey c = None ->
  alreadyBound c = false ->
  bindDescriptors cmd c = Some (b, c') ->
  b = creates c
  /\ mDescriptorCacheEntryCount c'
     = wrap32 (mDescriptorCacheEntryCount c + 1)
  /\ (b = true ->
      exists e l pre,
        mDescriptorSets c'
        = <[requiredKey c := e]> (if grows c then ∅ else mDescriptorSets c)
        /\ id e = mDescriptorCacheEntryCount c
        /\ lastUsed e = mCurrentTime c
        /\ pipelineLayout e = requiredLayout c
        /\ newCalls c c' = pre ++ [CmdBindDescriptorSets cmd l (handles e)]
        /\ countCalls isUpdateDescriptorSets pre = 1%nat
        /\ countCalls isCmdBindDescriptorSets pre = 0%nat).
Proof.
  intros He Hab H.
  rewrite (bindDescriptors_late cmd c Hab), (lookupOrCreate_miss cmd c He) in H.
  unfold bind in H.
  destruct (createDescriptorSets c) as [[r c1]|] eqn:Hc; [|discriminate H].
  pose proof (createDescriptorSets_result c c1 r Hc) as Hr.
  destruct (createDescriptorSets_summary c c1 r Hc)
    as (Hn1 & _ & _ & _ & _ & _ & Ht1 & _).
  destruct (creates c); subst r.
  - destruct (createDescriptorSets_entry c c1 _ He Hc) as (_ & hs & He1 & Hm1).
    destruct (bindCacheEntry_frame cmd c1 c' _ _ b He1 H)
      as (-> & Hm & _ & _ & _ & _ & Hn & _).
    pose proof (bindCacheEntry_calls cmd c1 c' _ _ true He1 H) as Hcalls.
    pose proof (createDescriptorSets_calls_prefix c c1 _ Hc) as Hpre.
    split; [reflexivity|]. split; [rewrite Hn; exact Hn1|]. intros _.
    exists (set_lastUsed (mCurrentTime c1) (set_handles hs (newEntry c))).
    eexists.
    exists (newCalls c c1
            ++ acquireCalls c1 (id (set_handles hs (newEntry c)))
            ++ layoutCalls
                 (acquiredCache c1 (requiredKey c)
                    (set_handles hs (newEntry c)))).
    split; [rewrite Hm, Hm1, insert_insert_eq; reflexivity|].
    split; [reflexivity|]. split; [exact Ht1|]. split; [reflexivity|].
    split.
    { rewrite (newCalls_trans c c1 c' _ Hpre Hcalls), <- !app_assoc.
      reflexivity. }
    rewrite !countCalls_app, !acquireCalls_count, !layoutCalls_count
      by reflexivity.
    destruct (createDescriptorSets_success c c1 _ Hc)
      as (hs' & pre & Hnc & _ & _ & Hpre').
    cbv zeta in Hnc. rewrite Hnc, !countCalls_app. cbn.
    destruct (arena 0 (theLayout c)).
    + destruct Hpre' as (_ & ->).
      rewrite !countCalls_app, !layoutCalls_count, !growthCalls_count
        by reflexivity. split; reflexivity.
    + rewrite Hpre'. split; reflexivity.
  - cbn in H. unfold ret in H. injection H as <- <-.
    split; [reflexivity|]. split; [exact Hn1|]. discriminate.
Qed.

(** From balanced arenas the creation has a defined result. *)
Lemma bindDescriptors_miss_defined (cmd : VkCommandBuffer) (c : Cache) :
  mDescriptorSets c !! requiredKey c = None ->
  alreadyBound c = false ->
  layoutsBalanced c ->
  exists b c', bindDescriptors cmd c = Some (b, c').
Proof.
  intros He Hab Hb.
  rewrite (bindDescriptors_late cmd c Hab), (lookupOrCreate_miss cmd c He).
  unfold bind.
  destruct (createDescriptorSets_keeps_balance c Hb) as (r & c1 & Hc & _).
  rewrite Hc. destruct r as [p|].
  - destruct (createDescriptorSets_entry c c1 p He Hc) as (_ & hs & He1 & _).
    rewrite (bindCacheEntry_run cmd c1 p _ He1). eauto.
  - cbn. unfold ret. eauto.
Qed.

(** C1. With the required key byte-equal to the bound key: if the cache
    holds entries, the one of the bound key among them (the invariant the
    code asserts before the early return), [bindDescriptors] answers
    [true] and all it does is store the current time in the entry of the
    required key: the entry keeps its sets, layout and id, no entry is
    added or changed, the device receives no call and hands out nothing,
    and every other member of the cache is as before.
    If the cache holds no entry the early return is not taken although the
    keys match: the call runs [createDescriptorSets] (the id counter
    moves) and answers whether that got its sets; when it did, the cache
    holds the new entry alone, time-stamped, after one batched update, and
    the call ends with the bind call for the entry's sets.  From balanced
    arenas that call has a defined result. *)
Theorem early_return_when_bound (cmd : VkCommandBuffer) (c : Cache) :
  DescEqual (mBoundDescriptor c) (mDescriptorRequirements c) = true ->
  (mDescriptorSets c <> ∅ ->
   boundKeyCached c ->
   exists c' e e',
       bindDescriptors cmd c = Some (true, c')
       /\ mDescriptorSets c !! requiredKey c = Some e
       /\ mDescriptorSets c' !! requiredKey c = Some e'
       /\ lastUsed e' = mCurrentTime c
       /\ handles e' = handles e
       /\ pipelineLayout e' = pipelineLayout e
       /\ id e' = id e
       /\ (forall k, k <> requiredKey c ->
           mDescriptorSets c' !! k = mDescriptorSets c !! k)
       /\ size (mDescriptorSets c') = size (mDescriptorSets c)
       /\ mDevice c' = mDevice c
       /\ newCalls c c' = []
       /\ sameButDescriptorSets c c')
  /\ (mDescriptorSets c = ∅ ->
      (forall b c',
         bindDescriptors cmd c = Some (b, c') ->
         b = creates c
         /\ mDescriptorCacheEntryCount c'
            = wrap32 (mDescriptorCacheEntryCount c + 1)
         /\ (b = true ->
             exists e l pre,
               mDescriptorSets c' = {[ requiredKey c := e ]}
               /\ id e = mDescriptorCacheEntryCount c
               /\ lastUsed e = mCurrentTime c
               /\ newCalls c c'
                  = pre ++ [CmdBindDescriptorSets cmd l (handles e)]
               /\ countCalls isUpdateDescriptorSets pre = 1%nat
               /\ countCalls isCmdBindDescriptorSets pre = 0%nat))
      /\ (layoutsBalanced c ->
          exists b c', bindDescriptors cmd c = Some (b, c'))).
Proof.
  intros Heq. split.
  - intros Hne Hk.
    assert (Hab : alreadyBound c = true).
    { unfold alreadyBound. rewrite Heq. cbn.
      rewrite bool_decide_eq_false_2 by exact Hne. reflexivity. }
    destruct Hk as [Hk | [e He]]; [contradiction|].
    apply DescEqual_bytes in Heq. rewrite Heq in He.
    fold (requiredKey c) in He.
    exists (set_mDescriptorSets
              (<[requiredKey c := set_lastUsed (mCurrentTime c) e]>
                 (mDescriptorSets c)) c),
           e, (set_lastUsed (mCurrentTime c) e).
    split; [rewrite (bindDescriptors_early cmd c Hab), He; reflexivity|].
    split; [exact He|].
    cbn. split; [apply lookup_insert_eq|].
    repeat (split; [reflexivity|]).
    split; [intros k Hk; apply lookup_insert_ne; congruence|].
    split; [apply map_size_insert_Some; rewrite He; eauto|].
    split; [reflexivity|].
    split; [unfold newCalls; cbn; apply drop_all|].
    unfold sameButDescriptorSets. cbn. repeat split; reflexivity.
  - intros Hemp.
    assert (Hmiss : mDescriptorSets c !! requiredKey c = None)
      by (rewrite Hemp; apply lookup_empty).
    assert (Hab : alreadyBound c = false).
    { unfold alreadyBound. rewrite bool_decide_eq_true_2 by exact Hemp.
      apply andb_false_r. }
    split; [|apply (bindDescriptors_miss_defined cmd c Hmiss Hab)].
    intros b c' H.
    destruct (bindDescriptors_miss cmd c c' b Hmiss Hab H) as (Hb & Hn & Ht).
    split; [exact Hb|]. split; [exact Hn|]. intros Hbt.
    destruct (Ht Hbt) as (e & l & pre & Hm & Hi & Hl & _ & Hc & Hu & Hbd).
    exists e, l, pre. rewrite Hemp in Hm.
    assert (Hm' : mDescriptorSets c' = {[ requiredKey c := e ]}).
    { rewrite Hm. destruct (grows c); apply insert_empty. }
    repeat (split; [assumption|]). assumption.
Qed.

Lemma early_return_when_bound_witness :
  (exists c' e',
     bindDescriptors 7 boundCache = Some (true, c')
     /\ mDescriptorSets boundCache !! requiredKey boundCache
        = Some firstEntry
     /\ lastUsed firstEntry = 0
     /\ mCurrentTime boundCache = 3
     /\ mDescriptorSets c' !! requiredKey boundCache = Some e'
     /\ lastUsed e' = 3
     /\ handles e' = [5; 6; 7]
     /\ newCalls boundCache c' = [])
  /\ mDescriptorSets freshCache = ∅
  /\ DescEqual (mBoundDescriptor freshCache)
       (mDescriptorRequirements freshCache) = true
  /\ exists c2 e pre l,
       bindDescriptors 7 freshCache = Some (true, c2)
       /\ mDescriptorSets c2 = {[ requiredKey freshCache := e ]}
       /\ id e = 0
       /\ newCalls freshCache c2
          = pre ++ [CmdBindDescriptorSets 7 l (handles e)].
Proof.
  assert (Heq : DescEqual (mBoundDescriptor boundCache)
                  (mDescriptorRequirements boundCache) = true)
    by (vm_compute; reflexivity).
  assert (He : mDescriptorSets boundCache !! requiredKey boundCache
               = Some firstEntry) by (vm_compute; reflexivity).
  assert (Hne : mDescriptorSets boundCache <> ∅).
  { intros H. rewrite H, lookup_empty in He. discriminate He. }
  assert (Hk : boundKeyCached boundCache)
    by (right; exists firstEntry; vm_compute; reflexivity).
  destruct (early_return_when_bound 7 boundCache Heq) as [Hfast _].
  destruct (Hfast Hne Hk)
    as (c' & e & e' & Hb & He0 & He' & Hl & Hh & _ & _ & _ & _ & _ & Hcalls
        & _).
  rewrite He in He0. injection He0 as <-.
  split.
  { exists c', e'. split; [exact Hb|]. split; [exact He|].
    split; [reflexivity|]. split; [reflexivity|]. split; [exact He'|].
    split; [exact Hl|]. split; [exact Hh | exact Hcalls]. }
  assert (Heq' : DescEqual (mBoundDescriptor freshCache)
                   (mDescriptorRequirements freshCache) = true)
    by (vm_compute; reflexivity).
  split; [reflexivity|]. split; [exact Heq'|].
  destruct (early_return_when_bound 7 freshCache Heq') as [_ Hslow].
  destruct (Hslow eq_refl) as [Hcreate _].
  assert (Hd : defined (bindDescriptors 7) freshCache = true)
    by (vm_compute; reflexivity).
  assert (Hr : result false (bindDescriptors 7) freshCache = true)
    by (vm_compute; reflexivity).
  pose proof (run_defined false _ _ Hd) as Hrun. rewrite Hr in Hrun.
  destruct (Hcreate _ _ Hrun) as (_ & _ & Ht).
  destruct (Ht eq_refl) as (e & l & pre & Hm & Hi & _ & Hc & _).
  exists (exec (bindDescriptors 7) freshCache), e, pre, l.
  split; [exact Hrun|]. split; [exact Hm|]. split; [exact Hi | exact Hc].
Defined.

(** ** A bind that fails *)

(** C3, as the code has it. When the sets have to come from the pool and
    the device refuses the allocation, [createDescriptorSets] returns null,
    and a [bindDescriptors] that had to create answers [false].  No entry
    was put into [mDescriptorSets]: what the map holds afterwards it held
    before, time stamp included, and it is exactly as before unless the
    pool was grown first, which moved every entry to the extinct bundles.
    The bound key, the resource managers and the contents of the
    descriptor sets are as before, and no update or bind call was made: the
    refused allocation is the last call.  The id counter has moved on, and
    [mPipelineLayouts] holds the entry of the required layout, the other
    layouts being as before when the pool was not grown.  [bindDescriptors]
    answers [false] in no other way. *)
Theorem failed_bind_keeps_descriptors (cmd : VkCommandBuffer) (c : Cache) :
  (arena 0 (theLayout c) = [] ->
   allocationSucceeds (mDevice c) = false ->
   exists c',
     createDescriptorSets c = Some (None, c')
     /\ (mDescriptorSets c !! requiredKey c = None ->
         alreadyBound c = false ->
         bindDescriptors cmd c = Some (false, c'))
     /\ mDescriptorSets c'
        = (if poolWouldOverflow c then ∅ else mDescriptorSets c)
     /\ (forall k e, mDescriptorSets c' !! k = Some e ->
         mDescriptorSets c !! k = Some e)
     /\ mExtinctDescriptorBundles c'
        = (if poolWouldOverflow c
           then mExtinctDescriptorBundles c
                ++ (map_to_list (mDescriptorSets c)).*2
           else mExtinctDescriptorBundles c)
     /\ mBoundDescriptor c' = mBoundDescriptor c
     /\ mDescriptorResources c' = mDescriptorResources c
     /\ descriptors (mDevice c') = descriptors (mDevice c)
     /\ mDescriptorCacheEntryCount c'
        = wrap32 (mDescriptorCacheEntryCount c + 1)
     /\ is_Some (mPipelineLayouts c' !! requiredLayout c)
     /\ (poolWouldOverflow c = false ->
         forall l, l <> requiredLayout c ->
         mPipelineLayouts c' !! l = mPipelineLayouts c !! l)
     /\ (exists pre pool ls error,
           newCalls c c' = pre ++ [AllocateDescriptorSets pool ls error]
           /\ error <> VK_SUCCESS
           /\ countCalls isAllocateDescriptorSets pre = 0%nat
           /\ countCalls isUpdateDescriptorSets pre = 0%nat
           /\ countCalls isCmdBindDescriptorSets pre = 0%nat))
  /\ (forall c',
        bindDescriptors cmd c = Some (false, c') ->
        arena 0 (theLayout c) = []
        /\ allocationSucceeds (mDevice c) = false
        /\ mDescriptorSets c !! requiredKey c = None
        /\ createDescriptorSets c = Some (None, c')).
Proof.
  split.
  - intros Ha Hfail.
    pose proof (createDescriptorSets_fresh c Ha) as Hc. cbv zeta in Hc.
    rewrite allocationSucceeds_counted, Hfail in Hc.
    eexists. split; [exact Hc|].
    assert (Hg : grows c = poolWouldOverflow c)
      by (unfold grows; rewrite Ha; reflexivity).
    destruct (createDescriptorSets_summary c _ None Hc)
      as (Hn & Hx & Hres & Hb & _ & _ & _ & _ & Hm & _).
    rewrite Hg in Hx, Hm.
    split.
    { intros Hmiss Hab.
      rewrite (bindDescriptors_late cmd c Hab),
        (lookupOrCreate_miss cmd c Hmiss).
      unfold bind at 1. rewrite Hc. reflexivity. }
    split; [exact Hm|]. split.
    { intros k e. rewrite Hm. destruct (poolWouldOverflow c); [|tauto].
      rewrite lookup_empty. discriminate. }
    split; [exact Hx|]. split; [exact Hb|]. split; [exact Hres|].
    destruct (counted_frame c)
      as (_ & _ & _ & _ & _ & _ & _ & _ & _ & _ & _ & _ & Hr & Hd & _ & Hl
          & _).
    destruct (afterGrowth_frame (counted c))
      as (_ & _ & _ & _ & _ & _ & _ & _ & Hr' & Hd' & _).
    split; [cbn; rewrite Hd', Hd; reflexivity|].
    split; [exact Hn|]. split.
    { destruct (afterGrowth_layouts (counted c) _ _ (counted_layout c))
        as (e' & He' & _). cbn. rewrite He'. eauto. }
    split.
    { intros Hov l Hne. cbn.
      rewrite afterGrowth_id by (rewrite poolWouldOverflow_counted; exact Hov).
      rewrite Hl. apply getOrCreatePipelineLayout_others. exact Hne. }
    pose proof (createDescriptorSets_calls_fresh c _ None Ha Hc) as Hcalls.
    cbv zeta in Hcalls. rewrite Hfail, app_nil_r, app_assoc in Hcalls.
    eexists _, _, _, _. split; [exact Hcalls|]. split.
    { unfold allocationSucceeds in Hfail.
      destruct (hd VK_SUCCESS (allocResults (mDevice c)));
        [discriminate Hfail | discriminate..]. }
    rewrite !countCalls_app, !layoutCalls_count, !growthCalls_count
      by reflexivity.
    repeat split; reflexivity.
  - intros c' H. destruct (bindDescriptors_false cmd c c' H) as (_ & Hmiss & Hc).
    destruct (createDescriptorSets_summary c c' None Hc)
      as (_ & _ & _ & _ & _ & _ & _ & _ & _ & Ha & Hfail).
    auto.
Qed.

Lemma failed_bind_keeps_descriptors_witness :
  let c := refusedCache in
  arena 0 (theLayout c) = []
  /\ allocationSucceeds (mDevice c) = false
  /\ exists c',
       createDescriptorSets c = Some (None, c')
       /\ bindDescriptors 7 c = Some (false, c')
       /\ mDescriptorSets c' = mDescriptorSets c
       /\ mBoundDescriptor c' = mBoundDescriptor c
       /\ mDescriptorResources c' = mDescriptorResources c
       /\ mDescriptorCacheEntryCount c = 0
       /\ mDescriptorCacheEntryCount c' = 1.
Proof.
  intros c.
  assert (Ha : arena 0 (theLayout c) = []) by (vm_compute; reflexivity).
  assert (Hfail : allocationSucceeds (mDevice c) = false)
    by (vm_compute; reflexivity).
  split; [exact Ha|]. split; [exact Hfail|].
  destruct (failed_bind_keeps_descriptors 7 c) as [Hfwd _].
  destruct (Hfwd Ha Hfail)
    as (c' & Hc & Hbind & Hm & _ & _ & Hb & Hres & _ & Hn & _).
  exists c'. split; [exact Hc|].
  split; [apply Hbind; vm_compute; reflexivity|].
  split; [rewrite Hm; vm_compute; reflexivity|].
  split; [exact Hb|]. split; [exact Hres|]. split; [reflexivity|].
  rewrite Hn. vm_compute. reflexivity.
Defined.

(** C3 as stated does not hold: a bind that fails on a new cache has put
    the entry of the required layout into [mPipelineLayouts], and a bind
    that fails after the pool was grown has moved the active entry out of
    [mDescriptorSets]. *)
Lemma failed_bind_changes_maps :
  (bindDescriptors 7 refusedCache
   = Some (false, exec (bindDescriptors 7) refusedCache)
   /\ mPipelineLayouts (exec (bindDescriptors 7) refusedCache)
      <> mPipelineLayouts refusedCache)
  /\ (bindDescriptors 7 fullCache
      = Some (false, exec (bindDescriptors 7) fullCache)
      /\ mDescriptorSets fullCache !! DescriptorKey_bytes otherKey
         = Some otherEntry
      /\ mDescriptorSets (exec (bindDescriptors 7) fullCache)
           !! DescriptorKey_bytes otherKey = None
      /\ mDescriptorSets (exec (bindDescriptors 7) fullCache)
         <> mDescriptorSets fullCache).
Proof.
  assert (Hrun : forall c,
            defined (bindDescriptors 7) c = true ->
            result true (bindDescriptors 7) c = false ->
            bindDescriptors 7 c = Some (false, exec (bindDescriptors 7) c)).
  { intros c Hd Hr. rewrite <- Hr. apply run_defined. exact Hd. }
  split; (split; [apply Hrun; vm_compute; reflexivity|]).
  - intros Heq.
    assert (H1 : is_Some (mPipelineLayouts
                            (exec (bindDescriptors 7) refusedCache) !! 0))
      by (vm_compute; eauto).
    rewrite Heq in H1. destruct H1 as [e H1]. vm_compute in H1.
    discriminate H1.
  - assert (H0 : mDescriptorSets fullCache !! DescriptorKey_bytes otherKey
                 = Some otherEntry) by (vm_compute; reflexivity).
    assert (H1 : mDescriptorSets (exec (bindDescriptors 7) fullCache)
                   !! DescriptorKey_bytes otherKey = None)
      by (vm_compute; reflexivity).
    split; [exact H0|]. split; [exact H1|].
    intros Heq. rewrite Heq, H0 in H1. discriminate H1.
Qed.

(** ** Entry ids *)

(** The ids after a creation: those before, and the counter's value when an
    entry was added for a key the cache did not hold. *)
Lemma createDescriptorSets_ids (c c' : Cache) (r : option (list Z)) :
  createDescriptorSets c = Some (r, c') ->
  (r = None -> entryIds c' ≡ₚ entryIds c)
  /\ (r <> None -> mDescriptorSets c !! requiredKey c = None ->
      entryIds c' ≡ₚ mDescriptorCacheEntryCount c :: entryIds c).
Proof.
  intros H.
  destruct (createDescriptorSets_summary c c' r H)
    as (_ & Hx & _ & _ & _ & _ & _ & _ & Hr).
  assert (Hbase :
    (id <$> (map_to_list (if grows c then ∅ else mDescriptorSets c)).*2)
    ++ (id <$> mExtinctDescriptorBundles c') ≡ₚ entryIds c).
  { rewrite Hx. unfold entryIds. destruct (grows c); [|reflexivity].
    rewrite map_to_list_empty, fmap_app. cbn. apply Permutation_app_comm. }
  split.
  - intros ->. destruct Hr as (Hm & _). unfold entryIds at 1.
    rewrite Hm. exact Hbase.
  - intros Hsome Hmiss. destruct r as [p|]; [|congruence].
    destruct Hr as (_ & hs & Hm).
    assert (Hm1 : (if grows c then ∅ else mDescriptorSets c)
                  !! requiredKey c = None)
      by (destruct (grows c); [apply lookup_empty | exact Hmiss]).
    unfold emplace in Hm. rewrite Hm1 in Hm. unfold entryIds at 1.
    rewrite Hm, (map_to_list_insert _ _ _ Hm1). cbn.
    rewrite Hbase. reflexivity.
Qed.

(** C10. A call of [createDescriptorSets] that returns has moved
    [mDescriptorCacheEntryCount] on by one, whether it returns an entry or
    null after a refused allocation.  When it got its sets, for a key the
    cache did not hold, the entry stored under the key carries the value
    the counter had, and that value is the one id added to the ids in use
    (those of the active entries and of the extinct bundles); a call that
    returns null adds none.  Where the counter does not wrap the ids stay
    pairwise distinct and below the counter, so the id the next call gives
    out is in use nowhere.  From balanced arenas the call returns. *)
Theorem entry_ids_are_fresh (c : Cache) :
  0 <= mDescriptorCacheEntryCount c ->
  mDescriptorCacheEntryCount c + 1 < 2 ^ 32 ->
  (forall r c',
     createDescriptorSets c = Some (r, c') ->
     mDescriptorCacheEntryCount c' = mDescriptorCacheEntryCount c + 1
     /\ r = (if creates c then Some (requiredKey c) else None)
     /\ (creates c = true ->
         mDescriptorSets c !! requiredKey c = None ->
         exists e,
           mDescriptorSets c' !! requiredKey c = Some e
           /\ id e = mDescriptorCacheEntryCount c
           /\ entryIds c' ≡ₚ mDescriptorCacheEntryCount c :: entryIds c)
     /\ (creates c = false -> entryIds c' ≡ₚ entryIds c)
     /\ (idsBelowCounter c ->
         idsBelowCounter c'
         /\ mDescriptorCacheEntryCount c' ∉ entryIds c'))
  /\ (layoutsBalanced c ->
      exists r c', createDescriptorSets c = Some (r, c')).
Proof.
  intros H0 Hw. split.
  - intros r c' H.
    destruct (createDescriptorSets_summary c c' r H) as (Hn & _).
    assert (Hn' : mDescriptorCacheEntryCount c'
                  = mDescriptorCacheEntryCount c + 1).
    { rewrite Hn. unfold wrap32. apply Z.mod_small. lia. }
    pose proof (createDescriptorSets_result c c' r H) as Hr.
    destruct (createDescriptorSets_ids c c' r H) as (Hnone & Hsome).
    split; [exact Hn'|]. split; [exact Hr|]. split; [|split].
    + intros Hcr Hmiss. rewrite Hcr in Hr. subst r.
      destruct (createDescriptorSets_entry c c' _ Hmiss H)
        as (_ & hs & He & _).
      exists (set_handles hs (newEntry c)).
      split; [exact He|]. split; [reflexivity|].
      apply Hsome; [discriminate | exact Hmiss].
    + intros Hcr. rewrite Hcr in Hr. apply Hnone. exact Hr.
    + intros [Hnd Hlt].
      assert (Hinv : idsBelowCounter c').
      { unfold idsBelowCounter. rewrite Hn'.
        destruct (createDescriptorSets_entryIds c c' r H) as [Hp | Hp];
          rewrite Hp.
        - split; [exact Hnd|]. eapply Forall_impl; [exact Hlt|].
          cbn. intros; lia.
        - split.
          + constructor; [|exact Hnd]. intros Hin.
            rewrite Forall_forall in Hlt. apply Hlt in Hin. lia.
          + constructor; [lia|]. eapply Forall_impl; [exact Hlt|].
            cbn. intros; lia. }
      split; [exact Hinv|]. intros Hin. destruct Hinv as [_ Hlt'].
      rewrite Forall_forall in Hlt'. apply Hlt' in Hin. lia.
  - intros Hb. destruct (createDescriptorSets_keeps_balance c Hb)
      as (r & c' & Hc & _). eauto.
Qed.

Lemma entry_ids_are_fresh_witness :
  let c := set_mDescriptorRequirements drawKey boundCache in
  let c1 := exec createDescriptorSets refusedCache in
  (entryIds c = [0]
   /\ mDescriptorCacheEntryCount c = 1
   /\ exists c' e,
        createDescriptorSets c = Some (Some (requiredKey c), c')
        /\ mDescriptorSets c' !! requiredKey c = Some e
        /\ id e = 1
        /\ entryIds c' ≡ₚ [1; 0]
        /\ mDescriptorCacheEntryCount c' = 2
        /\ idsBelowCounter c')
  /\ (createDescriptorSets refusedCache = Some (None, c1)
      /\ mDescriptorCacheEntryCount refusedCache = 0
      /\ mDescriptorCacheEntryCount c1 = 1
      /\ exists c2 e,
           createDescriptorSets c1 = Some (Some (requiredKey c1), c2)
           /\ mDescriptorSets c2 !! requiredKey c1 = Some e
           /\ id e = 1).
Proof.
  intros c c1.
  assert (Hrun : forall c0 r,
            defined createDescriptorSets c0 = true ->
            result None createDescriptorSets c0 = r ->
            createDescriptorSets c0
            = Some (r, exec createDescriptorSets c0)).
  { intros c0 r Hd <-. apply run_defined. exact Hd. }
  split; [|split].
  - assert (Hc : createDescriptorSets c
                 = Some (Some (requiredKey c), exec createDescriptorSets c))
      by (apply Hrun; vm_compute; reflexivity).
    destruct (entry_ids_are_fresh c) as [Hall _];
      [vm_compute; discriminate | vm_compute; reflexivity |].
    destruct (Hall _ _ Hc) as (Hn & _ & Hnew & _ & Hinv).
    destruct Hnew as (e & He & Hi & Hp);
      [vm_compute; reflexivity | vm_compute; reflexivity |].
    assert (Hids : entryIds c = [0]) by (vm_compute; reflexivity).
    split; [exact Hids|]. split; [reflexivity|].
    exists (exec createDescriptorSets c), e.
    split; [exact Hc|]. split; [exact He|]. split; [exact Hi|].
    split; [exact Hp|]. split; [exact Hn|].
    apply Hinv. unfold idsBelowCounter. rewrite Hids.
    split; [apply NoDup_singleton|].
    constructor; [vm_compute; split; [discriminate | reflexivity]
                 | constructor].
  - apply Hrun; vm_compute; reflexivity.
  - assert (Hc1 : createDescriptorSets c1
                  = Some (Some (requiredKey c1), exec createDescriptorSets c1))
      by (apply Hrun; vm_compute; reflexivity).
    destruct (entry_ids_are_fresh c1) as [Hall _];
      [vm_compute; discriminate | vm_compute; reflexivity |].
    destruct (Hall _ _ Hc1) as (_ & _ & Hnew & _).
    destruct Hnew as (e & He & Hi & _);
      [vm_compute; reflexivity | vm_compute; reflexivity |].
    split; [reflexivity|]. split; [vm_compute; reflexivity|].
    exists (exec createDescriptorSets c1), e.
    split; [exact Hc1|]. split; [exact He | exact Hi].
Defined.

(** ** Binding a key the cache holds *)

(** Handing over the resources leaves the pipeline layouts and the handles
    of the device alone. *)
Lemma acquiredCache_layout (c : Cache) (p : list Z)
    (e : DescriptorCacheEntry) :
  layoutCalls (acquiredCache c p e) = layoutCalls c
  /\ theLayout (acquiredCache c p e) = theLayout c
  /\ mPipelineLayouts (exec getOrCreatePipelineLayout (acquiredCache c p e))
     = mPipelineLayouts (exec getOrCreatePipelineLayout c).
Proof.
  unfold acquiredCache, layoutCalls, theLayout, exec,
    getOrCreatePipelineLayout, requiredLayout. unfold_M.
  destruct (mDescriptorResources c !! id e); cbn;
    destruct (mPipelineLayouts c !! layout (mPipelineRequirements c));
    repeat split; reflexivity.
Qed.

(** The layouts [getOrCreatePipelineLayout] leaves: the entry of the
    required layout with the current time when there is one, a new entry
    with empty arenas otherwise. *)
Lemma getOrCreatePipelineLayout_layouts (c : Cache) :
  mPipelineLayouts (exec getOrCreatePipelineLayout c)
  = <[requiredLayout c := theLayout c]> (mPipelineLayouts c)
  /\ match mPipelineLayouts c !! requiredLayout c with
     | Some le => theLayout c = set_layout_lastUsed (mCurrentTime c) le
     | None =>
         descriptorSetArenas (theLayout c) = repeat [] DESCRIPTOR_TYPE_COUNT
     end.
Proof.
  unfold theLayout, exec, getOrCreatePipelineLayout, requiredLayout.
  unfold_M.
  destruct (mPipelineLayouts c !! layout (mPipelineRequirements c)) eqn:E;
    cbn; rewrite lookup_insert_eq; split; reflexivity.
Qed.

(** X3. When the cache holds the required key, [bindDescriptors] succeeds
    and makes no descriptor set: the entry keeps its sets, layout and id
    and gets the current time, no entry is added, the id counter, the pool
    and the arenas stay, the content of no descriptor set changes, and
    nothing is allocated, updated or grown.  If the key was bound already
    nothing else changes and the device receives no call.  Otherwise the
    bound key becomes the required key, the pipeline-bound resources go to
    the manager of the entry's id (made first when there is none), the
    pipeline layout is fetched, which creates its objects when the cache
    has not seen the required layout, and the sets are bound with one
    call, the last. *)
Theorem cached_key_binds_without_creation (cmd : VkCommandBuffer)
    (c : Cache) (e : DescriptorCacheEntry) :
  mDescriptorSets c !! requiredKey c = Some e ->
  exists c' e',
    bindDescriptors cmd c = Some (true, c')
    /\ mDescriptorSets c' = <[requiredKey c := e']> (mDescriptorSets c)
    /\ lastUsed e' = mCurrentTime c
    /\ handles e' = handles e
    /\ pipelineLayout e' = pipelineLayout e
    /\ id e' = id e
    /\ size (mDescriptorSets c') = size (mDescriptorSets c)
    /\ mDescriptorCacheEntryCount c' = mDescriptorCacheEntryCount c
    /\ mDescriptorPool c' = mDescriptorPool c
    /\ mDescriptorPoolSize c' = mDescriptorPoolSize c
    /\ mDescriptorArenasCount c' = mDescriptorArenasCount c
    /\ mExtinctDescriptorBundles c' = mExtinctDescriptorBundles c
    /\ descriptors (mDevice c') = descriptors (mDevice c)
    /\ countCalls isAllocateDescriptorSets (newCalls c c') = 0%nat
    /\ countCalls isUpdateDescriptorSets (newCalls c c') = 0%nat
    /\ countCalls isGrowDescriptorPool (newCalls c c') = 0%nat
    /\ countCalls isCreateDescriptorPool (newCalls c c') = 0%nat
    /\ (alreadyBound c = true ->
        sameButDescriptorSets c c' /\ mDevice c' = mDevice c)
    /\ (alreadyBound c = false ->
        mBoundDescriptor c' = mDescriptorRequirements c
        /\ mDescriptorResources c'
           = <[id e := acquired c (id e)]> (mDescriptorResources c)
        /\ mPipelineBoundResources c ⊆ acquired c (id e)
        /\ exists le',
             mPipelineLayouts c'
             = <[requiredLayout c := le']> (mPipelineLayouts c)
             /\ match mPipelineLayouts c !! requiredLayout c with
                | Some le => le' = set_layout_lastUsed (mCurrentTime c) le
                | None =>
                    descriptorSetArenas le'
                    = repeat [] DESCRIPTOR_TYPE_COUNT
                end
             /\ newCalls c c'
                = acquireCalls c (id e) ++ layoutCalls c
                  ++ [CmdBindDescriptorSets cmd (layout_handle le')
                        (handles e)]).
Proof.
  intros He. exists (exec (bindDescriptors cmd) c),
    (set_lastUsed (mCurrentTime c) e).
  destruct (alreadyBound c) eqn:Hab.
  - assert (Hrun : bindDescriptors cmd c
                   = Some (true,
                           set_mDescriptorSets
                             (<[requiredKey c :=
                                  set_lastUsed (mCurrentTime c) e]>
                                (mDescriptorSets c)) c))
      by (rewrite (bindDescriptors_early cmd c Hab), He; reflexivity).
    unfold exec. rewrite Hrun. split; [reflexivity|]. cbn.
    rewrite newCalls_same_device by reflexivity.
    repeat (split; [reflexivity|]).
    split; [apply map_size_insert_Some; rewrite He; eauto|].
    repeat (split; [reflexivity|]).
    split; [|discriminate]. intros _.
    unfold sameButDescriptorSets. cbn. repeat split; reflexivity.
  - pose proof (bindCacheEntry_run cmd c _ e He) as Hrun. cbv zeta in Hrun.
    assert (Hrun' : bindDescriptors cmd c
                    = bindCacheEntry cmd (Some (requiredKey c)) c)
      by (rewrite (bindDescriptors_late cmd c Hab),
            (lookupOrCreate_hit cmd c e He); reflexivity).
    unfold exec. rewrite Hrun'.
    destruct (bindCacheEntry_frame cmd c _ _ e true He Hrun)
      as (_ & Hm & Hbd & _ & _ & _ & Hn & Hs & Ha & Hp & _ & Hx & _ & Hd
          & Hl & Hc).
    destruct (bindCacheEntry_acquires cmd c _ _ e true He Hrun)
      as (_ & _ & Hres & Hoth & _).
    destruct (acquiredCache_layout c (requiredKey c) e) as (Hlc & Htl & Hll).
    destruct (getOrCreatePipelineLayout_layouts c) as (Hins & Hle).
    rewrite Hrun. split; [reflexivity|].
    split; [exact Hm|].
    repeat (split; [reflexivity|]).
    split; [rewrite Hm; apply map_size_insert_Some; rewrite He; eauto|].
    repeat (split; [assumption|]).
    rewrite Hc, !countCalls_app.
    rewrite !acquireCalls_count, !layoutCalls_count by reflexivity.
    repeat (split; [reflexivity|]).
    split; [discriminate|]. intros _.
    split; [exact Hbd|]. split.
    { apply map_eq. intros i. destruct (decide (i = id e)) as [->|Hi].
      - rewrite lookup_insert_eq. exact Hres.
      - rewrite lookup_insert_ne by congruence. apply Hoth. exact Hi. }
    split; [apply acquired_holds_bound|].
    exists (theLayout c). split; [rewrite Hl, Hll; exact Hins|].
    split; [exact Hle|]. rewrite Hlc, Htl. reflexivity.
Qed.

Lemma cached_key_binds_without_creation_witness :
  mDescriptorSets relayoutCache !! requiredKey relayoutCache
  = Some firstEntry
  /\ lastUsed firstEntry = 0
  /\ alreadyBound relayoutCache = false
  /\ mPipelineLayouts relayoutCache !! requiredLayout relayoutCache = None
  /\ exists c' e' l,
       bindDescriptors 7 relayoutCache = Some (true, c')
       /\ mDescriptorSets c' !! requiredKey relayoutCache = Some e'
       /\ lastUsed e' = 3
       /\ mDescriptorCacheEntryCount c' = 1
       /\ newCalls relayoutCache c'
          = [AcquireAll 0; CreateDescriptorSetLayout 8;
             CreateDescriptorSetLayout 9; CreateDescriptorSetLayout 10;
             CreatePipelineLayout 11]
            ++ [CmdBindDescriptorSets 7 l [5; 6; 7]].
Proof.
  assert (He : mDescriptorSets relayoutCache !! requiredKey relayoutCache
               = Some firstEntry) by (vm_compute; reflexivity).
  assert (Hab : alreadyBound relayoutCache = false)
    by (vm_compute; reflexivity).
  split; [exact He|]. split; [reflexivity|]. split; [exact Hab|].
  split; [vm_compute; reflexivity|].
  destruct (cached_key_binds_without_creation 7 relayoutCache firstEntry He)
    as (c' & e' & Hrun & Hm & Hl & _ & _ & _ & _ & Hn & _ & _ & _ & _ & _ & _
        & _ & _ & _ & _ & Hlate).
  destruct (Hlate Hab) as (_ & _ & _ & le' & _ & _ & Hc).
  exists c', e', (layout_handle le').
  split; [exact Hrun|].
  split; [rewrite Hm; apply lookup_insert_eq|].
  split; [exact Hl|]. split; [exact Hn | exact Hc].
Defined.

(** ** What the sets hold after the update *)

(** The last write addressed to a binding is what the binding holds; with
    one write addressed to it, that write. *)
Lemma applyWrites_written (writes : list VkWriteDescriptorSet)
    (m : gmap (Z * Z) VkWriteDescriptorSet) (w : VkWriteDescriptorSet) :
  w ∈ writes ->
  (forall w', w' ∈ writes ->
     (dstSet w', dstBinding w') = (dstSet w, dstBinding w) -> w' = w) ->
  fold_left applyWrite writes m !! (dstSet w, dstBinding w) = Some w.
Proof.
  induction writes as [|wl ws IH] using rev_ind; intros Hin Huniq.
  - apply elem_of_nil in Hin. destruct Hin.
  - rewrite fold_left_app. cbn. unfold applyWrite at 1.
    destruct (decide ((dstSet wl, dstBinding wl) = (dstSet w, dstBinding w)))
      as [Heq|Hne].
    + rewrite Heq, lookup_insert_eq. f_equal. apply Huniq; [|exact Heq].
      apply elem_of_app. right. apply list_elem_of_singleton. reflexivity.
    + rewrite lookup_insert_ne by exact Hne. apply IH.
      * apply elem_of_app in Hin as [Hin|Hin]; [exact Hin|].
        apply list_elem_of_singleton in Hin. subst wl. congruence.
      * intros w' Hw'. apply Huniq. apply elem_of_app. left. exact Hw'.
Qed.

Lemma elem_of_uniformWrites (req : DescriptorKey)
    (dummy : VkWriteDescriptorSet) (hs : list VkDescriptorSet)
    (w : VkWriteDescriptorSet) :
  w ∈ uniformWrites req dummy hs ->
  exists b, (b < UBUFFER_BINDING_COUNT)%nat
    /\ w = uniformWrite req dummy (nth 0 hs 0) b.
Proof.
  intros Hw. unfold uniformWrites in Hw.
  apply list_elem_of_In, in_map_iff in Hw as (b & <- & Hb).
  apply in_seq in Hb. exists b. split; [lia | reflexivity].
Qed.

Lemma elem_of_samplerWrites (req : DescriptorKey)
    (hs : list VkDescriptorSet) (w : VkWriteDescriptorSet) :
  w ∈ samplerWrites req hs ->
  exists b, (b < SAMPLER_BINDING_COUNT)%nat
    /\ sampler (nth b (samplers req) zeroImageInfo) <> 0
    /\ w = imageWrite VK_DESCRIPTOR_TYPE_COMBINED_IMAGE_SAMPLER
             (nth b (samplers req) zeroImageInfo) (nth 1 hs 0) b.
Proof.
  intros Hw. unfold samplerWrites in Hw.
  apply list_elem_of_In, in_flat_map in Hw as (b & Hb & Hw).
  apply in_seq in Hb.
  destruct (Z.eqb_spec (sampler (nth b (samplers req) zeroImageInfo)) 0)
    as [|Hne]; [destruct Hw|]. destruct Hw as [<-|[]].
  exists b. split; [lia|]. split; [exact Hne | reflexivity].
Qed.

Lemma elem_of_inputAttachmentWrites (req : DescriptorKey)
    (hs : list VkDescriptorSet) (w : VkWriteDescriptorSet) :
  w ∈ inputAttachmentWrites req hs ->
  exists b, (b < INPUT_ATTACHMENT_COUNT)%nat
    /\ imageView (nth b (inputAttachments req) zeroImageInfo) <> 0
    /\ w = imageWrite VK_DESCRIPTOR_TYPE_INPUT_ATTACHMENT
             (nth b (inputAttachments req) zeroImageInfo) (nth 2 hs 0) b.
Proof.
  intros Hw. unfold inputAttachmentWrites in Hw.
  apply list_elem_of_In, in_flat_map in Hw as (b & Hb & Hw).
  apply in_seq in Hb.
  destruct (Z.eqb_spec
              (imageView (nth b (inputAttachments req) zeroImageInfo)) 0)
    as [|Hne]; [destruct Hw|]. destruct Hw as [<-|[]].
  exists b. split; [lia|]. split; [exact Hne | reflexivity].
Qed.

(** The set and binding every write of the batch is addressed to. *)
Lemma descriptorWrites_address (req : DescriptorKey)
    (dummy : VkWriteDescriptorSet) (hs : list VkDescriptorSet)
    (w : VkWriteDescriptorSet) :
  w ∈ descriptorWrites req dummy hs ->
  (exists b, (b < UBUFFER_BINDING_COUNT)%nat
     /\ w = uniformWrite req dummy (nth 0 hs 0) b
     /\ dstSet w = nth 0 hs 0 /\ dstBinding w = Z.of_nat b)
  \/ (exists b, (b < SAMPLER_BINDING_COUNT)%nat
        /\ sampler (nth b (samplers req) zeroImageInfo) <> 0
        /\ w = imageWrite VK_DESCRIPTOR_TYPE_COMBINED_IMAGE_SAMPLER
                 (nth b (samplers req) zeroImageInfo) (nth 1 hs 0) b
        /\ dstSet w = nth 1 hs 0 /\ dstBinding w = Z.of_nat b)
  \/ (exists b, (b < INPUT_ATTACHMENT_COUNT)%nat
        /\ imageView (nth b (inputAttachments req) zeroImageInfo) <> 0
        /\ w = imageWrite VK_DESCRIPTOR_TYPE_INPUT_ATTACHMENT
                 (nth b (inputAttachments req) zeroImageInfo) (nth 2 hs 0) b
        /\ dstSet w = nth 2 hs 0 /\ dstBinding w = Z.of_nat b).
Proof.
  unfold descriptorWrites. rewrite !elem_of_app. intros [H|[H|H]].
  - left. apply elem_of_uniformWrites in H as (b & Hb & ->).
    exists b. repeat split; assumption.
  - right. left. apply elem_of_samplerWrites in H as (b & Hb & Hs & ->).
    exists b. repeat split; assumption.
  - right. right.
    apply elem_of_inputAttachmentWrites in H as (b & Hb & Hs & ->).
    exists b. repeat split; assumption.
Qed.

(** X23. What the sets of a new entry hold once [createDescriptorSets]
    has returned it, the three sets being different sets: every
    uniform-buffer binding of the first set holds the write of its slot,
    the bound buffer with offset and range or the dummy write; a sampler
    binding of the second set and an input-attachment binding of the third
    hold the image of their slot when the slot is active, and when it is
    not they hold what they held before the call, for no write is
    addressed to them. *)
Theorem slots_after_update (c c' : Cache) (p : list Z) :
  createDescriptorSets c = Some (Some p, c') ->
  mDescriptorSets c !! requiredKey c = None ->
  exists e,
    let req := mDescriptorRequirements c in
    let before := descriptors (mDevice c) in
    let after := descriptors (mDevice c') in
    let set0 := nth 0 (handles e) 0 in
    let set1 := nth 1 (handles e) 0 in
    let set2 := nth 2 (handles e) 0 in
    mDescriptorSets c' !! p = Some e
    /\ (set0 <> set1 -> set0 <> set2 -> set1 <> set2 ->
        (forall b, (b < UBUFFER_BINDING_COUNT)%nat ->
         exists w,
           after !! (set0, Z.of_nat b) = Some w
           /\ dstSet w = set0
           /\ dstBinding w = Z.of_nat b
           /\ (nth b (uniformBuffers req) 0 = 0 ->
               w = address set0 (Z.of_nat b) (mDummyBufferWriteInfo c))
           /\ (nth b (uniformBuffers req) 0 <> 0 ->
               descriptorType w = VK_DESCRIPTOR_TYPE_UNIFORM_BUFFER
               /\ pBufferInfo w
                  = Some {| buffer := nth b (uniformBuffers req) 0;
                            offset := nth b (uniformBufferOffsets req) 0;
                            range :=
                              if nth b (uniformBufferSizes req) 0
                                 =? WHOLE_SIZE
                              then VK_WHOLE_SIZE
                              else nth b (uniformBufferSizes req) 0 |}))
        /\ (forall b, (b < SAMPLER_BINDING_COUNT)%nat ->
            let info := nth b (samplers req) zeroImageInfo in
            after !! (set1, Z.of_nat b)
            = if sampler info =? 0 then before !! (set1, Z.of_nat b)
              else Some {| dstSet := set1; dstBinding := Z.of_nat b;
                           dstArrayElement := 0; descriptorCount := 1;
                           descriptorType :=
                             VK_DESCRIPTOR_TYPE_COMBINED_IMAGE_SAMPLER;
                           pImageInfo :=
                             Some {| vk_sampler := sampler info;
                                     vk_imageView := imageView info;
                                     vk_imageLayout := imageLayout info |};
                           pBufferInfo := None |})
        /\ (forall b, (b < INPUT_ATTACHMENT_COUNT)%nat ->
            let info := nth b (inputAttachments req) zeroImageInfo in
            after !! (set2, Z.of_nat b)
            = if imageView info =? 0 then before !! (set2, Z.of_nat b)
              else Some {| dstSet := set2; dstBinding := Z.of_nat b;
                           dstArrayElement := 0; descriptorCount := 1;
                           descriptorType :=
                             VK_DESCRIPTOR_TYPE_INPUT_ATTACHMENT;
                           pImageInfo :=
                             Some {| vk_sampler := sampler info;
                                     vk_imageView := imageView info;
                                     vk_imageLayout := imageLayout info |};
                           pBufferInfo := None |})).
Proof.
  intros H Hmiss.
  destruct (createDescriptorSets_success c c' p H)
    as (hs & pre & _ & Hm & Hdesc & _).
  destruct (createDescriptorSets_entry c c' p Hmiss H) as (-> & _).
  exists (set_handles hs (newEntry c)). cbv zeta. cbn [handles set_handles].
  split.
  { rewrite Hm. unfold emplace.
    assert (Hm1 : (if grows c then ∅ else mDescriptorSets c)
                  !! requiredKey c = None)
      by (destruct (grows c); [apply lookup_empty | exact Hmiss]).
    rewrite Hm1. apply lookup_insert_eq. }
  intros H01 H02 H12. rewrite Hdesc.
  set (req := mDescriptorRequirements c).
  set (dummy := mDummyBufferWriteInfo c).
  assert (Hb2z : forall a b : nat, Z.of_nat a = Z.of_nat b -> a = b)
    by (intros a b; apply Nat2Z.inj).
  split; [|split].
  - intros b Hb.
    exists (uniformWrite req dummy (nth 0 hs 0) b).
    split.
    { apply (applyWrites_written _ _
               (uniformWrite req dummy (nth 0 hs 0) b)).
      - unfold descriptorWrites. apply elem_of_app. left.
        apply list_elem_of_lookup. exists b.
        apply uniformWrites_lookup. exact Hb.
      - intros w' Hw' Heq. cbn in Heq. injection Heq as Hs Hbd.
        apply descriptorWrites_address in Hw'
          as [(b' & _ & -> & _ & Hb') | [(b' & _ & _ & _ & Hs' & _)
                                        | (b' & _ & _ & _ & Hs' & _)]].
        + cbn in Hbd. apply Hb2z in Hbd. subst b'. reflexivity.
        + congruence.
        + congruence. }
    split; [reflexivity|]. split; [reflexivity|]. split.
    + apply uniformWrite_inactive.
    + intros Hne. destruct (uniformWrite_active req dummy (nth 0 hs 0) b Hne)
        as (Ht & _ & Hbuf). auto.
  - intros b Hb.
    destruct (Z.eqb_spec (sampler (nth b (samplers req) zeroImageInfo)) 0)
      as [Hz|Hnz].
    + apply applyWrites_untouched. intros w Hw Heq.
      injection Heq as Hs Hbd.
      apply descriptorWrites_address in Hw
        as [(b' & _ & _ & Hs' & _) | [(b' & _ & Hact & _ & _ & Hb')
                                     | (b' & _ & _ & _ & Hs' & _)]].
      * congruence.
      * rewrite Hb' in Hbd. apply Hb2z in Hbd. subst b'. contradiction.
      * congruence.
    + apply (applyWrites_written _ _
               (imageWrite VK_DESCRIPTOR_TYPE_COMBINED_IMAGE_SAMPLER
                  (nth b (samplers req) zeroImageInfo) (nth 1 hs 0) b)).
      * unfold descriptorWrites. apply elem_of_app. right.
        apply elem_of_app. left. apply samplerWrites_active; assumption.
      * intros w' Hw' Heq. cbn in Heq. injection Heq as Hs Hbd.
        apply descriptorWrites_address in Hw'
          as [(b' & _ & _ & Hs' & _) | [(b' & _ & _ & -> & _ & Hb')
                                       | (b' & _ & _ & _ & Hs' & _)]].
        -- congruence.
        -- cbn in Hbd. apply Hb2z in Hbd. subst b'. reflexivity.
        -- congruence.
  - intros b Hb.
    destruct (Z.eqb_spec
                (imageView (nth b (inputAttachments req) zeroImageInfo)) 0)
      as [Hz|Hnz].
    + apply applyWrites_untouched. intros w Hw Heq.
      injection Heq as Hs Hbd.
      apply descriptorWrites_address in Hw
        as [(b' & _ & _ & Hs' & _) | [(b' & _ & _ & _ & Hs' & _)
                                     | (b' & _ & Hact & _ & _ & Hb')]].
      * congruence.
      * congruence.
      * rewrite Hb' in Hbd. apply Hb2z in Hbd. subst b'. contradiction.
    + apply (applyWrites_written _ _
               (imageWrite VK_DESCRIPTOR_TYPE_INPUT_ATTACHMENT
                  (nth b (inputAttachments req) zeroImageInfo)
                  (nth 2 hs 0) b)).
      * unfold descriptorWrites. apply elem_of_app. right.
        apply elem_of_app. right.
        apply inputAttachmentWrites_active; assumption.
      * intros w' Hw' Heq. cbn in Heq. injection Heq as Hs Hbd.
        apply descriptorWrites_address in Hw'
          as [(b' & _ & _ & Hs' & _) | [(b' & _ & _ & _ & Hs' & _)
                                       | (b' & _ & _ & -> & _ & Hb')]].
        -- congruence.
        -- congruence.
        -- cbn in Hbd. apply Hb2z in Hbd. subst b'. reflexivity.
Qed.

Lemma slots_after_update_witness :
  let c := staleCache in
  let c' := exec createDescriptorSets c in
  createDescriptorSets c = Some (Some (requiredKey c), c')
  /\ handles <$> mDescriptorSets c' !! requiredKey c = Some [5; 6; 7]
  /\ descriptors (mDevice c') !! (5, 1)
     = Some (address 5 1 exampleDummyWrite)
  /\ descriptors (mDevice c) !! (6, 0) = Some (staleWrite 0)
  /\ descriptors (mDevice c') !! (6, 0) = descriptors (mDevice c) !! (6, 0)
  /\ descriptors (mDevice c') !! (6, 1)
     = Some (imageWrite VK_DESCRIPTOR_TYPE_COMBINED_IMAGE_SAMPLER nextInfo
               6 1).
Proof.
  intros c c'.
  assert (Hd : defined createDescriptorSets c = true)
    by (vm_compute; reflexivity).
  assert (Hr : result None createDescriptorSets c = Some (requiredKey c))
    by (vm_compute; reflexivity).
  pose proof (run_defined None _ _ Hd) as Hrun. rewrite Hr in Hrun.
  fold c' in Hrun.
  assert (Hmiss : mDescriptorSets c !! requiredKey c = None)
    by reflexivity.
  assert (He' : mDescriptorSets c' !! requiredKey c
                = Some {| handles := [5; 6; 7]; lastUsed := 0;
                          pipelineLayout := 0; id := 2 |})
    by (vm_compute; reflexivity).
  assert (Hstale : descriptors (mDevice c) !! (6, 0) = Some (staleWrite 0))
    by (vm_compute; reflexivity).
  clearbody c'.
  destruct (slots_after_update c c' _ Hrun Hmiss) as (e & He & Hslots).
  rewrite He' in He. injection He as <-.
  cbv zeta in Hslots. cbn [handles nth] in Hslots.
  change (mDescriptorRequirements c) with nextKey in Hslots.
  change (mDummyBufferWriteInfo c) with exampleDummyWrite in Hslots.
  destruct Hslots as (Hu & Hs & _); [discriminate..|].
  destruct (Hu 1%nat) as (w & Hw & _ & _ & Hdummy & _);
    [unfold UBUFFER_BINDING_COUNT; lia|].
  rewrite (Hdummy eq_refl) in Hw.
  pose proof (Hs 0%nat ltac:(unfold SAMPLER_BINDING_COUNT; lia)) as Hs0.
  pose proof (Hs 1%nat ltac:(unfold SAMPLER_BINDING_COUNT; lia)) as Hs1.
  change (nth 0 (samplers nextKey) zeroImageInfo) with zeroImageInfo in Hs0.
  change (nth 1 (samplers nextKey) zeroImageInfo) with nextInfo in Hs1.
  split; [exact Hrun|]. split; [rewrite He'; reflexivity|].
  split; [exact Hw|]. split; [exact Hstale|].
  split; [exact Hs0 | exact Hs1].
Defined.

(** ** A slot the update leaves out *)

(** C4 does not hold of the code.  The sets 5, 6 and 7 come back from the
    arenas; set 6 holds the samplers its previous use wrote to bindings 0
    and 1, and the draw that takes the sets has a sampler in slot 1 only.
    The one batched update writes every uniform-buffer binding of set 5,
    the inactive ones with the dummy write, and binding 1 of set 6; no
    write of the batch is addressed to binding 0 of set 6, which holds the
    sampler of the previous use when the entry is stored. *)
Lemma stale_sampler_survives_reuse :
  let c := staleCache in
  let c' := exec createDescriptorSets c in
  let writes := descriptorWrites nextKey exampleDummyWrite [5; 6; 7] in
  createDescriptorSets c = Some (Some (requiredKey c), c')
  /\ arena 0 (theLayout c) = [8; 5]
  /\ handles <$> mDescriptorSets c' !! requiredKey c = Some [5; 6; 7]
  /\ newCalls c c' = [UpdateDescriptorSets writes]
  /\ length writes = 11%nat
  /\ sampler (nth 0 (samplers (mDescriptorRequirements c)) zeroImageInfo) = 0
  /\ existsb (addressedTo 6 0) writes = false
  /\ descriptors (mDevice c) !! (6, 0) = Some (staleWrite 0)
  /\ descriptors (mDevice c') !! (6, 0) = Some (staleWrite 0)
  /\ vk_sampler <$> pImageInfo (staleWrite 0) = Some 800
  /\ nth 1 (uniformBuffers (mDescriptorRequirements c)) 0 = 0
  /\ existsb (addressedTo 5 1) writes = true
  /\ descriptors (mDevice c') !! (5, 1)
     = Some (address 5 1 exampleDummyWrite)
  /\ descriptors (mDevice c') !! (6, 1)
     = Some (imageWrite VK_DESCRIPTOR_TYPE_COMBINED_IMAGE_SAMPLER nextInfo
               6 1).
Proof.
  intros c c' writes.
  assert (Hd : defined createDescriptorSets c = true)
    by (vm_compute; reflexivity).
  assert (Hr : result None createDescriptorSets c = Some (requiredKey c))
    by (vm_compute; reflexivity).
  pose proof (run_defined None _ _ Hd) as Hrun. rewrite Hr in Hrun.
  split; [exact Hrun|].
  repeat (split; [vm_compute; reflexivity|]). vm_compute. reflexivity.
Qed.

(** ** Compact vertex descriptions *)

Lemma mod_id_iff (v m : Z) : 0 < m -> v mod m = v <-> 0 <= v < m.
Proof.
  intros Hm. split.
  - intros <-. apply Z.mod_pos_bound. exact Hm.
  - apply Z.mod_small.
Qed.

(** X9. Storing a [VkVertexInputAttributeDescription] in the compact
    form of the pipeline key and converting it back gives the same
    description exactly when location and binding fit 8 bits and the
    format fits 16 bits, which is what [operator=] asserts; outside these
    bounds the stored description is another one. *)
Theorem attribute_round_trip (that : VkVertexInputAttributeDescription) :
  to_VkVertexInputAttributeDescription
    (VertexInputAttributeDescription_assign that) = that
  <-> attributeFits that.
Proof.
  destruct that as [l b f o].
  unfold to_VkVertexInputAttributeDescription,
    VertexInputAttributeDescription_assign, attributeFits. cbn.
  split.
  - intros [= Hl Hb Hf].
    apply mod_id_iff in Hl, Hb, Hf; lia.
  - intros (Hl & Hb & Hf).
    rewrite !Z.mod_small by lia. reflexivity.
Qed.

Lemma attribute_round_trip_witness :
  to_VkVertexInputAttributeDescription
    (VertexInputAttributeDescription_assign
       {| vk_location := 3; vk_binding := 1; vk_format := 106;
          vk_offset := 24 |})
  = {| vk_location := 3; vk_binding := 1; vk_format := 106; vk_offset := 24 |}
  /\ ~ attributeFits
        {| vk_location := 256; vk_binding := 1; vk_format := 106;
           vk_offset := 24 |}.
Proof.
  split.
  - apply (proj2 (attribute_round_trip _)). unfold attributeFits. cbn. lia.
  - intros H. apply (proj2 (attribute_round_trip _)) in H.
    discriminate H.
Defined.

(** X10. The same for a [VkVertexInputBindingDescription]: the round trip
    through the compact form is exact if and only if the binding and the
    input rate fit 16 bits. *)
Theorem binding_round_trip (that : VkVertexInputBindingDescription) :
  to_VkVertexInputBindingDescription
    (VertexInputBindingDescription_assign that) = that
  <-> bindingFits that.
Proof.
  destruct that as [b s r].
  unfold to_VkVertexInputBindingDescription,
    VertexInputBindingDescription_assign, bindingFits. cbn.
  split.
  - intros [= Hb Hr]. apply mod_id_iff in Hb, Hr; lia.
  - intros (Hb & Hr). rewrite !Z.mod_small by lia. reflexivity.
Qed.

Lemma binding_round_trip_witness :
  to_VkVertexInputBindingDescription
    (VertexInputBindingDescription_assign
       {| vk_vertex_binding := 2; vk_stride := 32; vk_inputRate := 1 |})
  = {| vk_vertex_binding := 2; vk_stride := 32; vk_inputRate := 1 |}.
Proof.
  apply (proj2 (binding_round_trip _)). unfold bindingFits. cbn. lia.
Defined.

(** ** Members of a key at their offsets *)

Lemma le_value_le_bytes (n : nat) (v : Z) :
  le_value (le_bytes n v) = v mod 256 ^ Z.of_nat n.
Proof.
  revert v. induction n as [|n IH]; intros v.
  - cbn. rewrite Z.mod_1_r. reflexivity.
  - cbn [le_bytes le_value]. rewrite IH.
    rewrite Nat2Z.inj_succ, Z.pow_succ_r by lia.
    rewrite Z.rem_mul_r by lia. reflexivity.
Qed.

Lemma field_app_l (off len : nat) (a b : list Z) :
  (off + len <= length a)%nat ->
  field off len (a ++ b) = field off len a.
Proof.
  intros H. unfold field. rewrite drop_app_le by lia.
  apply take_app_le. rewrite length_drop. lia.
Qed.

Lemma field_app_r (off len : nat) (a b : list Z) :
  field (length a + off) len (a ++ b) = field off len b.
Proof. unfold field. rewrite drop_app_add. reflexivity. Qed.

Lemma field_whole (a b : list Z) : field 0 (length a) (a ++ b) = a.
Proof. unfold field. cbn. apply take_app_length. Qed.

Lemma field_all (len : nat) (a : list Z) :
  length a = len -> field 0 len a = a.
Proof. intros <-. unfold field. rewrite drop_0. apply firstn_all. Qed.

Lemma field_flat_map {A : Type} (w : nat) (f : A -> list Z) (d : A)
    (xs : list A) (i : nat) :
  (forall a, length (f a) = w) ->
  (i < length xs)%nat ->
  field (i * w) w (flat_map f xs) = f (nth i xs d).
Proof.
  intros Hf. revert i. induction xs as [|x xs IH]; intros i Hi.
  - cbn in Hi. lia.
  - cbn [flat_map]. destruct i as [|i].
    + cbn [Nat.mul nth]. rewrite <- (Hf x) at 1. apply field_whole.
    + cbn [nth]. replace (S i * w)%nat with (length (f x) + i * w)%nat
        by (rewrite Hf; lia).
      rewrite field_app_r. apply IH. cbn in Hi. lia.
Qed.

(** Element [i] of a C array, read from the bytes of the array. *)
Lemma field_array_bytes {A : Type} (N w : nat) (d : A) (f : A -> list Z)
    (l : list A) (i : nat) :
  (forall a, length (f a) = w) ->
  (i < N)%nat ->
  field (i * w) w (array_bytes N d f l) = f (nth i l d).
Proof.
  intros Hf Hi. unfold array_bytes, c_array.
  rewrite (field_flat_map w f d) by (rewrite ?length_map, ?length_seq; auto).
  f_equal.
  rewrite (nth_indep _ d (nth 0 l d))
    by (rewrite length_map, length_seq; exact Hi).
  rewrite (map_nth (fun i => nth i l d) (seq 0 N) 0%nat).
  rewrite seq_nth by exact Hi. reflexivity.
Qed.

Lemma length_uniformBuffers_bytes (l : list Z) :
  length (array_bytes UBUFFER_BINDING_COUNT 0 (le_bytes 8) l) = 80%nat.
Proof.
  rewrite (length_array_bytes _ 8 _ (le_bytes 8)) by apply length_le_bytes.
  reflexivity.
Qed.

Lemma length_samplers_bytes (l : list DescriptorImageInfo) :
  length (array_bytes SAMPLER_BINDING_COUNT zeroImageInfo imageInfo_bytes l)
  = 1488%nat.
Proof.
  rewrite (length_array_bytes _ 24 _ imageInfo_bytes)
    by apply length_imageInfo_bytes.
  reflexivity.
Qed.

Lemma length_inputAttachments_bytes (l : list DescriptorImageInfo) :
  length (array_bytes INPUT_ATTACHMENT_COUNT zeroImageInfo imageInfo_bytes l)
  = 24%nat.
Proof.
  rewrite (length_array_bytes _ 24 _ imageInfo_bytes)
    by apply length_imageInfo_bytes.
  reflexivity.
Qed.

Lemma length_uniformWords_bytes (l : list Z) :
  length (array_bytes UBUFFER_BINDING_COUNT 0 (le_bytes 4) l) = 40%nat.
Proof.
  rewrite (length_array_bytes _ 4 _ (le_bytes 4)) by apply length_le_bytes.
  reflexivity.
Qed.

(** The five arrays of a [DescriptorKey], each read at the offset the
    header asserts for it. *)
Lemma DescriptorKey_members (k : DescriptorKey) (i : nat) :
  ((i < UBUFFER_BINDING_COUNT)%nat ->
   field (i * 8) 8 (DescriptorKey_bytes k)
   = le_bytes 8 (nth i (uniformBuffers k) 0))
  /\ ((i < SAMPLER_BINDING_COUNT)%nat ->
      field (80 + i * 24) 24 (DescriptorKey_bytes k)
      = imageInfo_bytes (nth i (samplers k) zeroImageInfo))
  /\ ((i < INPUT_ATTACHMENT_COUNT)%nat ->
      field (1568 + i * 24) 24 (DescriptorKey_bytes k)
      = imageInfo_bytes (nth i (inputAttachments k) zeroImageInfo))
  /\ ((i < UBUFFER_BINDING_COUNT)%nat ->
      field (1592 + i * 4) 4 (DescriptorKey_bytes k)
      = le_bytes 4 (nth i (uniformBufferOffsets k) 0))
  /\ ((i < UBUFFER_BINDING_COUNT)%nat ->
      field (1632 + i * 4) 4 (DescriptorKey_bytes k)
      = le_bytes 4 (nth i (uniformBufferSizes k) 0)).
Proof.
  unfold DescriptorKey_bytes.
  pose proof (length_uniformBuffers_bytes (uniformBuffers k)) as L1.
  pose proof (length_samplers_bytes (samplers k)) as L2.
  pose proof (length_inputAttachments_bytes (inputAttachments k)) as L3.
  pose proof (length_uniformWords_bytes (uniformBufferOffsets k)) as L4.
  pose proof (length_uniformWords_bytes (uniformBufferSizes k)) as L5.
  set (A := array_bytes UBUFFER_BINDING_COUNT 0 (le_bytes 8) _) in *.
  set (B := array_bytes SAMPLER_BINDING_COUNT _ _ _) in *.
  set (C := array_bytes INPUT_ATTACHMENT_COUNT _ _ _) in *.
  set (D := array_bytes UBUFFER_BINDING_COUNT 0 (le_bytes 4)
              (uniformBufferOffsets k)) in *.
  set (E := array_bytes UBUFFER_BINDING_COUNT 0 (le_bytes 4)
              (uniformBufferSizes k)) in *.
  unfold UBUFFER_BINDING_COUNT, SAMPLER_BINDING_COUNT,
    INPUT_ATTACHMENT_COUNT in *.
  repeat split; intros Hi.
  - rewrite field_app_l by lia.
    apply field_array_bytes; [apply length_le_bytes | exact Hi].
  - rewrite <- L1 at 1. rewrite field_app_r, field_app_l by lia.
    apply field_array_bytes; [apply length_imageInfo_bytes | exact Hi].
  - replace (1568 + i * 24)%nat
      with (length A + (length B + i * 24))%nat by lia.
    rewrite !field_app_r, field_app_l by lia.
    apply field_array_bytes; [apply length_imageInfo_bytes | exact Hi].
  - replace (1592 + i * 4)%nat
      with (length A + (length B + (length C + i * 4)))%nat by lia.
    rewrite !field_app_r, field_app_l by lia.
    apply field_array_bytes; [apply length_le_bytes | exact Hi].
  - replace (1632 + i * 4)%nat
      with (length A + (length B + (length C + (length D + i * 4))))%nat
      by lia.
    rewrite !field_app_r. rewrite <- (app_nil_r E), field_app_l by lia.
    apply field_array_bytes; [apply length_le_bytes | exact Hi].
Qed.

(** The four members of a [DescriptorImageInfo] in its 24 bytes. *)
Lemma imageInfo_members (i : DescriptorImageInfo) :
  le_value (field 0 8 (imageInfo_bytes i)) = wrap64 (sampler i)
  /\ le_value (field 8 8 (imageInfo_bytes i)) = wrap64 (imageView i)
  /\ le_value (field 16 4 (imageInfo_bytes i)) = wrap32 (imageLayout i)
  /\ le_value (field 20 4 (imageInfo_bytes i)) = wrap32 (padding i).
Proof.
  unfold imageInfo_bytes.
  pose proof (length_le_bytes 8 (sampler i)) as L1.
  pose proof (length_le_bytes 8 (imageView i)) as L2.
  pose proof (length_le_bytes 4 (imageLayout i)) as L3.
  pose proof (length_le_bytes 4 (padding i)) as L4.
  repeat split.
  - rewrite field_app_l by lia. rewrite field_all by assumption.
    apply le_value_le_bytes.
  - change 8%nat with (8 + 0)%nat at 1. rewrite <- L1 at 1.
    rewrite field_app_r, field_app_l by lia. rewrite field_all by assumption.
    apply le_value_le_bytes.
  - replace 16%nat
      with (length (le_bytes 8 (sampler i))
            + (length (le_bytes 8 (imageView i)) + 0))%nat by lia.
    rewrite !field_app_r, field_app_l by lia. rewrite field_all by assumption.
    apply le_value_le_bytes.
  - replace 20%nat
      with (length (le_bytes 8 (sampler i))
            + (length (le_bytes 8 (imageView i))
               + (length (le_bytes 4 (imageLayout i)) + 0)))%nat by lia.
    rewrite !field_app_r. rewrite field_all by assumption.
    apply le_value_le_bytes.
Qed.

(** X11. The object representation of a [DescriptorKey] has every member
    where the header's [static_assert]s put it: the uniform buffers from
    byte 0, the samplers from byte 80, the input attachment at byte 1568,
    the offsets from byte 1592 and the sizes from byte 1632, each element
    read back as the value stored, in its 64 or 32 bits, with the sampler
    handle, the image view, the layout and the padding of a slot at bytes
    0, 8, 16 and 20 of the slot. *)
Theorem descriptor_key_members_at_offsets (k : DescriptorKey) (i : nat) :
  let image := DescriptorKey_bytes k in
  ((i < UBUFFER_BINDING_COUNT)%nat ->
   le_value (field (i * 8) 8 image) = wrap64 (nth i (uniformBuffers k) 0)
   /\ le_value (field (1592 + i * 4) 4 image)
      = wrap32 (nth i (uniformBufferOffsets k) 0)
   /\ le_value (field (1632 + i * 4) 4 image)
      = wrap32 (nth i (uniformBufferSizes k) 0))
  /\ ((i < SAMPLER_BINDING_COUNT)%nat ->
      let slot := field (80 + i * 24) 24 image in
      let info := nth i (samplers k) zeroImageInfo in
      le_value (field 0 8 slot) = wrap64 (sampler info)
      /\ le_value (field 8 8 slot) = wrap64 (imageView info)
      /\ le_value (field 16 4 slot) = wrap32 (imageLayout info)
      /\ le_value (field 20 4 slot) = wrap32 (padding info))
  /\ ((i < INPUT_ATTACHMENT_COUNT)%nat ->
      let slot := field (1568 + i * 24) 24 image in
      let info := nth i (inputAttachments k) zeroImageInfo in
      le_value (field 0 8 slot) = wrap64 (sampler info)
      /\ le_value (field 8 8 slot) = wrap64 (imageView info)
      /\ le_value (field 16 4 slot) = wrap32 (imageLayout info)
      /\ le_value (field 20 4 slot) = wrap32 (padding info)).
Proof.
  intros image. subst image.
  destruct (DescriptorKey_members k i) as (H1 & H2 & H3 & H4 & H5).
  split; [|split].
  - intros Hi. rewrite (H1 Hi), (H4 Hi), (H5 Hi), !le_value_le_bytes.
    repeat split; reflexivity.
  - intros Hi. cbv zeta. rewrite (H2 Hi). apply imageInfo_members.
  - intros Hi. cbv zeta. rewrite (H3 Hi). apply imageInfo_members.
Qed.

Lemma descriptor_key_members_at_offsets_witness :
  le_value (field (2 * 8) 8 (DescriptorKey_bytes drawKey)) = 701
  /\ le_value (field (1632 + 2 * 4) 4 (DescriptorKey_bytes drawKey))
     = 2 ^ 32 - 1
  /\ le_value (field 8 8 (field (80 + 0 * 24) 24 (DescriptorKey_bytes drawKey)))
     = 810.
Proof.
  destruct (descriptor_key_members_at_offsets drawKey 2) as (H1 & _).
  destruct (descriptor_key_members_at_offsets drawKey 0) as (_ & H2 & _).
  destruct (H1 ltac:(unfold UBUFFER_BINDING_COUNT; lia)) as (Hb & _ & Hs).
  destruct (H2 ltac:(unfold SAMPLER_BINDING_COUNT; lia)) as (_ & Hv & _).
  cbv zeta in Hv.
  split; [rewrite Hb; reflexivity|].
  split; [rewrite Hs; reflexivity | rewrite Hv; reflexivity].
Defined.

(** X12. Two descriptor keys with the same object representation agree on
    every slot: same buffers, offsets and sizes, same sampler handles,
    image views and layouts.  The byte-wise comparison of keys identifies
    no two different binding states. *)
Theorem equal_images_equal_slots (k1 k2 : DescriptorKey) (i : nat) :
  DescriptorKey_bytes k1 = DescriptorKey_bytes k2 ->
  ((i < UBUFFER_BINDING_COUNT)%nat ->
   wrap64 (nth i (uniformBuffers k1) 0) = wrap64 (nth i (uniformBuffers k2) 0)
   /\ wrap32 (nth i (uniformBufferOffsets k1) 0)
      = wrap32 (nth i (uniformBufferOffsets k2) 0)
   /\ wrap32 (nth i (uniformBufferSizes k1) 0)
      = wrap32 (nth i (uniformBufferSizes k2) 0))
  /\ ((i < SAMPLER_BINDING_COUNT)%nat ->
      let a := nth i (samplers k1) zeroImageInfo in
      let b := nth i (samplers k2) zeroImageInfo in
      wrap64 (sampler a) = wrap64 (sampler b)
      /\ wrap64 (imageView a) = wrap64 (imageView b)
      /\ wrap32 (imageLayout a) = wrap32 (imageLayout b))
  /\ ((i < INPUT_ATTACHMENT_COUNT)%nat ->
      let a := nth i (inputAttachments k1) zeroImageInfo in
      let b := nth i (inputAttachments k2) zeroImageInfo in
      wrap64 (sampler a) = wrap64 (sampler b)
      /\ wrap64 (imageView a) = wrap64 (imageView b)
      /\ wrap32 (imageLayout a) = wrap32 (imageLayout b)).
Proof.
  intros E.
  destruct (DescriptorKey_members k1 i) as (A1 & A2 & A3 & A4 & A5).
  destruct (DescriptorKey_members k2 i) as (B1 & B2 & B3 & B4 & B5).
  rewrite E in A1, A2, A3, A4, A5.
  split; [|split].
  - intros Hi.
    pose proof (eq_trans (eq_sym (A1 Hi)) (B1 Hi)) as E1.
    pose proof (eq_trans (eq_sym (A4 Hi)) (B4 Hi)) as E4.
    pose proof (eq_trans (eq_sym (A5 Hi)) (B5 Hi)) as E5.
    apply (f_equal le_value) in E1, E4, E5.
    rewrite !le_value_le_bytes in E1, E4, E5. auto.
  - intros Hi a b.
    pose proof (eq_trans (eq_sym (A2 Hi)) (B2 Hi)) as E2. fold a b in E2.
    destruct (imageInfo_members a) as (Sa & Va & La & _).
    destruct (imageInfo_members b) as (Sb & Vb & Lb & _).
    rewrite E2 in Sa, Va, La. rewrite <- Sa, <- Va, <- La. auto.
  - intros Hi a b.
    pose proof (eq_trans (eq_sym (A3 Hi)) (B3 Hi)) as E3. fold a b in E3.
    destruct (imageInfo_members a) as (Sa & Va & La & _).
    destruct (imageInfo_members b) as (Sb & Vb & Lb & _).
    rewrite E3 in Sa, Va, La. rewrite <- Sa, <- Va, <- La. auto.
Qed.

Lemma equal_images_equal_slots_witness :
  wrap64 (nth 0 (uniformBuffers spelledOutZeroKey) 0)
  = wrap64 (nth 0 (uniformBuffers zeroDescriptorKey) 0).
Proof.
  assert (E : DescriptorKey_bytes spelledOutZeroKey
              = DescriptorKey_bytes zeroDescriptorKey)
    by (vm_compute; reflexivity).
  destruct (equal_images_equal_slots _ _ 0 E) as (H & _).
  destruct (H ltac:(unfold UBUFFER_BINDING_COUNT; lia)) as (Hb & _).
  exact Hb.
Defined.

(** ** Bit-fields of the raster state *)

Lemma testbit_bits (w pos word m : Z) :
  0 <= m -> 0 <= pos -> 0 <= w ->
  Z.testbit (bits w pos word) m = Z.testbit word (m + pos) && (m <? w).
Proof.
  intros Hm Hp Hw. unfold bits.
  rewrite Z.land_spec, Z.shiftr_spec, Z.testbit_ones by lia.
  destruct (Z.leb_spec 0 m); [reflexivity | lia].
Qed.

Lemma testbit_bitfield (w pos v n : Z) :
  0 <= n -> 0 <= pos -> 0 <= w ->
  Z.testbit (bitfield w pos v) n
  = (pos <=? n) && (n <? pos + w) && Z.testbit v (n - pos).
Proof.
  intros Hn Hp Hw. unfold bitfield. rewrite Z.shiftl_spec by lia.
  destruct (Z.leb_spec pos n) as [Hle|Hlt].
  - rewrite Z.land_spec, Z.testbit_ones by lia.
    destruct (Z.leb_spec 0 (n - pos)); [|lia].
    destruct (Z.ltb_spec (n - pos) w), (Z.ltb_spec n (pos + w)); try lia;
      cbn; rewrite ?andb_true_r, ?andb_false_r; reflexivity.
  - rewrite Z.testbit_neg_r by lia. reflexivity.
Qed.

Lemma bits_lor (w pos a b : Z) :
  bits w pos (Z.lor a b) = Z.lor (bits w pos a) (bits w pos b).
Proof. unfold bits. rewrite Z.shiftr_lor. apply Z.land_lor_distr_l. Qed.

Lemma bits_bitfield_same (w pos v : Z) :
  0 <= pos -> 0 <= w -> bits w pos (bitfield w pos v) = v mod 2 ^ w.
Proof.
  intros Hp Hw. apply Z.bits_inj'. intros m Hm.
  rewrite testbit_bits, testbit_bitfield, Z.testbit_mod_pow2 by lia.
  replace (m + pos - pos) with m by lia.
  destruct (Z.leb_spec pos (m + pos)); [|lia].
  destruct (Z.ltb_spec (m + pos) (pos + w)), (Z.ltb_spec m w); try lia;
    cbn; rewrite ?andb_true_r, ?andb_false_r; reflexivity.
Qed.

Lemma bits_bitfield_other (w pos w' pos' v : Z) :
  0 <= pos -> 0 <= w -> 0 <= pos' -> 0 <= w' ->
  pos' + w' <= pos \/ pos + w <= pos' ->
  bits w pos (bitfield w' pos' v) = 0.
Proof.
  intros Hp Hw Hp' Hw' Hdis. apply Z.bits_inj'. intros m Hm.
  rewrite testbit_bits, testbit_bitfield, Z.bits_0 by lia.
  destruct (Z.ltb_spec m w); [|apply andb_false_r].
  destruct (Z.leb_spec pos' (m + pos)); [|reflexivity].
  destruct (Z.ltb_spec (m + pos) (pos' + w')); [lia | reflexivity].
Qed.

Lemma bits_mod (w pos n word : Z) :
  0 <= pos -> 0 <= w -> pos + w <= n ->
  bits w pos (word mod 2 ^ n) = bits w pos word.
Proof.
  intros Hp Hw Hn. apply Z.bits_inj'. intros m Hm.
  rewrite !testbit_bits, Z.testbit_mod_pow2 by lia.
  destruct (Z.ltb_spec m w); [|rewrite !andb_false_r; reflexivity].
  destruct (Z.ltb_spec (m + pos) n); [|lia]. reflexivity.
Qed.

Ltac read_bitfield :=
  rewrite ?bits_lor;
  repeat first
    [ rewrite bits_bitfield_same by lia
    | rewrite bits_bitfield_other by lia ];
  rewrite ?Z.lor_0_l, ?Z.lor_0_r; reflexivity.

(** The members of a [RasterState] that are no bit-fields, and the two
    storage units of the bit-fields. *)
Lemma RasterState_units (r : RasterState) :
  let image := RasterState_bytes r in
  field 0 4 image
  = le_bytes 4
      (Z.lor (bitfield 2 0 (cullMode r))
      (Z.lor (bitfield 2 2 (frontFace r))
      (Z.lor (bitfield 1 4 (depthBiasEnable r))
      (Z.lor (bitfield 1 5 (blendEnable r))
      (Z.lor (bitfield 1 6 (depthWriteEnable r))
      (Z.lor (bitfield 1 7 (alphaToCoverageEnable r))
      (Z.lor (bitfield 5 8 (srcColorBlendFactor r))
      (Z.lor (bitfield 5 13 (dstColorBlendFactor r))
      (Z.lor (bitfield 5 18 (srcAlphaBlendFactor r))
      (Z.lor (bitfield 5 23 (dstAlphaBlendFactor r))
             (bitfield 4 28 (colorWriteMask r))))))))))))
  /\ field 4 1 image = le_bytes 1 (rasterizationSamples r)
  /\ field 5 1 image = le_bytes 1 (colorTargetCount r)
  /\ field 6 1 image
     = le_bytes 1 (Z.lor (bitfield 4 0 (colorBlendOp r))
                         (bitfield 4 4 (alphaBlendOp r)))
  /\ field 7 1 image = le_bytes 1 (depthCompareOp r)
  /\ field 8 4 image = le_bytes 4 (depthBiasConstantFactor r)
  /\ field 12 4 image = le_bytes 4 (depthBiasSlopeFactor r).
Proof.
  intros image. subst image. unfold RasterState_bytes, field.
  repeat split.
Qed.

(** X13. In the 16 bytes of a [RasterState] every member is where the
    header's comments put it and can be read back on its own: the bit-fields
    of the first storage unit at bits 0, 2, 4, 5, 6, 7, 8, 13, 18, 23 and 28
    (so the blend factors start at byte 1), the sample count at byte 4, the
    target count at byte 5, the two blend equations in the halves of byte
    6, the depth function at byte 7 and the two bias factors at bytes 8 and
    12.  No member overlaps another, and each is kept in the width of its
    field. *)
Theorem raster_state_members_at_offsets (r : RasterState) :
  let image := RasterState_bytes r in
  let unit0 := le_value (field 0 4 image) in
  let unit6 := le_value (field 6 1 image) in
  bits 2 0 unit0 = cullMode r mod 2 ^ 2
  /\ bits 2 2 unit0 = frontFace r mod 2 ^ 2
  /\ bits 1 4 unit0 = depthBiasEnable r mod 2 ^ 1
  /\ bits 1 5 unit0 = blendEnable r mod 2 ^ 1
  /\ bits 1 6 unit0 = depthWriteEnable r mod 2 ^ 1
  /\ bits 1 7 unit0 = alphaToCoverageEnable r mod 2 ^ 1
  /\ bits 5 8 unit0 = srcColorBlendFactor r mod 2 ^ 5
  /\ bits 5 13 unit0 = dstColorBlendFactor r mod 2 ^ 5
  /\ bits 5 18 unit0 = srcAlphaBlendFactor r mod 2 ^ 5
  /\ bits 5 23 unit0 = dstAlphaBlendFactor r mod 2 ^ 5
  /\ bits 4 28 unit0 = colorWriteMask r mod 2 ^ 4
  /\ le_value (field 4 1 image) = rasterizationSamples r mod 2 ^ 8
  /\ le_value (field 5 1 image) = colorTargetCount r mod 2 ^ 8
  /\ bits 4 0 unit6 = colorBlendOp r mod 2 ^ 4
  /\ bits 4 4 unit6 = alphaBlendOp r mod 2 ^ 4
  /\ le_value (field 7 1 image) = depthCompareOp r mod 2 ^ 8
  /\ le_value (field 8 4 image) = depthBiasConstantFactor r mod 2 ^ 32
  /\ le_value (field 12 4 image) = depthBiasSlopeFactor r mod 2 ^ 32
  /\ length image = 16%nat.
Proof.
  intros image unit0 unit6. subst unit0 unit6.
  destruct (RasterState_units r) as (H0 & H4 & H5 & H6 & H7 & H8 & H12).
  fold image in H0, H4, H5, H6, H7, H8, H12.
  rewrite H0, H4, H5, H6, H7, H8, H12, !le_value_le_bytes.
  change (256 ^ Z.of_nat 4) with (2 ^ 32).
  change (256 ^ Z.of_nat 1) with (2 ^ 8).
  rewrite !(bits_mod _ _ 32), !(bits_mod _ _ 8) by lia.
  repeat (split; [solve [reflexivity | read_bitfield]|]).
  subst image. unfold RasterState_bytes.
  rewrite !length_app, !length_le_bytes. reflexivity.
Qed.

Lemma raster_state_members_at_offsets_witness :
  bits 5 8 (le_value (field 0 4 (RasterState_bytes exampleRasterState))) = 6
  /\ nth 1 (RasterState_bytes exampleRasterState) 0 = 230
  /\ bits 4 4 (le_value (field 6 1 (RasterState_bytes exampleRasterState)))
     = 2.
Proof.
  destruct (raster_state_members_at_offsets exampleRasterState)
    as (_ & _ & _ & _ & _ & _ & Hs & _ & _ & _ & _ & _ & _ & _ & Ha & _).
  cbv zeta in Hs, Ha.
  split; [rewrite Hs; reflexivity|].
  split; [vm_compute; reflexivity | rewrite Ha; reflexivity].
Defined.

(** ** Members of a pipeline key at their offsets *)

Lemma length_attribute_bytes (a : VertexInputAttributeDescription) :
  length (attribute_bytes a) = 8%nat.
Proof.
  unfold attribute_bytes. rewrite !length_app, !length_le_bytes.
  reflexivity.
Qed.

Lemma length_binding_bytes (b : VertexInputBindingDescription) :
  length (binding_bytes b) = 8%nat.
Proof.
  unfold binding_bytes. rewrite !length_app, !length_le_bytes. reflexivity.
Qed.

Lemma length_RasterState_bytes (r : RasterState) :
  length (RasterState_bytes r) = 16%nat.
Proof.
  unfold RasterState_bytes. rewrite !length_app, !length_le_bytes.
  reflexivity.
Qed.

(** X14. The object representation of a [PipelineKey] has every member at
    the offset the header's comments give: the shader modules from byte 0,
    the render pass at 16, topology and subpass index at 24 and 26, the
    vertex attributes from 28 and the vertex buffers from 156 (8 bytes
    each), the raster state at 284, the padding at 300 and the layout key
    at 304. *)
Theorem pipeline_key_members_at_offsets (k : PipelineKey) (i : nat) :
  let image := PipelineKey_bytes k in
  ((i < SHADER_MODULE_COUNT)%nat ->
   le_value (field (i * 8) 8 image) = wrap64 (nth i (shaders k) 0))
  /\ le_value (field 16 8 image) = wrap64 (renderPass k)
  /\ le_value (field 24 2 image) = topology k mod 2 ^ 16
  /\ le_value (field 26 2 image) = subpassIndex k mod 2 ^ 16
  /\ ((i < VERTEX_ATTRIBUTE_COUNT)%nat ->
      field (28 + i * 8) 8 image
      = attribute_bytes (nth i (vertexAttributes k) zeroAttribute)
      /\ field (156 + i * 8) 8 image
         = binding_bytes (nth i (vertexBuffers k) zeroBinding))
  /\ field 284 16 image = RasterState_bytes (rasterState k)
  /\ le_value (field 300 4 image) = wrap32 (pipeline_padding k)
  /\ le_value (field 304 16 image) = layout k mod 2 ^ 128.
Proof.
  intros image. subst image. unfold PipelineKey_bytes.
  assert (L1 : length (array_bytes SHADER_MODULE_COUNT 0 (le_bytes 8)
                         (shaders k)) = 16%nat).
  { rewrite (length_array_bytes _ 8 _ (le_bytes 8))
      by apply length_le_bytes. reflexivity. }
  pose proof (length_le_bytes 8 (renderPass k)) as L2.
  pose proof (length_le_bytes 2 (topology k)) as L3.
  pose proof (length_le_bytes 2 (subpassIndex k)) as L4.
  assert (L5 : length (array_bytes VERTEX_ATTRIBUTE_COUNT zeroAttribute
                         attribute_bytes (vertexAttributes k)) = 128%nat).
  { rewrite (length_array_bytes _ 8 _ attribute_bytes)
      by apply length_attribute_bytes. reflexivity. }
  assert (L6 : length (array_bytes VERTEX_ATTRIBUTE_COUNT zeroBinding
                         binding_bytes (vertexBuffers k)) = 128%nat).
  { rewrite (length_array_bytes _ 8 _ binding_bytes)
      by apply length_binding_bytes. reflexivity. }
  pose proof (length_RasterState_bytes (rasterState k)) as L7.
  pose proof (length_le_bytes 4 (pipeline_padding k)) as L8.
  pose proof (length_le_bytes 16 (layout k)) as L9.
  set (A := array_bytes SHADER_MODULE_COUNT _ _ _) in *.
  set (B := le_bytes 8 (renderPass k)) in *.
  set (C := le_bytes 2 (topology k)) in *.
  set (D := le_bytes 2 (subpassIndex k)) in *.
  set (E := array_bytes VERTEX_ATTRIBUTE_COUNT zeroAttribute _ _) in *.
  set (F := array_bytes VERTEX_ATTRIBUTE_COUNT zeroBinding _ _) in *.
  set (G := RasterState_bytes (rasterState k)) in *.
  set (H := le_bytes 4 (pipeline_padding k)) in *.
  set (I := le_bytes 16 (layout k)) in *.
  unfold SHADER_MODULE_COUNT, VERTEX_ATTRIBUTE_COUNT in *.
  split; [|split; [|split; [|split; [|split; [|split; [|split]]]]]].
  - intros Hi. rewrite field_app_l by lia. unfold A.
    rewrite field_array_bytes by (auto using length_le_bytes).
    apply le_value_le_bytes.
  - replace 16%nat with (length A + 0)%nat by lia.
    rewrite field_app_r, field_app_l by lia.
    rewrite field_all by exact L2. apply le_value_le_bytes.
  - replace 24%nat with (length A + (length B + 0))%nat by lia.
    rewrite !field_app_r, field_app_l by lia.
    rewrite field_all by exact L3. apply le_value_le_bytes.
  - replace 26%nat with (length A + (length B + (length C + 0)))%nat by lia.
    rewrite !field_app_r, field_app_l by lia.
    rewrite field_all by exact L4. apply le_value_le_bytes.
  - intros Hi. split.
    + replace (28 + i * 8)%nat
        with (length A + (length B + (length C + (length D + i * 8))))%nat
        by lia.
      rewrite !field_app_r, field_app_l by lia.
      apply field_array_bytes; [apply length_attribute_bytes | exact Hi].
    + replace (156 + i * 8)%nat
        with (length A + (length B + (length C + (length D
              + (length E + i * 8)))))%nat by lia.
      rewrite !field_app_r, field_app_l by lia.
      apply field_array_bytes; [apply length_binding_bytes | exact Hi].
  - replace 284%nat
      with (length A + (length B + (length C + (length D
            + (length E + (length F + 0))))))%nat by lia.
    rewrite !field_app_r, field_app_l by lia. apply field_all. exact L7.
  - replace 300%nat
      with (length A + (length B + (length C + (length D
            + (length E + (length F + (length G + 0)))))))%nat by lia.
    rewrite !field_app_r, field_app_l by lia.
    rewrite field_all by exact L8. apply le_value_le_bytes.
  - replace 304%nat
      with (length A + (length B + (length C + (length D
            + (length E + (length F + (length G + (length H + 0))))))))%nat
      by lia.
    rewrite !field_app_r. rewrite field_all by exact L9.
    apply le_value_le_bytes.
Qed.

Lemma pipeline_key_members_at_offsets_witness :
  field 284 16 (PipelineKey_bytes zeroPipelineKey)
  = RasterState_bytes zeroRasterState.
Proof.
  destruct (pipeline_key_members_at_offsets zeroPipelineKey 0)
    as (_ & _ & _ & _ & _ & Hr & _).
  exact Hr.
Defined.

(** ** Keys: equal images, equal members *)






(** ** The raster state and the pipeline key *)











(** ** Rectangles of a render target *)

Lemma to_int32_small (v : Z) : 0 <= v < 2 ^ 31 -> to_int32 v = v.
Proof.
  intros H. unfold to_int32, wrap32. rewrite Z.mod_small by lia.
  destruct (v <? 2 ^ 31) eqn:E; [reflexivity|].
  apply Z.ltb_ge in E. lia.
Qed.

Lemma to_int32_wrap32 (v : Z) : to_int32 (wrap32 v) = to_int32 v.
Proof. unfold to_int32, wrap32. rewrite Z.mod_mod by lia. reflexivity. Qed.

Lemma to_int32_range (v : Z) : - 2 ^ 31 <= to_int32 v < 2 ^ 31.
Proof.
  unfold to_int32, wrap32.
  pose proof (Z.mod_pos_bound v (2 ^ 32) ltac:(lia)) as H.
  destruct (v mod 2 ^ 32 <? 2 ^ 31) eqn:E;
    [apply Z.ltb_lt in E | apply Z.ltb_ge in E]; lia.
Qed.

Lemma to_int32_congr (v w : Z) :
  (v - w) mod 2 ^ 32 = 0 -> to_int32 v = to_int32 w.
Proof.
  intros H. unfold to_int32, wrap32.
  assert (E : v mod 2 ^ 32 = w mod 2 ^ 32).
  { replace v with (w + (v - w)) by lia.
    rewrite Z.add_mod, H, Z.add_0_r, Z.mod_mod by lia. reflexivity. }
  rewrite E. reflexivity.
Qed.

Lemma to_int32_signed (v : Z) : - 2 ^ 31 <= v < 2 ^ 31 -> to_int32 v = v.
Proof.
  intros H. destruct (Z_lt_le_dec v 0) as [Hn|Hp].
  - unfold to_int32, wrap32.
    assert (E : v mod 2 ^ 32 = v + 2 ^ 32).
    { symmetry. apply (Z.mod_unique_pos _ _ (-1)); lia. }
    rewrite E. destruct (v + 2 ^ 32 <? 2 ^ 31) eqn:E1;
      [apply Z.ltb_lt in E1; lia | lia].
  - apply to_int32_small. lia.
Qed.

Lemma int32_checked_Some (v r : Z) :
  int32_checked v = Some r <-> r = v /\ - 2 ^ 31 <= v < 2 ^ 31.
Proof.
  unfold int32_checked.
  destruct (- 2 ^ 31 <=? v) eqn:E1; destruct (v <? 2 ^ 31) eqn:E2; cbn;
    try apply Z.leb_le in E1; try apply Z.leb_gt in E1;
    try apply Z.ltb_lt in E2; try apply Z.ltb_ge in E2;
    split; try discriminate; try (intros [= <-]; lia);
    try (intros [-> ?]; reflexivity); intros [-> ?]; lia.
Qed.

(** The offset [flipVertically] stores, without the intermediate
    conversions. *)
Lemma flipVertically_offset (rect : VkRect2D) (framebufferHeight : Z) :
  offset_y (rect_offset (flipVertically rect framebufferHeight))
  = to_int32 (framebufferHeight - offset_y (rect_offset rect)
              - extent_height (rect_extent rect)).
Proof.
  unfold flipVertically. cbn. unfold wrap32 at 2 3.
  rewrite Zminus_mod_idemp_r. unfold wrap32 at 1.
  rewrite Zminus_mod_idemp_l. exact (to_int32_wrap32 _).
Qed.

(** X15. [flipVertically] undoes itself: flipping a rectangle twice in the
    same framebuffer gives the rectangle back, whatever the 32-bit
    subtractions wrapped to in between. *)
Theorem flip_twice_is_identity (rect : VkRect2D) (framebufferHeight : Z) :
  - 2 ^ 31 <= offset_y (rect_offset rect) < 2 ^ 31 ->
  flipVertically (flipVertically rect framebufferHeight) framebufferHeight
  = rect.
Proof.
  intros Hy.
  assert (E : offset_y (rect_offset
                (flipVertically (flipVertically rect framebufferHeight)
                   framebufferHeight))
              = offset_y (rect_offset rect)).
  { rewrite flipVertically_offset.
    change (extent_height (rect_extent (flipVertically rect framebufferHeight)))
      with (extent_height (rect_extent rect)).
    rewrite flipVertically_offset.
    set (h := extent_height (rect_extent rect)).
    set (y := offset_y (rect_offset rect)) in *.
    rewrite <- (to_int32_signed y Hy) at 2.
    apply to_int32_congr.
    unfold to_int32, wrap32.
    set (d := framebufferHeight - y - h).
    destruct (d mod 2 ^ 32 <? 2 ^ 31).
    - replace (framebufferHeight - d mod 2 ^ 32 - h - y)
        with (d - d mod 2 ^ 32) by (unfold d; lia).
      rewrite Zminus_mod_idemp_r, Z.sub_diag. reflexivity.
    - replace (framebufferHeight - (d mod 2 ^ 32 - 2 ^ 32) - h - y)
        with (d - d mod 2 ^ 32 + 1 * 2 ^ 32) by (unfold d; lia).
      rewrite Z.mod_add by lia.
      rewrite Zminus_mod_idemp_r, Z.sub_diag. reflexivity. }
  destruct rect as [[ox oy] ext]. unfold flipVertically in *. cbn in *.
  rewrite E. reflexivity.
Qed.

Lemma flip_twice_is_identity_witness :
  flipVertically (flipVertically exampleRect 480) 480 = exampleRect
  /\ offset_y (rect_offset (flipVertically exampleRect 480)) = -1620.
Proof.
  split; [|vm_compute; reflexivity].
  apply (flip_twice_is_identity exampleRect 480). cbn. lia.
Defined.

Lemma int32_checked_in (v : Z) :
  - 2 ^ 31 <= v < 2 ^ 31 -> int32_checked v = Some v.
Proof. intros H. apply int32_checked_Some. auto. Qed.

Lemma wrap32_small (v : Z) : 0 <= v < 2 ^ 32 -> wrap32 v = v.
Proof. intros H. unfold wrap32. apply Z.mod_small. exact H. Qed.

(** A rectangle inside the framebuffer is left as it is. *)
Lemma clampToFramebuffer_inside (rect : VkRect2D) (fbWidth fbHeight : Z) :
  fbWidth < 2 ^ 31 ->
  fbHeight < 2 ^ 31 ->
  insideFramebuffer rect fbWidth fbHeight ->
  clampToFramebuffer rect fbWidth fbHeight = Some rect.
Proof.
  destruct rect as [[ox oy] [w h]]. unfold insideFramebuffer. cbn.
  intros HW HH (Hx & Hy & Hw & Hh & Hxw & Hyh).
  unfold clampToFramebuffer. cbn.
  rewrite (to_int32_small w), (to_int32_small h), (to_int32_small fbWidth),
    (to_int32_small fbHeight) by lia.
  rewrite (int32_checked_in (ox + w)) by lia. cbn.
  rewrite (int32_checked_in (oy + h)) by lia. cbn.
  rewrite (Z.min_l (ox + w)), (Z.min_l (oy + h)), (Z.max_l ox),
    (Z.max_l oy) by lia.
  rewrite (int32_checked_in (ox + w - ox)) by lia. cbn.
  rewrite (int32_checked_in (oy + h - oy)) by lia. cbn.
  rewrite (Z.min_l ox), (Z.min_l oy) by lia.
  rewrite !wrap32_small by lia.
  repeat f_equal; lia.
Qed.

(** What [clampToFramebuffer] gives lies inside the framebuffer. *)
Lemma clampToFramebuffer_result (rect r' : VkRect2D)
    (fbWidth fbHeight : Z) :
  0 <= fbWidth < 2 ^ 31 ->
  0 <= fbHeight < 2 ^ 31 ->
  clampToFramebuffer rect fbWidth fbHeight = Some r' ->
  insideFramebuffer r' fbWidth fbHeight.
Proof.
  intros HW HH. unfold clampToFramebuffer.
  rewrite (to_int32_small fbWidth), (to_int32_small fbHeight) by lia.
  destruct (int32_checked (offset_x (rect_offset rect)
                           + to_int32 (extent_width (rect_extent rect))))
    as [sx|] eqn:Ex; [|discriminate]. cbn.
  destruct (int32_checked (offset_y (rect_offset rect)
                           + to_int32 (extent_height (rect_extent rect))))
    as [sy|] eqn:Ey; [|discriminate]. cbn.
  destruct (int32_checked
              (Z.min sx fbWidth - Z.max (offset_x (rect_offset rect)) 0))
    as [w|] eqn:Ew; [|discriminate]. cbn.
  destruct (int32_checked
              (Z.min sy fbHeight - Z.max (offset_y (rect_offset rect)) 0))
    as [h|] eqn:Eh; [|discriminate]. cbn.
  intros [= <-].
  apply int32_checked_Some in Ew as [-> Hw], Eh as [-> Hh].
  unfold insideFramebuffer. cbn.
  rewrite !wrap32_small by lia. lia.
Qed.

(** X16. Whatever rectangle goes in, a [clampToFramebuffer] that has a
    result leaves a rectangle inside the framebuffer: the offset is not
    negative and offset plus extent does not pass the framebuffer's width
    and height.  It has a result whenever the sums of offset and extent
    are representable as [int32_t]. *)
Theorem clamp_result_inside (rect : VkRect2D) (fbWidth fbHeight : Z) :
  0 <= fbWidth < 2 ^ 31 ->
  0 <= fbHeight < 2 ^ 31 ->
  - 2 ^ 31 <= offset_x (rect_offset rect) < 2 ^ 31 ->
  - 2 ^ 31 <= offset_y (rect_offset rect) < 2 ^ 31 ->
  - 2 ^ 31 <= offset_x (rect_offset rect)
              + to_int32 (extent_width (rect_extent rect)) < 2 ^ 31 ->
  - 2 ^ 31 <= offset_y (rect_offset rect)
              + to_int32 (extent_height (rect_extent rect)) < 2 ^ 31 ->
  exists r',
    clampToFramebuffer rect fbWidth fbHeight = Some r'
    /\ insideFramebuffer r' fbWidth fbHeight.
Proof.
  intros HW HH Hx Hy Hsx Hsy.
  assert (Hd : exists r', clampToFramebuffer rect fbWidth fbHeight = Some r').
  { unfold clampToFramebuffer.
    rewrite (to_int32_small fbWidth), (to_int32_small fbHeight) by lia.
    rewrite (int32_checked_in _ Hsx). cbn.
    rewrite (int32_checked_in _ Hsy). cbn.
    pose proof (to_int32_range (extent_width (rect_extent rect))).
    pose proof (to_int32_range (extent_height (rect_extent rect))).
    rewrite (int32_checked_in (Z.min _ fbWidth - _)) by lia. cbn.
    rewrite (int32_checked_in (Z.min _ fbHeight - _)) by lia. cbn.
    eexists. reflexivity. }
  destruct Hd as [r' Hr]. exists r'. split; [exact Hr|].
  exact (clampToFramebuffer_result rect r' fbWidth fbHeight HW HH Hr).
Qed.

Lemma clamp_result_inside_witness :
  exists r',
    clampToFramebuffer exampleRect 640 480 = Some r'
    /\ insideFramebuffer r' 640 480.
Proof.
  apply (clamp_result_inside exampleRect 640 480);
    vm_compute; (split; [discriminate | reflexivity]).
Defined.

(** X17. [clampToFramebuffer] leaves a rectangle that lies inside the
    framebuffer as it is, and therefore clamping a second time changes
    nothing. *)
Theorem clamp_is_idempotent (rect : VkRect2D) (fbWidth fbHeight : Z) :
  0 <= fbWidth < 2 ^ 31 ->
  0 <= fbHeight < 2 ^ 31 ->
  (insideFramebuffer rect fbWidth fbHeight ->
   clampToFramebuffer rect fbWidth fbHeight = Some rect)
  /\ (forall r',
        clampToFramebuffer rect fbWidth fbHeight = Some r' ->
        clampToFramebuffer r' fbWidth fbHeight = Some r').
Proof.
  intros HW HH. split.
  - apply clampToFramebuffer_inside; lia.
  - intros r' Hr. apply clampToFramebuffer_inside; [lia | lia |].
    exact (clampToFramebuffer_result rect r' fbWidth fbHeight HW HH Hr).
Qed.

Lemma clamp_is_idempotent_witness :
  clampToFramebuffer exampleRect 640 480 = Some clampedRect
  /\ clampToFramebuffer clampedRect 640 480 = Some clampedRect.
Proof.
  assert (H : clampToFramebuffer exampleRect 640 480 = Some clampedRect)
    by (vm_compute; reflexivity).
  split; [exact H|].
  refine (proj2 (clamp_is_idempotent exampleRect 640 480 _ _) _ H);
    vm_compute; (split; [discriminate | reflexivity]).
Defined.

(** X18. [transformClientRectToPlatform] turns a client rectangle that lies
    inside the render target into the rectangle of the same size whose
    [y] is counted from the other edge, [height - y - extent.height], with
    nothing clamped away; and whatever the client rectangle is, a result
    lies inside the render target. *)
Theorem client_rect_to_platform (rt : VulkanRenderTarget)
    (bounds : VkRect2D) :
  0 <= width rt < 2 ^ 31 ->
  0 <= height rt < 2 ^ 31 ->
  (insideFramebuffer bounds (width rt) (height rt) ->
   transformClientRectToPlatform rt bounds
   = Some {| rect_offset :=
               {| offset_x := offset_x (rect_offset bounds);
                  offset_y := height rt - offset_y (rect_offset bounds)
                              - extent_height (rect_extent bounds) |};
             rect_extent := rect_extent bounds |})
  /\ (forall r',
        transformClientRectToPlatform rt bounds = Some r' ->
        insideFramebuffer r' (width rt) (height rt)).
Proof.
  intros HW HH. unfold transformClientRectToPlatform, getExtent. cbn.
  split.
  - intros (Hx & Hy & Hw & Hh & Hxw & Hyh).
    assert (E : flipVertically bounds (height rt)
                = {| rect_offset :=
                       {| offset_x := offset_x (rect_offset bounds);
                          offset_y := height rt - offset_y (rect_offset bounds)
                                      - extent_height (rect_extent bounds) |};
                     rect_extent := rect_extent bounds |}).
    { pose proof (flipVertically_offset bounds (height rt)) as Ho.
      rewrite to_int32_small in Ho by lia.
      unfold flipVertically in *. cbn in Ho. rewrite Ho. reflexivity. }
    rewrite E. apply clampToFramebuffer_inside; [lia | lia |].
    unfold insideFramebuffer. cbn. lia.
  - intros r' Hr.
    exact (clampToFramebuffer_result _ r' _ _ HW HH Hr).
Qed.

Lemma client_rect_to_platform_witness :
  transformClientRectToPlatform exampleTarget
    {| rect_offset := {| offset_x := 10; offset_y := 20 |};
       rect_extent := {| extent_width := 100; extent_height := 60 |} |}
  = Some {| rect_offset := {| offset_x := 10; offset_y := 400 |};
            rect_extent := {| extent_width := 100; extent_height := 60 |} |}.
Proof.
  refine (proj1 (client_rect_to_platform exampleTarget _ _ _) _);
    vm_compute; repeat split; discriminate.
Defined.

(** ** Color targets of a render target *)

Lemma land_bit (m : Z) (i : nat) :
  (Z.land m (Z.shiftl 1 (Z.of_nat i)) =? 0)
  = negb (Z.testbit m (Z.of_nat i)).
Proof.
  rewrite Z.shiftl_1_l.
  assert (E : Z.land m (2 ^ Z.of_nat i)
              = if Z.testbit m (Z.of_nat i) then 2 ^ Z.of_nat i else 0).
  { apply Z.bits_inj'. intros n Hn.
    rewrite Z.land_spec, Z.pow2_bits_eqb by lia.
    destruct (Z.eqb_spec (Z.of_nat i) n) as [->|Hne].
    - rewrite andb_true_r. destruct (Z.testbit m n) eqn:Eb.
      + rewrite Z.pow2_bits_true by lia. reflexivity.
      + rewrite Z.bits_0. reflexivity.
    - rewrite andb_false_r. destruct (Z.testbit m (Z.of_nat i)).
      + rewrite Z.pow2_bits_false by lia. reflexivity.
      + rewrite Z.bits_0. reflexivity. }
  rewrite E. destruct (Z.testbit m (Z.of_nat i)); cbn.
  - apply Z.eqb_neq. pose proof (Z.pow_pos_nonneg 2 (Z.of_nat i)). lia.
  - reflexivity.
Qed.

Lemma countColorTarget_step (rt : VulkanRenderTarget)
    (pass : VulkanRenderPass) (count : Z) (i : nat) :
  0 <= count < 255 ->
  countColorTarget rt pass count i
  = count + (if rendersTo rt pass i then 1 else 0).
Proof.
  intros Hc. unfold countColorTarget, rendersTo. rewrite land_bit.
  destruct (texture (nth i (mColor rt) zeroAttachment) =? 0); cbn; [lia|].
  destruct (negb (Z.testbit (subpassMask pass) (Z.of_nat i))
            || (currentSubpass pass =? 1)); [|lia].
  rewrite Z.mod_small by lia. reflexivity.
Qed.

Lemma countColorTarget_loop (rt : VulkanRenderTarget)
    (pass : VulkanRenderPass) (n start : nat) (count : Z) :
  0 <= count ->
  count + Z.of_nat n <= 255 ->
  fold_left (countColorTarget rt pass) (seq start n) count
  = count
    + Z.of_nat (length (List.filter (rendersTo rt pass) (seq start n))).
Proof.
  revert start count. induction n as [|n IH]; intros start count H0 Hn.
  - cbn. lia.
  - cbn [seq fold_left List.filter].
    rewrite countColorTarget_step by lia.
    destruct (rendersTo rt pass start); rewrite IH by lia; cbn [length]; lia.
Qed.

(** X19. [getColorTargetCount] answers 1 for the render target of the swap
    chain; for an offscreen target it is the number of color attachments
    that have a texture and that the pass does not hold back by its
    subpass mask (none is held back in subpass 1).  With fewer than 32
    attachment slots, so that [1 << i] is an [int], the [uint8_t] counter
    cannot wrap and the answer never exceeds the number of slots. *)
Theorem color_target_count_counts (MAX : nat) (rt : VulkanRenderTarget)
    (pass : VulkanRenderPass) :
  (MAX <= 31)%nat ->
  getColorTargetCount MAX rt pass
  = (if mOffscreen rt
     then Z.of_nat (length (List.filter (rendersTo rt pass) (seq 0 MAX)))
     else 1)
  /\ (mOffscreen rt = true ->
      0 <= getColorTargetCount MAX rt pass <= Z.of_nat MAX).
Proof.
  intros HM. unfold getColorTargetCount.
  destruct (mOffscreen rt); cbn; [|split; [reflexivity | discriminate]].
  rewrite countColorTarget_loop by lia. split; [lia|]. intros _.
  pose proof (List.filter_length_le (rendersTo rt pass) (seq 0 MAX)) as Hl.
  rewrite length_seq in Hl. lia.
Qed.

Lemma color_target_count_counts_witness :
  getColorTargetCount 8 exampleTarget
    {| subpassMask := 1; currentSubpass := 0 |} = 1
  /\ getColorTargetCount 8 exampleTarget
       {| subpassMask := 1; currentSubpass := 1 |} = 2.
Proof.
  split.
  - rewrite (proj1 (color_target_count_counts 8 exampleTarget _
                      ltac:(lia))).
    vm_compute. reflexivity.
  - rewrite (proj1 (color_target_count_counts 8 exampleTarget _
                      ltac:(lia))).
    vm_compute. reflexivity.
Defined.

(** ** The sampler index of a binding *)

Lemma samplerIndex_value (group index : Z) :
  0 <= group < 2 ^ 8 ->
  VulkanProgram.samplerIndex group index
  = group * 2 ^ 8 + index mod 2 ^ 8.
Proof.
  intros Hg. unfold VulkanProgram.samplerIndex.
  change 0xff with (Z.ones 8). rewrite Z.land_comm, Z.land_ones by lia.
  rewrite Z.shiftl_mul_pow2 by lia.
  pose proof (Z.mod_pos_bound index (2 ^ 8) ltac:(lia)) as Hi.
  assert (Hd : Z.land (group * 2 ^ 8) (index mod 2 ^ 8) = 0).
  { apply Z.bits_inj'. intros n Hn. rewrite Z.land_spec, Z.bits_0.
    destruct (Z_lt_le_dec n 8) as [Hlt|Hge].
    - rewrite Z.mul_pow2_bits_low by lia. reflexivity.
    - rewrite (Z.mod_pow2_bits_high index 8 n) by lia.
      apply andb_false_r. }
  rewrite <- Z.lxor_lor, <- Z.add_nocarry_lxor by exact Hd.
  apply Z.mod_small. lia.
Qed.

Lemma samplerIndex_decode (group index : Z) :
  0 <= group < 2 ^ 8 ->
  Z.shiftr (VulkanProgram.samplerIndex group index) 8 = group
  /\ Z.land (VulkanProgram.samplerIndex group index) 0xff = index mod 2 ^ 8
  /\ (group < 0xff -> VulkanProgram.samplerIndex group index <> 0xffff).
Proof.
  intros Hg. rewrite samplerIndex_value by exact Hg.
  pose proof (Z.mod_pos_bound index (2 ^ 8) ltac:(lia)) as Hi.
  split; [|split].
  - rewrite Z.shiftr_div_pow2 by lia.
    rewrite Z.div_add_l by lia. rewrite Z.div_small by lia. lia.
  - change 0xff with (Z.ones 8). rewrite Z.land_ones by lia.
    rewrite Z.add_comm, Z.mod_add by lia. apply Z.mod_mod. lia.
  - lia.
Qed.

(** ** The second constructor *)

Lemma bindSamplerTuples_run (getUsageFlags : Z -> Z -> Z -> Z)
    (bs : list (Z * Z * Z)) (b : nat) (info : VulkanProgram.PipelineInfo) :
  (b + length bs <= length (VulkanProgram.bindingToSamplerIndex info))%nat ->
  exists info',
    VulkanProgram.bindSamplerTuples getUsageFlags bs b info = Some info'
    /\ VulkanProgram.shaders info' = VulkanProgram.shaders info
    /\ length (VulkanProgram.bindingToSamplerIndex info')
       = length (VulkanProgram.bindingToSamplerIndex info)
    /\ (forall j, (j < b)%nat ->
        VulkanProgram.bindingToSamplerIndex info' !! j
        = VulkanProgram.bindingToSamplerIndex info !! j)
    /\ (forall j g s f, bs !! j = Some (g, s, f) ->
        VulkanProgram.bindingToSamplerIndex info' !! (b + j)%nat
        = Some (VulkanProgram.samplerIndex g s)).
Proof.
  revert b info. induction bs as [|[[g s] f] bs IH]; intros b info Hlen.
  - exists info. cbn. repeat split; try reflexivity.
    intros j g s f H. rewrite lookup_nil in H. discriminate H.
  - cbn [VulkanProgram.bindSamplerTuples]. cbn [length] in Hlen.
    destruct (Nat.ltb_spec b
                (length (VulkanProgram.bindingToSamplerIndex info)))
      as [Hb|Hb]; [|lia].
    edestruct (IH (S b)) as (info' & Hrun & Hs & Hl & Hlow & Hnew);
      [|rewrite Hrun; exists info'; split; [reflexivity|]].
    { cbn. rewrite length_insert. lia. }
    cbn in Hs, Hl, Hlow. rewrite length_insert in Hl.
    split; [exact Hs|]. split; [exact Hl|]. split.
    + intros j Hj. rewrite Hlow by lia.
      apply list_lookup_insert_ne. lia.
    + intros [|j] g' s' f' H.
      * cbn in H. injection H as <- <- <-. rewrite Nat.add_0_r.
        rewrite Hlow by lia. apply list_lookup_insert_eq. exact Hb.
      * cbn in H. replace (b + S j)%nat with (S b + j)%nat by lia.
        exact (Hnew j g' s' f' H).
Qed.

(** X20. The constructor of a program from two shader modules stores the
    modules in order and gives every binding the 16-bit sampler index of
    its tuple: the group in the top 8 bits and the sampler in the low 8
    bits, so that both are read back by a shift and a mask.  It returns
    whenever the vector could be resized to the number of bindings. *)
Theorem modules_program_sampler_indices
    (resize : nat -> list Z -> option (list Z))
    (getUsageFlags : Z -> Z -> Z -> Z) (garbage : nat -> Z) (vs fs : Z)
    (samplerBindings : list (Z * Z * Z)) (resized : list Z) :
  resize (length samplerBindings)
    (repeat 0xffff VulkanProgram.MAX_SAMPLER_COUNT) = Some resized ->
  length resized = length samplerBindings ->
  exists info,
    VulkanProgram.fromModules resize getUsageFlags garbage vs fs
      samplerBindings = Some info
    /\ VulkanProgram.shaders info = [vs; fs]
    /\ length (VulkanProgram.bindingToSamplerIndex info)
       = length samplerBindings
    /\ forall binding groupInd samplerInd flags,
         samplerBindings !! binding = Some (groupInd, samplerInd, flags) ->
         0 <= groupInd < 2 ^ 8 ->
         0 <= samplerInd < 2 ^ 8 ->
         exists v,
           VulkanProgram.bindingToSamplerIndex info !! binding = Some v
           /\ Z.shiftr v 8 = groupInd
           /\ Z.land v 0xff = samplerInd.
Proof.
  intros Hres Hlen. unfold VulkanProgram.fromModules.
  cbn [VulkanProgram.bindingToSamplerIndex VulkanProgram.PipelineInfo_new].
  rewrite Hres. cbn [mbind option_bind].
  edestruct (bindSamplerTuples_run getUsageFlags samplerBindings 0)
    as (info & Hrun & Hs & Hl & _ & Hnew);
    [|rewrite Hrun; exists info; split; [reflexivity|]].
  { cbn. lia. }
  cbn in Hs, Hl. split; [exact Hs|]. split; [lia|].
  intros b g s f Hb Hg Hsr.
  exists (VulkanProgram.samplerIndex g s). split; [exact (Hnew b g s f Hb)|].
  destruct (samplerIndex_decode g s Hg) as (H1 & H2 & _).
  split; [exact H1|]. rewrite H2. apply Z.mod_small. exact Hsr.
Qed.

Lemma modules_program_sampler_indices_witness :
  exists info,
    VulkanProgram.fromModules exampleResize exampleUsageFlags (fun _ => 0)
      50 51 [(0, 0, 1); (0, 1, 1); (2, 0, 2)] = Some info
    /\ VulkanProgram.bindingToSamplerIndex info = [0; 1; 512].
Proof.
  destruct (modules_program_sampler_indices exampleResize exampleUsageFlags
              (fun _ => 0) 50 51 [(0, 0, 1); (0, 1, 1); (2, 0, 2)]
              [0xffff; 0xffff; 0xffff] eq_refl eq_refl)
    as (info & Hrun & _).
  exists info. split; [exact Hrun|].
  vm_compute in Hrun. injection Hrun as <-. reflexivity.
Defined.

(** ** The specialization constants *)

Lemma length_specConstantBytes (v : VulkanProgram.SpecConstantValue) :
  length (VulkanProgram.specConstantBytes v) = 4%nat.
Proof. destruct v; apply length_le_bytes. Qed.

Lemma setSpecConstants_snoc (cs : list VulkanProgram.SpecializationConstant)
    (n i : nat) (info : VulkanProgram.PipelineInfo) :
  VulkanProgram.setSpecConstants cs i (S n) info
  = info' ← VulkanProgram.setSpecConstants cs i n info;
    VulkanProgram.setSpecConstant cs (i + n) info'.
Proof.
  revert i info. induction n as [|n IH]; intros i info.
  - cbn. rewrite Nat.add_0_r.
    destruct (VulkanProgram.setSpecConstant cs i info); reflexivity.
  - change (VulkanProgram.setSpecConstants cs i (S (S n)) info)
      with (info' ← VulkanProgram.setSpecConstant cs i info;
            VulkanProgram.setSpecConstants cs (S i) (S n) info').
    change (VulkanProgram.setSpecConstants cs i (S n) info)
      with (info' ← VulkanProgram.setSpecConstant cs i info;
            VulkanProgram.setSpecConstants cs (S i) n info').
    destruct (VulkanProgram.setSpecConstant cs i info) as [info1|];
      [|reflexivity].
    cbn [mbind option_bind]. rewrite IH.
    replace (S i + n)%nat with (i + S n)%nat by lia. reflexivity.
Qed.

(** The entry the loop writes for constant [i]. *)
Lemma specConstant_offset (i : nat) :
  Z.of_nat i * 4 < 2 ^ 32 ->
  wrap32 (wrap32 (Z.of_nat i) * 4) = Z.of_nat i * 4.
Proof.
  intros H. unfold wrap32.
  rewrite (Z.mod_small (Z.of_nat i)) by lia. apply Z.mod_small. lia.
Qed.

(** The loop after [n] turns: the first [n] entries and the first [4 n]
    bytes are written, the rest is as before. *)
Lemma setSpecConstants_run (cs : list VulkanProgram.SpecializationConstant)
    (n : nat) (info : VulkanProgram.PipelineInfo) :
  (n <= length cs)%nat ->
  length (VulkanProgram.specConsts info) = length cs ->
  length (VulkanProgram.specConstData info) = (length cs * 4)%nat ->
  Z.of_nat (length cs) * 4 < 2 ^ 32 ->
  exists info',
    VulkanProgram.setSpecConstants cs 0 n info = Some info'
    /\ VulkanProgram.usage info' = VulkanProgram.usage info
    /\ VulkanProgram.bindingToSamplerIndex info'
       = VulkanProgram.bindingToSamplerIndex info
    /\ VulkanProgram.shaders info' = VulkanProgram.shaders info
    /\ VulkanProgram.specializationInfo info'
       = VulkanProgram.specializationInfo info
    /\ length (VulkanProgram.specConsts info') = length cs
    /\ (forall j c, (j < n)%nat -> cs !! j = Some c ->
        VulkanProgram.specConsts info' !! j
        = Some {| VulkanProgram.constantID := VulkanProgram.id c;
                  VulkanProgram.offset := Z.of_nat j * 4;
                  VulkanProgram.size := 4 |})
    /\ VulkanProgram.specConstData info'
       = flat_map (fun c => VulkanProgram.specConstantBytes
                              (VulkanProgram.value c)) (take n cs)
         ++ drop (n * 4) (VulkanProgram.specConstData info).
Proof.
  intros Hn Hls Hld Hw. induction n as [|n IH].
  - exists info. cbn. rewrite drop_0. repeat split; try reflexivity;
      [exact Hls | intros; lia].
  - destruct IH as (info1 & Hrun & Hu & Hb & Hs & Hi & Hl & He & Hd);
      [lia|].
    rewrite setSpecConstants_snoc, Hrun. cbn [mbind option_bind].
    destruct (lookup_lt_is_Some_2 cs n ltac:(lia)) as [c Hc].
    unfold VulkanProgram.setSpecConstant. rewrite Nat.add_0_l, Hc.
    cbn [mbind option_bind].
    destruct (Nat.ltb_spec n (length (VulkanProgram.specConsts info1)))
      as [Hlt|Hge]; [|lia].
    rewrite specConstant_offset by lia.
    unfold VulkanProgram.storeBytes.
    rewrite length_specConstantBytes, Z2Nat.inj_mul, Nat2Z.id by lia.
    change (Z.to_nat 4) with 4%nat.
    set (D := flat_map (fun c => VulkanProgram.specConstantBytes
                                   (VulkanProgram.value c)) (take n cs))
      in *.
    assert (HD : length D = (n * 4)%nat).
    { unfold D. clear -Hn. revert n Hn.
      induction cs as [|c0 cs IHcs]; intros [|n] Hn; cbn in *;
        try reflexivity; try lia.
      rewrite length_app, length_specConstantBytes, IHcs by lia.
      reflexivity. }
    assert (Hlen1 : length (VulkanProgram.specConstData info1)
                    = (length cs * 4)%nat).
    { rewrite Hd, length_app, HD, length_drop, Hld. lia. }
    destruct (Nat.leb_spec (n * 4 + 4)
                (length (VulkanProgram.specConstData info1)))
      as [Hin|Hout]; [|lia].
    cbn [mbind option_bind]. eexists. split; [reflexivity|].
    cbn [VulkanProgram.usage VulkanProgram.bindingToSamplerIndex
         VulkanProgram.shaders VulkanProgram.specializationInfo
         VulkanProgram.specConsts VulkanProgram.specConstData].
    repeat (split; [assumption|]).
    split; [rewrite length_insert; exact Hl|]. split.
    + intros j c' Hj Hc'. destruct (decide (j = n)) as [->|Hne].
      * rewrite Hc in Hc'. injection Hc' as <-.
        apply list_lookup_insert_eq. exact Hlt.
      * rewrite list_lookup_insert_ne by lia. apply He; [lia | exact Hc'].
    + rewrite Hd. rewrite (take_S_r cs n c Hc), flat_map_app. cbn [flat_map].
      rewrite app_nil_r. fold D.
      rewrite <- HD at 1. rewrite take_app_length.
      replace (n * 4 + 4)%nat with (length D + 4)%nat by lia.
      rewrite drop_app_add, drop_drop, <- app_assoc.
      replace (n * 4 + 4)%nat with (S n * 4)%nat by lia. reflexivity.
Qed.

(** ** The loops of the first constructor *)

Lemma createShaderModules_run
    (vkCreateShaderModule : VulkanProgram.Blob -> VkResult * Z)
    (blobs : list VulkanProgram.Blob) (n i : nat) (modules : list Z) :
  (forall j, (i <= j < i + n)%nat ->
     (vkCreateShaderModule (nth j blobs [])).1 = VK_SUCCESS) ->
  (i + n <= length modules)%nat ->
  exists modules',
    VulkanProgram.createShaderModules vkCreateShaderModule blobs i n modules
    = Some modules'
    /\ length modules' = length modules
    /\ forall j, (i <= j < i + n)%nat ->
         modules' !! j = Some (vkCreateShaderModule (nth j blobs [])).2.
Proof.
  revert i modules. induction n as [|n IH]; intros i modules Hok Hlen.
  - exists modules. cbn. repeat split; try reflexivity. intros; lia.
  - cbn [VulkanProgram.createShaderModules].
    pose proof (Hok i ltac:(lia)) as Hi.
    destruct (vkCreateShaderModule (nth i blobs [])) as [r m] eqn:E.
    cbn in Hi. subst r.
    destruct (IH (S i) (<[i := m]> modules)) as (modules' & Hrun & Hl & Hm).
    { intros j Hj. apply Hok. lia. }
    { rewrite length_insert. lia. }
    exists modules'. split; [exact Hrun|]. rewrite length_insert in Hl.
    split; [exact Hl|]. intros j Hj.
    destruct (decide (j = i)) as [->|Hne].
    + rewrite E. cbn.
      assert (Hkeep : forall k ms ms' i0,
                (i < i0)%nat ->
                VulkanProgram.createShaderModules vkCreateShaderModule blobs
                  i0 k ms = Some ms' ->
                ms' !! i = ms !! i).
      { clear. induction k as [|k IHk]; intros ms ms' i0 Hlt H.
        - cbn in H. injection H as <-. reflexivity.
        - cbn in H.
          destruct (vkCreateShaderModule (nth i0 blobs [])) as [[] m0];
            try discriminate H.
          rewrite (IHk _ _ (S i0) ltac:(lia) H).
          apply list_lookup_insert_ne. lia. }
      rewrite (Hkeep _ _ _ (S i) ltac:(lia) Hrun).
      apply list_lookup_insert_eq. lia.
    + apply Hm. lia.
Qed.

(** What the inner loop does to the vector of sampler indices. *)
Lemma bindSamplers_result (getUsageFlags : Z -> Z -> Z -> Z) (g : nat)
    (flags : Z) (ss : list VulkanProgram.Sampler) (i : nat)
    (info info' : VulkanProgram.PipelineInfo) :
  VulkanProgram.bindSamplers getUsageFlags g flags ss i info = Some info' ->
  VulkanProgram.shaders info' = VulkanProgram.shaders info
  /\ VulkanProgram.specializationInfo info'
     = VulkanProgram.specializationInfo info
  /\ VulkanProgram.specConsts info' = VulkanProgram.specConsts info
  /\ VulkanProgram.specConstData info' = VulkanProgram.specConstData info
  /\ length (VulkanProgram.bindingToSamplerIndex info')
     = length (VulkanProgram.bindingToSamplerIndex info)
  /\ (forall b, b ∉ VulkanProgram.binding <$> ss ->
      VulkanProgram.bindingToSamplerIndex info' !! b
      = VulkanProgram.bindingToSamplerIndex info !! b)
  /\ (NoDup (VulkanProgram.binding <$> ss) ->
      forall j s, ss !! j = Some s ->
      VulkanProgram.bindingToSamplerIndex info' !! VulkanProgram.binding s
      = Some (VulkanProgram.samplerIndex (Z.of_nat g) (Z.of_nat (i + j)))).
Proof.
  revert i info. induction ss as [|s ss IH]; intros i info H.
  - cbn in H. injection H as <-. repeat split; try reflexivity.
    intros _ j s Hs. rewrite lookup_nil in Hs. discriminate Hs.
  - cbn [VulkanProgram.bindSamplers] in H.
    destruct (Nat.ltb_spec (VulkanProgram.binding s)
                (length (VulkanProgram.bindingToSamplerIndex info)))
      as [Hb|Hb]; [|discriminate H].
    apply IH in H as (Hs & Hi & Hc & Hd & Hl & Hout & Hin).
    cbn in Hs, Hi, Hc, Hd, Hl, Hout, Hin. rewrite length_insert in Hl.
    repeat (split; [assumption|]). split.
    + intros b Hnb. rewrite fmap_cons, not_elem_of_cons in Hnb.
      destruct Hnb as [Hne Hnb]. rewrite (Hout b Hnb).
      apply list_lookup_insert_ne. congruence.
    + rewrite fmap_cons, NoDup_cons. intros [Hfresh Hnd] [|j] s' Hs'.
      * cbn in Hs'. injection Hs' as <-. rewrite Nat.add_0_r.
        rewrite (Hout _ Hfresh). apply list_lookup_insert_eq. exact Hb.
      * cbn in Hs'. rewrite (Hin Hnd j s' Hs').
        replace (S (i + j))%nat with (i + S j)%nat by lia. reflexivity.
Qed.

Lemma bindSamplers_defined (getUsageFlags : Z -> Z -> Z -> Z) (g : nat)
    (flags : Z) (ss : list VulkanProgram.Sampler) (i : nat)
    (info : VulkanProgram.PipelineInfo) :
  Forall (fun b => (b < length (VulkanProgram.bindingToSamplerIndex info))%nat)
    (VulkanProgram.binding <$> ss) ->
  is_Some (VulkanProgram.bindSamplers getUsageFlags g flags ss i info).
Proof.
  revert i info. induction ss as [|s ss IH]; intros i info Hall.
  - cbn. eexists. reflexivity.
  - rewrite fmap_cons, Forall_cons in Hall. destruct Hall as [Hb Hall].
    cbn [VulkanProgram.bindSamplers].
    destruct (Nat.ltb_spec (VulkanProgram.binding s)
                (length (VulkanProgram.bindingToSamplerIndex info)))
      as [_|Hge]; [|lia].
    apply IH. cbn. rewrite length_insert. exact Hall.
Qed.

(** What the loop over the groups does to the vector. *)
Lemma bindSamplerGroups_result (getUsageFlags : Z -> Z -> Z -> Z)
    (groups : list VulkanProgram.SamplerGroupData) (g0 : nat)
    (info info' : VulkanProgram.PipelineInfo) :
  VulkanProgram.bindSamplerGroups getUsageFlags groups g0 info = Some info' ->
  VulkanProgram.shaders info' = VulkanProgram.shaders info
  /\ VulkanProgram.specializationInfo info'
     = VulkanProgram.specializationInfo info
  /\ VulkanProgram.specConsts info' = VulkanProgram.specConsts info
  /\ VulkanProgram.specConstData info' = VulkanProgram.specConstData info
  /\ length (VulkanProgram.bindingToSamplerIndex info')
     = length (VulkanProgram.bindingToSamplerIndex info)
  /\ (forall b, b ∉ programBindings groups ->
      VulkanProgram.bindingToSamplerIndex info' !! b
      = VulkanProgram.bindingToSamplerIndex info !! b)
  /\ (NoDup (programBindings groups) ->
      forall k G j s,
        groups !! k = Some G ->
        VulkanProgram.samplers G !! j = Some s ->
        VulkanProgram.bindingToSamplerIndex info' !! VulkanProgram.binding s
        = Some (VulkanProgram.samplerIndex (Z.of_nat (g0 + k))
                  (Z.of_nat j))).
Proof.
  revert g0 info. induction groups as [|G0 groups IH]; intros g0 info H.
  - cbn in H. injection H as <-. repeat split; try reflexivity.
    intros _ k G j s Hk. rewrite lookup_nil in Hk. discriminate Hk.
  - cbn [VulkanProgram.bindSamplerGroups] in H.
    destruct (VulkanProgram.bindSamplers getUsageFlags g0
                (VulkanProgram.stageFlags G0) (VulkanProgram.samplers G0)
                0 info) as [info1|] eqn:E1; [|discriminate H].
    cbn [mbind option_bind] in H.
    apply bindSamplers_result in E1
      as (Hs1 & Hi1 & Hc1 & Hd1 & Hl1 & Hout1 & Hin1).
    apply IH in H as (Hs & Hi & Hc & Hd & Hl & Hout & Hin).
    rewrite Hs, Hi, Hc, Hd, Hl.
    repeat (split; [assumption|]).
    unfold programBindings in *. cbn [flat_map]. split.
    + intros b Hnb. rewrite not_elem_of_app in Hnb.
      destruct Hnb as [Hn0 Hn1]. rewrite (Hout b Hn1). exact (Hout1 b Hn0).
    + rewrite NoDup_app. intros (Hnd0 & Hdisj & Hnd) [|k] G j s Hk Hj.
      * cbn in Hk. injection Hk as <-. rewrite Nat.add_0_r.
        rewrite Hout.
        -- exact (Hin1 Hnd0 j s Hj).
        -- apply Hdisj. apply list_elem_of_fmap. exists s. split; [reflexivity|].
           exact (list_elem_of_lookup_2 _ _ _ Hj).
      * cbn in Hk. rewrite (Hin Hnd k G j s Hk Hj).
        replace (S g0 + k)%nat with (g0 + S k)%nat by lia. reflexivity.
Qed.

Lemma bindSamplerGroups_defined (getUsageFlags : Z -> Z -> Z -> Z)
    (groups : list VulkanProgram.SamplerGroupData) (g0 : nat)
    (info : VulkanProgram.PipelineInfo) :
  Forall (fun b => (b < length (VulkanProgram.bindingToSamplerIndex info))%nat)
    (programBindings groups) ->
  is_Some (VulkanProgram.bindSamplerGroups getUsageFlags groups g0 info).
Proof.
  revert g0 info. induction groups as [|G0 groups IH]; intros g0 info Hall.
  - cbn. eexists. reflexivity.
  - unfold programBindings in Hall. cbn [flat_map] in Hall.
    rewrite Forall_app in Hall. destruct Hall as [H0 Hall].
    cbn [VulkanProgram.bindSamplerGroups].
    destruct (bindSamplers_defined getUsageFlags g0
                (VulkanProgram.stageFlags G0) (VulkanProgram.samplers G0)
                0 info H0) as [info1 E1].
    rewrite E1. cbn [mbind option_bind]. apply IH.
    apply bindSamplers_result in E1 as (_ & _ & _ & _ & Hl1 & _).
    rewrite Hl1. exact Hall.
Qed.

Lemma setSpecConstants_frame (cs : list VulkanProgram.SpecializationConstant)
    (n i : nat) (info info' : VulkanProgram.PipelineInfo) :
  VulkanProgram.setSpecConstants cs i n info = Some info' ->
  VulkanProgram.bindingToSamplerIndex info'
  = VulkanProgram.bindingToSamplerIndex info.
Proof.
  revert i info. induction n as [|n IH]; intros i info H.
  - cbn in H. injection H as <-. reflexivity.
  - cbn [VulkanProgram.setSpecConstants] in H.
    destruct (VulkanProgram.setSpecConstant cs i info) as [info1|] eqn:E;
      [|discriminate H].
    cbn [mbind option_bind] in H. rewrite (IH _ _ H).
    unfold VulkanProgram.setSpecConstant in E.
    destruct (cs !! i) as [c|]; [|discriminate E].
    cbn [mbind option_bind] in E.
    destruct (i <? length (VulkanProgram.specConsts info))%nat;
      [|discriminate E].
    destruct (VulkanProgram.storeBytes _ _ _); [|discriminate E].
    cbn in E. injection E as <-. reflexivity.
Qed.

(** ** The first constructor *)

Lemma lookup_repeat {A : Type} (x : A) (n i : nat) :
  (i < n)%nat -> repeat x n !! i = Some x.
Proof.
  revert i. induction n as [|n IH]; intros [|i] Hi; cbn; try lia;
    [reflexivity | apply IH; lia].
Qed.

(** X21. The constructor of a program lays the specialization constants
    out one after the other: constant [i] has the map entry with its id,
    offset [4 i] and size 4, the data are the four bytes of every constant
    in order ([VK_TRUE] or [VK_FALSE] for a [bool]), with nothing left of
    what the fresh buffer held, every entry lies within [dataSize], and
    reading an entry's bytes gives its constant back.  The constructor
    returns when both shader modules can be created and every sampler
    binding is below [MAX_SAMPLER_COUNT]. *)
Theorem program_specialization_data
    (vkCreateShaderModule : VulkanProgram.Blob -> VkResult * Z)
    (getUsageFlags : Z -> Z -> Z -> Z) (garbage : nat -> Z)
    (builder : VulkanProgram.Program) :
  let cs := VulkanProgram.specializationConstants builder in
  (forall j, (j < VulkanProgram.MAX_SHADER_MODULES)%nat ->
     (vkCreateShaderModule
        (nth j (VulkanProgram.shadersSource builder) [])).1 = VK_SUCCESS) ->
  Forall (fun b => (b < VulkanProgram.MAX_SAMPLER_COUNT)%nat)
    (programBindings (VulkanProgram.samplerGroupInfo builder)) ->
  Z.of_nat (length cs) * 4 < 2 ^ 32 ->
  exists info,
    VulkanProgram.fromProgram vkCreateShaderModule getUsageFlags garbage
      builder = Some info
    /\ VulkanProgram.specConstData info
       = flat_map (fun c => VulkanProgram.specConstantBytes
                              (VulkanProgram.value c)) cs
    /\ length (VulkanProgram.specConsts info) = length cs
    /\ VulkanProgram.mapEntryCount (VulkanProgram.specializationInfo info)
       = Z.of_nat (length cs)
    /\ VulkanProgram.dataSize (VulkanProgram.specializationInfo info)
       = Z.of_nat (length cs) * 4
    /\ forall i c, cs !! i = Some c ->
         exists e,
           VulkanProgram.specConsts info !! i = Some e
           /\ VulkanProgram.constantID e = VulkanProgram.id c
           /\ VulkanProgram.offset e = Z.of_nat i * 4
           /\ VulkanProgram.offset e + VulkanProgram.size e
              <= VulkanProgram.dataSize (VulkanProgram.specializationInfo info)
           /\ field (Z.to_nat (VulkanProgram.offset e))
                (Z.to_nat (VulkanProgram.size e))
                (VulkanProgram.specConstData info)
              = VulkanProgram.specConstantBytes (VulkanProgram.value c).
Proof.
  intros cs Hmod Hbind Hw. unfold VulkanProgram.fromProgram. fold cs.
  destruct (createShaderModules_run vkCreateShaderModule
              (VulkanProgram.shadersSource builder)
              VulkanProgram.MAX_SHADER_MODULES 0
              (VulkanProgram.shaders
                 (VulkanProgram.PipelineInfo_new (length cs) garbage)))
    as (modules & Hm & _).
  { intros j Hj. apply Hmod. lia. }
  { cbn [VulkanProgram.shaders VulkanProgram.PipelineInfo_new].
    rewrite repeat_length. lia. }
  rewrite Hm. cbn [mbind option_bind].
  rewrite (wrap32_small (Z.of_nat (length cs))) by lia.
  rewrite Nat2Z.id.
  match goal with
  | |- context [VulkanProgram.setSpecConstants cs 0 (length cs) ?i1] =>
      set (info1 := i1)
  end.
  destruct (setSpecConstants_run cs (length cs) info1)
    as (info2 & Hrun & _ & Hv2 & _ & Hi2 & Hl2 & He2 & Hd2).
  { lia. }
  { cbn. apply repeat_length. }
  { cbn. rewrite length_map, length_seq. reflexivity. }
  { exact Hw. }
  rewrite Hrun. cbn [mbind option_bind].
  destruct (bindSamplerGroups_defined getUsageFlags
              (VulkanProgram.samplerGroupInfo builder) 0 info2)
    as [info Hg].
  { rewrite Hv2. unfold info1.
    cbn [VulkanProgram.bindingToSamplerIndex VulkanProgram.PipelineInfo_new].
    rewrite repeat_length. exact Hbind. }
  rewrite Hg. exists info. split; [reflexivity|].
  apply bindSamplerGroups_result in Hg as (_ & Hi & Hc & Hd & _).
  rewrite Hi, Hc, Hd, Hi2, Hd2, Hl2.
  rewrite firstn_all, drop_ge, app_nil_r
    by (cbn; rewrite length_map, length_seq; lia).
  assert (Hinfo : VulkanProgram.mapEntryCount
                    (VulkanProgram.specializationInfo info1)
                  = Z.of_nat (length cs)
                  /\ VulkanProgram.dataSize
                       (VulkanProgram.specializationInfo info1)
                     = Z.of_nat (length cs) * 4).
  { subst info1. cbn.
    destruct (Z.ltb_spec 0 (Z.of_nat (length cs))) as [Hpos|Hzero]; cbn.
    - split; [reflexivity | apply wrap32_small; lia].
    - split; lia. }
  destruct Hinfo as [Hcount Hsize]. rewrite Hcount, Hsize.
  repeat (split; [reflexivity|]).
  intros i c Hc'.
  pose proof (lookup_lt_Some _ _ _ Hc') as Hlt.
  eexists. split; [apply (He2 i c Hlt Hc')|].
  cbn [VulkanProgram.constantID VulkanProgram.offset VulkanProgram.size].
  split; [reflexivity|]. split; [reflexivity|]. split; [lia|].
  rewrite Z2Nat.inj_mul, Nat2Z.id by lia.
  change (Z.to_nat 4) with 4%nat.
  rewrite (field_flat_map 4 _ c) by (auto using length_specConstantBytes).
  rewrite (nth_lookup_Some _ _ _ _ Hc'). reflexivity.
Qed.

Lemma program_specialization_data_witness :
  exists info,
    VulkanProgram.fromProgram exampleCreateShaderModule exampleUsageFlags
      (fun _ => 170) exampleProgram = Some info
    /\ VulkanProgram.specConstData info
       = [1; 0; 0; 0; 254; 255; 255; 255]
    /\ VulkanProgram.dataSize (VulkanProgram.specializationInfo info) = 8.
Proof.
  destruct (program_specialization_data exampleCreateShaderModule
              exampleUsageFlags (fun _ => 170) exampleProgram)
    as (info & Hrun & Hd & _ & _ & Hs & _).
  - intros j _. reflexivity.
  - unfold programBindings, VulkanProgram.MAX_SAMPLER_COUNT,
      SAMPLER_BINDING_COUNT. cbn.
    repeat (constructor; [lia|]). constructor.
  - cbn. lia.
  - exists info. split; [exact Hrun|]. split; [exact Hd | exact Hs].
Defined.

(** X22. In the program a constructor built from sampler groups that name
    every binding once, the vector of sampler indices has
    [MAX_SAMPLER_COUNT] elements; the element of a binding holds the group
    of its sampler in the top 8 bits and the sampler's index within the
    group in the low 8 bits, and the element of a binding that no sampler
    names is still [0xffff]. *)
Theorem program_sampler_indices
    (vkCreateShaderModule : VulkanProgram.Blob -> VkResult * Z)
    (getUsageFlags : Z -> Z -> Z -> Z) (garbage : nat -> Z)
    (builder : VulkanProgram.Program) (info : VulkanProgram.PipelineInfo) :
  let groups := VulkanProgram.samplerGroupInfo builder in
  VulkanProgram.fromProgram vkCreateShaderModule getUsageFlags garbage
    builder = Some info ->
  NoDup (programBindings groups) ->
  length (VulkanProgram.bindingToSamplerIndex info)
  = VulkanProgram.MAX_SAMPLER_COUNT
  /\ (forall k G j s,
        groups !! k = Some G ->
        VulkanProgram.samplers G !! j = Some s ->
        (k < 2 ^ 8)%nat ->
        (j < 2 ^ 8)%nat ->
        exists v,
          VulkanProgram.bindingToSamplerIndex info !! VulkanProgram.binding s
          = Some v
          /\ Z.shiftr v 8 = Z.of_nat k
          /\ Z.land v 0xff = Z.of_nat j)
  /\ (forall b,
        (b < VulkanProgram.MAX_SAMPLER_COUNT)%nat ->
        b ∉ programBindings groups ->
        VulkanProgram.bindingToSamplerIndex info !! b = Some 0xffff).
Proof.
  intros groups H Hnd. unfold VulkanProgram.fromProgram in H.
  destruct (VulkanProgram.createShaderModules _ _ _ _ _) as [modules|];
    [|discriminate H].
  cbn [mbind option_bind] in H.
  destruct (VulkanProgram.setSpecConstants _ _ _ _) as [info2|] eqn:E2;
    [|discriminate H].
  cbn [mbind option_bind] in H.
  apply setSpecConstants_frame in E2.
  cbn [VulkanProgram.bindingToSamplerIndex VulkanProgram.PipelineInfo_new]
    in E2.
  apply bindSamplerGroups_result in H as (_ & _ & _ & _ & Hl & Hout & Hin).
  rewrite E2 in Hl, Hout. rewrite repeat_length in Hl.
  split; [exact Hl|]. split.
  - intros k G j s Hk Hj Hk8 Hj8.
    eexists. split; [exact (Hin Hnd k G j s Hk Hj)|].
    destruct (samplerIndex_decode (Z.of_nat (0 + k)) (Z.of_nat j))
      as (H1 & H2 & _).
    { change (2 ^ 8)%nat with 256%nat in Hk8. lia. }
    split; [rewrite H1; reflexivity|]. rewrite H2.
    apply Z.mod_small. change (2 ^ 8)%nat with 256%nat in Hj8. lia.
  - intros b Hb Hnb. rewrite (Hout b Hnb).
    apply lookup_repeat. exact Hb.
Qed.

Lemma program_sampler_indices_witness :
  exists info,
    VulkanProgram.fromProgram exampleCreateShaderModule exampleUsageFlags
      (fun _ => 170) exampleProgram = Some info
    /\ VulkanProgram.bindingToSamplerIndex info !! 9%nat = Some 257
    /\ VulkanProgram.bindingToSamplerIndex info !! 5%nat = Some 0xffff.
Proof.
  assert (Hrun : is_Some (VulkanProgram.fromProgram exampleCreateShaderModule
                            exampleUsageFlags (fun _ => 170) exampleProgram))
    by (vm_compute; eexists; reflexivity).
  destruct Hrun as [info Hrun]. exists info. split; [exact Hrun|].
  assert (Hnd : NoDup (programBindings
                         (VulkanProgram.samplerGroupInfo exampleProgram))).
  { unfold programBindings. cbn. apply NoDup_ListNoDup.
    repeat (constructor; [cbn; intuition discriminate|]). constructor. }
  destruct (program_sampler_indices _ _ _ _ info Hrun Hnd)
    as (_ & Hin & Hout).
  split.
  - destruct (Hin 1%nat _ 1%nat {| VulkanProgram.binding := 9 |}
                eq_refl eq_refl) as (v & Hv & H1 & H2);
      [cbn; lia | cbn; lia |].
    cbn in Hv. rewrite Hv. f_equal.
    rewrite <- (Z.lor_ldiff_and v 0xff) at 1.
    change 0xff with (Z.ones 8) at 1. rewrite Z.ldiff_ones_r by lia.
    rewrite H1, H2. reflexivity.
  - apply Hout.
    + unfold VulkanProgram.MAX_SAMPLER_COUNT, SAMPLER_BINDING_COUNT. lia.
    + unfold programBindings. cbn. rewrite !not_elem_of_cons.
      repeat (split; [lia|]). apply not_elem_of_nil.
Defined.
